(** * PDF_Search_highlight: the match / filter / aggregate pipeline and the
      annotation renderer, embedded in Rocq

    The development follows three source files:
    - [search_function.py]      (module [search_function] below),
    - [co_occurance_search.py]  (module [co_occurance_search]),
    - [pdf_highlighter.py]      (module [pdf_highlighter]).
    The names of the files these functions write, [load_terms_from_file]
    and the two functions that chain the search and the renderer
    ([search_and_highlight] of [combined_together.py] and
    [search_and_highlight_co_occurrence]) are in the modules [io] and
    [pipeline].

    Conventions of the embedding.
    - A Python [str] is a [string]; character-level functions work on its
      [list ascii].  Text is taken to be ASCII: letters are [A-Z] and [a-z],
      word characters are letters, digits and the underscore, white space is
      what [str.isspace] accepts below code 128.
    - A pandas DataFrame is the list of its rows in order; every row carries
      its index label.  Columns added on the way ([similarity],
      [search_term], ...) are the extra fields of the result records.
    - A cell of a numeric column is the rational number written in the file
      ([Q]).  Where the code computes with coordinates they are binary64
      numbers: the cell is rounded to the nearest one, and the distance is
      computed and compared in binary64 arithmetic ([PrimFloat]).  The
      scores of [rapidfuzz] are kept as exact rationals.
    - A date cell is represented by the day number [pd.to_datetime] parses it
      to, [None] where pandas yields [NaT].
    - A file is named by its path from the working directory, or by its
      absolute path when it lies elsewhere, without [.], [..] and empty
      components; the file system is the set of the names of the files
      that exist.  Links and directories are not modelled.
    - The functions of the libraries the code calls ([re], [rapidfuzz],
      [pandas], [pymupdf], [pypdf], [os], [glob]) are modelled by what their
      documentation says they compute, on the fragment the pipeline uses. *)

From stdpp Require Import gmap strings.
From Stdlib Require Import List String Ascii Bool Arith ZArith QArith Qround Qpower Lia Lqa.
From Stdlib Require Import Permutation Sorted.
From Stdlib Require Import Reals Qreals R_sqrt Lra.
From Stdlib Require Import Floats.
From Stdlib Require Import DecimalString.
Import ListNotations.

#[local] Open Scope string_scope.
#[local] Open Scope list_scope.
#[local] Open Scope nat_scope.

(* ================================================================== *)
(** * Results of fallible code *)
(* ================================================================== *)

(** Exceptions that leave the modelled functions. *)
Inductive exn : Type :=
| NameError (name : string)      (* a global name that is not bound *)
| ReNotModelled (pattern : string) (* a pattern outside the fragment of [re] below *)
| IOError (what : string).       (* an exception of the file layer *)

Inductive res (A : Type) : Type :=
| Ok (a : A)
| Raise (e : exn).
Arguments Ok {A} a.
Arguments Raise {A} e.

#[export] Instance res_ret : MRet res := fun A a => Ok a.
#[export] Instance res_bind : MBind res := fun A B k m =>
  match m with
  | Ok a => k a
  | Raise e => Raise e
  end.

(** [for x in l: acc = body(x, acc)], leaving the loop at the first exception. *)
Fixpoint for_each {A S} (body : A -> S -> res S) (l : list A) (s : S) : res S :=
  match l with
  | [] => Ok s
  | x :: l' => s' ← body x s; for_each body l' s'
  end.

(* ================================================================== *)
(** * Python strings *)
(* ================================================================== *)

Module py.

Definition chars (s : string) : list ascii := list_ascii_of_string s.
Definition str (l : list ascii) : string := string_of_list_ascii l.

Definition code (c : ascii) : nat := nat_of_ascii c.

Definition is_upper (c : ascii) : bool := (65 <=? code c) && (code c <=? 90).
Definition is_lower (c : ascii) : bool := (97 <=? code c) && (code c <=? 122).
Definition is_alpha (c : ascii) : bool := is_upper c || is_lower c.
Definition is_digit (c : ascii) : bool := (48 <=? code c) && (code c <=? 57).
Definition is_alnum (c : ascii) : bool := is_alpha c || is_digit c.

(** [str.isspace] on one character: TAB, LF, VT, FF, CR, FS, GS, RS, US and
    the space. *)
Definition is_space (c : ascii) : bool :=
  ((9 <=? code c) && (code c <=? 13)) || ((28 <=? code c) && (code c <=? 32)).

(** [\w] of [re]. *)
Definition is_word (c : ascii) : bool := is_alnum c || (code c =? 95).

Definition lower_char (c : ascii) : ascii :=
  if is_upper c then ascii_of_nat (code c + 32) else c.

(** [s.lower()] *)
Definition lower (s : list ascii) : list ascii := map lower_char s.

Definition eqb_chars (a b : list ascii) : bool :=
  if list_eq_dec ascii_dec a b then true else false.

(** [a.startswith(b)], read as "b is a prefix of a". *)
Fixpoint starts_with (p s : list ascii) : bool :=
  match p, s with
  | [], _ => true
  | _ :: _, [] => false
  | a :: p', b :: s' => Ascii.eqb a b && starts_with p' s'
  end.

(** [p in s] on strings: [p] occurs in [s] as a contiguous substring. *)
Fixpoint contains (p s : list ascii) : bool :=
  starts_with p s ||
  match s with
  | [] => false
  | _ :: s' => contains p s'
  end.

(** [s.lstrip()], [s.rstrip()], [s.strip()] *)
Fixpoint lstrip (s : list ascii) : list ascii :=
  match s with
  | [] => []
  | c :: s' => if is_space c then lstrip s' else s
  end.
Definition rstrip (s : list ascii) : list ascii := rev (lstrip (rev s)).
Definition strip (s : list ascii) : list ascii := rstrip (lstrip s).

(** [s.split()]: the maximal runs of characters that are not white space.
    [cur] is the word being read, reversed. *)
Fixpoint split_from (cur : list ascii) (s : list ascii) : list (list ascii) :=
  match s with
  | [] => match cur with [] => [] | _ :: _ => [rev cur] end
  | c :: s' =>
      if is_space c
      then match cur with
           | [] => split_from [] s'
           | _ :: _ => rev cur :: split_from [] s'
           end
      else split_from (c :: cur) s'
  end.
Definition split (s : list ascii) : list (list ascii) := split_from [] s.

(** [s.replace(old, new)] for a non-empty [old]: every occurrence, left to
    right, without overlap.  [skip] counts the characters of a matched
    occurrence that are still to be dropped. *)
Fixpoint replace_from (old new : list ascii) (skip : nat) (s : list ascii)
  : list ascii :=
  match s with
  | [] => []
  | c :: s' =>
      match skip with
      | S k => replace_from old new k s'
      | O =>
          if starts_with old s
          then new ++ replace_from old new (List.length old - 1) s'
          else c :: replace_from old new 0 s'
      end
  end.
Definition replace (old new s : list ascii) : list ascii :=
  replace_from old new 0 s.

(** [s.endswith(suffix)] *)
Definition ends_with (suffix s : list ascii) : bool :=
  starts_with (rev suffix) (rev s).

(** [sep.join(l)] *)
Fixpoint join (sep : list ascii) (l : list (list ascii)) : list ascii :=
  match l with
  | [] => []
  | [x] => x
  | x :: l' => x ++ sep ++ join sep l'
  end.

(** [x in l] for a list of strings. *)
Definition mem (x : list ascii) (l : list (list ascii)) : bool :=
  existsb (eqb_chars x) l.

(** The truth value of an optional string argument: [None] and [''] are false. *)
Definition truthy (s : option string) : bool :=
  match s with
  | None => false
  | Some s => negb (String.eqb s "")
  end.

End py.

(* ================================================================== *)
(** * The fragment of [re] the pipeline reaches *)
(* ================================================================== *)

Module re.

(** Compiled patterns: a sequence of literals, [.] and [\b].  A literal is
    compared without regard to case, as under [re.IGNORECASE], which is how
    every pattern of the pipeline is compiled ([case=False]). *)
Inductive atom : Type :=
| Lit (c : ascii)
| AnyChar
| WordBoundary.

(** The characters with a special meaning outside a character class. *)
Definition is_special (c : ascii) : bool :=
  existsb (Ascii.eqb c) (py.chars ".^$*+?{}[]\|()").

(** [re.compile(pattern)] on the fragment: an ordinary character stands
    for itself, [.] for any character but a newline, [\b] for a word
    boundary, a backslash before a character that is not alphanumeric for
    that character.  Every other construct is outside the fragment. *)
Fixpoint parse (p : list ascii) : option (list atom) :=
  match p with
  | [] => Some []
  | c :: rest =>
      if Ascii.eqb c "\"
      then match rest with
           | [] => None
           | d :: rest' =>
               if Ascii.eqb d "b" then option_map (cons WordBoundary) (parse rest')
               else if py.is_alnum d then None
               else option_map (cons (Lit d)) (parse rest')
           end
      else if Ascii.eqb c "." then option_map (cons AnyChar) (parse rest)
      else if is_special c then None
      else option_map (cons (Lit c)) (parse rest)
  end.

Definition compile (pattern : string) : res (list atom) :=
  match parse (py.chars pattern) with
  | Some r => Ok r
  | None => Raise (ReNotModelled pattern)
  end.

(** [re.escape(s)] (Python 3.7 and later): a backslash before each of the
    characters the function lists, nothing before the others. *)
Definition escaped_chars : list ascii :=
  py.chars "()[]{}?*+-|^$\.&~# " ++ map ascii_of_nat [9; 10; 13; 11; 12].

Definition escape_char (c : ascii) : list ascii :=
  if existsb (Ascii.eqb c) escaped_chars then ["\"%char; c] else [c].

Definition escape (s : list ascii) : list ascii := flat_map escape_char s.

Definition is_word_opt (c : option ascii) : bool :=
  match c with
  | Some c => py.is_word c
  | None => false
  end.

(** A word boundary lies between [prev] and the head of [s] when exactly
    one of the two is a word character; the ends of the string count as
    non-word. *)
Definition at_boundary (prev : option ascii) (s : list ascii) : bool :=
  xorb (is_word_opt prev) (is_word_opt (hd_error s)).

Definition eqb_ci (a b : ascii) : bool :=
  Ascii.eqb (py.lower_char a) (py.lower_char b).

(** The pattern matches at the current position: [prev] is the character
    before it, [s] the rest of the subject. *)
Fixpoint match_here (r : list atom) (prev : option ascii) (s : list ascii) : bool :=
  match r with
  | [] => true
  | Lit c :: r' =>
      match s with
      | x :: s' => eqb_ci c x && match_here r' (Some x) s'
      | [] => false
      end
  | AnyChar :: r' =>
      match s with
      | x :: s' => negb (Ascii.eqb x (ascii_of_nat 10)) && match_here r' (Some x) s'
      | [] => false
      end
  | WordBoundary :: r' => at_boundary prev s && match_here r' prev s
  end.

Fixpoint search_from (r : list atom) (prev : option ascii) (s : list ascii) : bool :=
  match_here r prev s ||
  match s with
  | [] => false
  | x :: s' => search_from r (Some x) s'
  end.

(** [regex.search(s) is not None] *)
Definition search (r : list atom) (s : list ascii) : bool := search_from r None s.

(** [re.sub(r'[^a-zA-Z\s]', ' ', s)] *)
Definition sub_non_alpha (s : list ascii) : list ascii :=
  map (fun c => if py.is_alpha c || py.is_space c then c else " "%char) s.

(** [re.sub(r'\s+', ' ', s)]: [in_run] tells that the previous character
    was white space, already replaced. *)
Fixpoint sub_spaces_from (in_run : bool) (s : list ascii) : list ascii :=
  match s with
  | [] => []
  | c :: s' =>
      if py.is_space c
      then if in_run then sub_spaces_from true s'
           else " "%char :: sub_spaces_from true s'
      else c :: sub_spaces_from false s'
  end.
Definition sub_spaces (s : list ascii) : list ascii := sub_spaces_from false s.

End re.

(* ================================================================== *)
(** * [rapidfuzz.fuzz.ratio] and Python's [round] *)
(* ================================================================== *)

Module fuzz.

(** Length of a longest common subsequence. *)
Fixpoint lcs (s t : list ascii) : nat :=
  match s with
  | [] => 0
  | a :: s' =>
      (fix inner (t : list ascii) : nat :=
         match t with
         | [] => 0
         | b :: t' =>
             if Ascii.eqb a b then S (lcs s' t')
             else Nat.max (lcs s' t) (inner t')
         end) t
  end.

(** The Indel distance: the least number of insertions and deletions that
    turn [s] into [t]. *)
Definition indel_distance (s t : list ascii) : nat :=
  List.length s + List.length t - 2 * lcs s t.

(** [fuzz.ratio(s, t)]: the normalized Indel similarity, scaled to 0..100;
    two empty strings are fully similar. *)
Definition ratio (s t : list ascii) : Q :=
  let total := List.length s + List.length t in
  if total =? 0 then 100
  else 100 * (1 - (Z.of_nat (indel_distance s t) # Pos.of_nat total)).

End fuzz.

(** [round(x)] on a float: the nearest integer, the even one on a tie. *)
Definition py_round (x : Q) : Z :=
  let f := Qfloor x in
  match Qcompare (x - inject_Z f) (1 # 2) with
  | Lt => f
  | Gt => (f + 1)%Z
  | Eq => if Z.even f then f else (f + 1)%Z
  end.

(** [max(l)] for a non-empty list of integers, [0] standing for the empty one. *)
Definition max_list (l : list Z) : Z :=
  match l with
  | [] => 0%Z
  | x :: l' => fold_left Z.max l' x
  end.

(* ================================================================== *)
(** * DataFrames *)
(* ================================================================== *)

Module pandas.

(** One line of the positional corpus: the columns the extraction script
    writes for each text span. *)
Record Span : Type := mkSpan {
  filename : string;
  page_number : Z;
  date : option Z;            (* day number; [None] is NaT *)
  text : option string;       (* [None] is an empty cell (NaN) *)
  size : Q;
  bbx0 : Q;
  bby0 : Q;
  bbx1 : Q;
  bby1 : Q;
  page_number_in_pdf : Z
}.

(** A row of the corpus DataFrame: the cells and the index label. *)
Record Row : Type := mkRow {
  index : nat;
  cells :> Span
}.

(** [pd.read_csv]: the lines in order, labelled by a RangeIndex. *)
Definition read_csv (lines : list Span) : list Row :=
  map (fun p => mkRow (fst p) (snd p)) (combine (seq 0 (List.length lines)) lines).

Definition option_eqb {A} (eqb : A -> A -> bool) (a b : option A) : bool :=
  match a, b with
  | None, None => true
  | Some x, Some y => eqb x y
  | _, _ => false
  end.

(** Two lines agree on every column. *)
Definition span_eqb (a b : Span) : bool :=
  String.eqb (filename a) (filename b)
  && Z.eqb (page_number a) (page_number b)
  && option_eqb Z.eqb (date a) (date b)
  && option_eqb String.eqb (text a) (text b)
  && Qeq_bool (size a) (size b)
  && Qeq_bool (bbx0 a) (bbx0 b) && Qeq_bool (bby0 a) (bby0 b)
  && Qeq_bool (bbx1 a) (bbx1 b) && Qeq_bool (bby1 a) (bby1 b)
  && Z.eqb (page_number_in_pdf a) (page_number_in_pdf b).

Section Frames.
Context {A : Type}.
Variable label : A -> nat.

(** [df.loc[labels]]: for each label in turn, the rows that carry it. *)
Definition loc (labels : list nat) (df : list A) : list A :=
  flat_map (fun i => List.filter (fun r => label r =? i) df) labels.

(** [df.drop(labels)]: the rows whose label is not listed. *)
Definition drop (labels : list nat) (df : list A) : list A :=
  List.filter (fun r => negb (existsb (Nat.eqb (label r)) labels)) df.

(** [df.iloc[i : i + n]] *)
Definition iloc (i n : nat) (df : list A) : list A := firstn n (skipn i df).

End Frames.

(** [df.drop_duplicates()]: a row is kept unless an earlier row has the
    same value in every column. [seen] holds the rows kept so far. *)
Fixpoint drop_duplicates_from {A} (same : A -> A -> bool) (seen l : list A) : list A :=
  match l with
  | [] => []
  | x :: l' =>
      if existsb (same x) seen then drop_duplicates_from same seen l'
      else x :: drop_duplicates_from same (x :: seen) l'
  end.
Definition drop_duplicates {A} (same : A -> A -> bool) (l : list A) : list A :=
  drop_duplicates_from same [] l.

(** [df.sort_values(by=[...])] with several keys is a stable sort: rows
    that agree on every key keep their order. [leb] is the order of the
    keys. *)
Fixpoint insert_row {A} (leb : A -> A -> bool) (x : A) (l : list A) : list A :=
  match l with
  | [] => [x]
  | y :: l' => if leb x y then x :: l else y :: insert_row leb x l'
  end.
Fixpoint sort_values {A} (leb : A -> A -> bool) (l : list A) : list A :=
  match l with
  | [] => []
  | x :: l' => insert_row leb x (sort_values leb l')
  end.

(** Comparison of two cells of a datetime column, ascending, NaT last. *)
Definition compare_date (a b : option Z) : comparison :=
  match a, b with
  | Some x, Some y => Z.compare x y
  | Some _, None => Lt
  | None, Some _ => Gt
  | None, None => Eq
  end.

(** The next key decides when the first does not. *)
Definition then_by (c1 c2 : comparison) : comparison :=
  match c1 with
  | Eq => c2
  | _ => c1
  end.

Definition not_after (c : comparison) : bool :=
  match c with
  | Gt => false
  | _ => true
  end.

(** A Python dict with string keys, in insertion order: assigning to a key
    that is present keeps its place. *)
Fixpoint dict_set {V} (k : string) (v : V) (d : list (string * V)) : list (string * V) :=
  match d with
  | [] => [(k, v)]
  | (k', v') :: d' =>
      if String.eqb k' k then (k, v) :: d' else (k', v') :: dict_set k v d'
  end.

Fixpoint dict_get {V} (k : string) (d : list (string * V)) : option V :=
  match d with
  | [] => None
  | (k', v) :: d' => if String.eqb k' k then Some v else dict_get k d'
  end.

(** [df[df['text'].str.contains(pattern, case=False, na=False)]]: the
    pattern is a regular expression (the default [regex=True]), compiled
    once; a row with an empty cell does not match. *)
Definition text_matches (r : list re.atom) (row : Span) : bool :=
  match text row with
  | None => false
  | Some t => re.search r (py.chars t)
  end.

(** [r'\b' + re.escape(term) + r'\b'] *)
Definition whole_word_pattern (term : string) : string :=
  py.str (py.chars "\b" ++ re.escape (py.chars term) ++ py.chars "\b").

Definition str_contains (pattern : string) (df : list Row) : res (list Row) :=
  r ← re.compile pattern;
  Ok (List.filter (fun row : Row => text_matches r row) df).

End pandas.

(** The optional arguments of the search functions. *)
Inductive terms_arg : Type :=
| TermsNone
| TermsStr (s : string)
| TermsList (l : list string).

(** A date bound as the caller gives it: absent (or empty), a string
    [pd.to_datetime] parses, or one it rejects. *)
Inductive date_arg : Type :=
| DateNone
| DateOk (day : Z)
| DateBad.

(* ================================================================== *)
(** * search_function.py *)
(* ================================================================== *)

Module search_function.
Import pandas.

(** A row of the result: the corpus row and the [similarity] column. *)
Record Match : Type := mkMatch {
  row :> Row;
  similarity : Z
}.

Definition match_eqb (a b : Match) : bool :=
  span_eqb a b && Z.eqb (similarity a) (similarity b).

(** [clean_text(text)]; a value that is not a string gives the empty
    string. *)
Definition clean_text (text : option string) : list ascii :=
  match text with
  | None => []
  | Some t => py.strip (re.sub_spaces (re.sub_non_alpha (py.chars t)))
  end.

(** [word_level_similarity(search_term, text)] *)
Definition word_level_similarity (search_term : string) (text : option string) : Z :=
  match text with
  | None => 0
  | Some _ =>
      let clean_search := py.lower (clean_text (Some search_term)) in
      let clean_text_str := py.lower (clean_text text) in
      if py.mem clean_search (py.split clean_text_str) then 100
      else
        let words := py.split clean_text_str in
        match words with
        | [] => 0
        | _ :: _ =>
            let scores := map (fun word => py_round (fuzz.ratio clean_search word)) words in
            max_list scores
        end
  end%Z.

(** [row['bbx0']]: the binary64 number a coordinate cell is read as.  The
    parser of [pd.read_csv] is taken to give the number nearest to the one
    written in the file, as [float] does (the quotient of the numerator by
    the denominator, rounded once, to nearest, ties to even); a number
    that binary64 holds, an integer below 2^53 for one, is read as itself.
    A coordinate is a point of a page, a finite number: a cell beyond the
    range of binary64, which would be read as an infinity, is outside the
    data, and the last case stands for it. *)
Definition to_float (cell : Q) : float :=
  let f := SF2Prim
             match Qnum cell with
             | Z0 => S754_zero false
             | Zpos m =>
                 SFdiv prec emax (S754_finite false m 0) (S754_finite false (Qden cell) 0)
             | Zneg m =>
                 SFdiv prec emax (S754_finite true m 0) (S754_finite false (Qden cell) 0)
             end in
  match Prim2SF f with
  | S754_zero _ | S754_finite _ _ _ => f
  | S754_infinity _ | S754_nan => PrimFloat.zero
  end.

(** [calculate_distance(x1, y1, x2, y2)]:
    [math.sqrt((x2 - x1)**2 + (y2 - y1)**2)] on binary64 numbers, every
    operation rounded to nearest.  [d ** 2], the [pow] of the C library,
    is taken to be the correctly rounded square, the product [d * d]. *)
Definition calculate_distance (x1 y1 x2 y2 : float) : float :=
  PrimFloat.sqrt
    (PrimFloat.add
       (PrimFloat.mul (PrimFloat.sub x2 x1) (PrimFloat.sub x2 x1))
       (PrimFloat.mul (PrimFloat.sub y2 y1) (PrimFloat.sub y2 y1))).

(** The rational number a finite binary64 number is. *)
Definition number_of (s : bool) (m : positive) (e : Z) : Q :=
  inject_Z (if s then Zneg m else Zpos m) * Qpower 2 e.

(** [distance <= negation_distance]: Python compares the two numbers by
    their values; [negation_distance] is a finite number, integer or
    float. *)
Definition distance_le (distance : float) (negation_distance : Q) : bool :=
  match Prim2SF distance with
  | S754_nan => false
  | S754_infinity s => s
  | S754_zero _ => Qle_bool 0 negation_distance
  | S754_finite s m e => Qle_bool (number_of s m e) negation_distance
  end.

(** [distance < min_distance] *)
Definition distance_lt (distance min_distance : float) : bool :=
  PrimFloat.ltb distance min_distance.

(** Lines 72-73 and the test of line 136: a single term is wrapped in a
    list; [None], [''] and [[]] count as no negation term. *)
Definition negation_list (negation_terms : terms_arg) : list string :=
  match negation_terms with
  | TermsNone => []
  | TermsStr s => if String.eqb s "" then [] else [s]
  | TermsList l => l
  end.

(** Lines 144-151: the occurrences of each negation term, and their
    total. *)
Definition find_negations (df : list Row) (term : string)
    (acc : list (string * list Row) * nat) : res (list (string * list Row) * nat) :=
  term_matches ← str_contains (whole_word_pattern term) df;
  Ok (dict_set term term_matches (fst acc), snd acc + List.length term_matches).

(** The variables of the loop of lines 165-184. *)
Record scan : Type := mkScan {
  has_nearby_negation : bool;
  excluding_term : option string;
  min_distance : float
}.

(** [min_distance = float('inf')] *)
Definition scan_start : scan := mkScan false None PrimFloat.infinity.

(** Lines 176-183, for one negation occurrence. *)
Definition check_negation (x1 y1 : float) (negation_distance : Q) (term : string)
    (st : scan) (neg_row : Row) : scan :=
  let distance := calculate_distance x1 y1 (to_float (bbx0 neg_row))
                                     (to_float (bby0 neg_row)) in
  if distance_le distance negation_distance && distance_lt distance (min_distance st)
  then mkScan true (Some term) distance
  else st.

(** Lines 170-183, for one negation term. *)
Definition check_term (file : string) (x1 y1 : float) (negation_distance : Q)
    (st : scan) (entry : string * list Row) : scan :=
  let file_negations :=
    List.filter (fun n : Row => String.eqb (filename n) file) (snd entry) in
  fold_left (check_negation x1 y1 negation_distance (fst entry)) file_negations st.

(** Lines 160-184, for one search result. *)
Definition scan_result (negation_matches_dict : list (string * list Row))
    (negation_distance : Q) (r : Match) : scan :=
  fold_left (check_term (filename r) (to_float (bbx0 r)) (to_float (bby0 r))
                        negation_distance)
            negation_matches_dict scan_start.

(** Lines 157-190: the labels of the results with no negation nearby. *)
Definition results_to_keep (negation_matches_dict : list (string * list Row))
    (negation_distance : Q) (search_results : list Match) : list nat :=
  flat_map (fun r : Match =>
              if has_nearby_negation (scan_result negation_matches_dict negation_distance r)
              then [] else [index r])
           search_results.

(** Lines 136-199. *)
Definition negation_filter (df : list Row) (negation_terms : list string)
    (negation_distance : Q) (search_results : list Match) : res (list Match) :=
  match negation_terms, search_results with
  | _ :: _, _ :: _ =>
      found ← for_each (find_negations df) negation_terms ([], 0);
      let negation_matches_dict := fst found in
      let total_negation_matches := snd found in
      if 0 <? total_negation_matches
      then Ok (loc (fun r : Match => index r)
                   (results_to_keep negation_matches_dict negation_distance search_results)
                   search_results)
      else Ok search_results
  | _, _ => Ok search_results
  end.

(** Lines 104-130: the rows left are scored in chunks of [chunk_size]. *)
Definition chunk_size : nat := 100 * 100.

Definition fuzzy_chunk (search_term : string) (similarity_threshold : Z)
    (chunk : list Row) : list Match :=
  List.filter (fun m => (similarity_threshold <=? similarity m)%Z)
    (map (fun r : Row => mkMatch r (word_level_similarity search_term (text r))) chunk).

Definition fuzzy_matches_chunks (search_term : string) (similarity_threshold : Z)
    (remaining_df : list Row) : list (list Match) :=
  let total_chunks := (List.length remaining_df + chunk_size - 1) / chunk_size in
  map (fun k => fuzzy_chunk search_term similarity_threshold
                  (iloc (k * chunk_size) chunk_size remaining_df))
      (seq 0 total_chunks).

(** Lines 97-133: the exact stage, the fuzzy stage and their union. *)
Definition exact_stage (search_term : string) (df : list Row) : res (list Match) :=
  rows ← str_contains search_term df;
  Ok (map (fun r => mkMatch r 100) rows).

Definition fuzzy_stage (search_term : string) (similarity_threshold : Z)
    (df : list Row) (exact_matches : list Match) : list Match :=
  let remaining_df := drop index (map (fun m : Match => index m) exact_matches) df in
  List.concat (fuzzy_matches_chunks search_term similarity_threshold remaining_df).

Definition matching (search_term : string) (similarity_threshold : Z)
    (df : list Row) : res (list Match) :=
  exact_matches ← exact_stage search_term df;
  let fuzzy_matches := fuzzy_stage search_term similarity_threshold df exact_matches in
  Ok (drop_duplicates match_eqb (exact_matches ++ fuzzy_matches)).

(** A comparison of a datetime cell with a bound is false on NaT. *)
Definition date_ge (d : option Z) (bound : Z) : bool :=
  match d with
  | Some x => (bound <=? x)%Z
  | None => false
  end.
Definition date_le (d : option Z) (bound : Z) : bool :=
  match d with
  | Some x => (x <=? bound)%Z
  | None => false
  end.

(** Lines 212-252.  A bound that does not parse raises inside the [try],
    and again inside the second attempt: the filters applied before it
    stay, the later ones are not reached. *)
Definition date_filter (start_date end_date : date_arg) (search_results : list Match)
  : list Match :=
  match start_date with
  | DateBad => search_results
  | _ =>
      let after_start :=
        match start_date with
        | DateOk start_dt =>
            List.filter (fun m : Match => date_ge (date m) start_dt) search_results
        | _ => search_results
        end in
      match end_date with
      | DateOk end_dt =>
          List.filter (fun m : Match => date_le (date m) end_dt) after_start
      | _ => after_start
      end
  end.

(** Lines 263-268: the keys of the final order. *)
Definition by_date_page (a b : Match) : bool :=
  not_after (then_by (compare_date (date a) (date b))
                     (Z.compare (page_number a) (page_number b))).

(** [search_documents]: the DataFrame of the results, [None] where the
    function returns [None] with a message. *)
Definition search_documents (search_term : string) (csv_file : option (list Span))
    (similarity_threshold : Z) (negation_terms : terms_arg) (negation_distance : Q)
    (start_date end_date : date_arg) : res (option (list Match)) :=
  match csv_file with
  | None => Ok None
  | Some lines =>
      let df := read_csv lines in
      search_results ← matching search_term similarity_threshold df;
      search_results ← negation_filter df (negation_list negation_terms)
                                       negation_distance search_results;
      match search_results with
      | [] => Ok None
      | _ :: _ =>
          match date_filter start_date end_date search_results with
          | [] => Ok None
          | kept => Ok (Some (sort_values by_date_page kept))
          end
      end
  end.

End search_function.

(* ================================================================== *)
(** * co_occurance_search.py *)
(* ================================================================== *)

Module co_occurance_search.
Import pandas.

(** The names bound at the top level of the module: what lines 1-13
    import and what the file defines. *)
Definition module_globals : list string :=
  [ "pd"; "re"; "math"; "os"; "sys"; "glob"; "argparse"; "datetime";
    "fuzz"; "process"; "tqdm"; "pymupdf"; "PdfWriter";
    "highlight_search_results";
    "load_terms_from_file"; "search_documents_co_occurrence";
    "save_co_occurrence_results"; "search_and_highlight_co_occurrence" ].

(** Looking a global name up when the call is executed. *)
Definition load_global (name : string) : res unit :=
  if existsb (String.eqb name) module_globals then Ok tt
  else Raise (NameError name).

(** A corpus row tagged with the term it matched (lines 88-89). *)
Record TermMatch : Type := mkTermMatch {
  row :> Row;
  search_term : string;
  match_type : string
}.

(** A result row: the co-occurrence columns of lines 152-160 added. *)
Record CoMatch : Type := mkCoMatch {
  hit :> TermMatch;
  co_occurring_terms_count : nat;
  co_occurring_terms : string
}.

Definition page : Type := (string * Z)%type.

Definition page_of (r : Span) : page := (filename r, page_number r).

Definition page_eqb (p q : page) : bool :=
  String.eqb (fst p) (fst q) && Z.eqb (snd p) (snd q).

Definition on_page (p : page) (r : Span) : bool :=
  String.eqb (filename r) (fst p) && Z.eqb (page_number r) (snd p).

(** Lines 83-94: the matches of one term, stored under it. *)
Definition find_term (df : list Row) (term : string)
    (term_matches : list (string * list TermMatch))
  : res (list (string * list TermMatch)) :=
  rows ← str_contains (whole_word_pattern term) df;
  let exact_matches := map (fun r => mkTermMatch r term "exact") rows in
  Ok (dict_set term exact_matches term_matches).

(** Lines 98-105: the set of the pages that hold a match. *)
Definition add_pages (unique_pages : gset page) (entry : string * list TermMatch)
  : gset page :=
  match snd entry with
  | [] => unique_pages
  | matches =>
      let page_identifiers :=
        drop_duplicates page_eqb (map (fun m : TermMatch => page_of m) matches) in
      fold_left (fun acc p => {[ p ]} ∪ acc) page_identifiers unique_pages
  end.

Definition pages_with_matches (term_matches : list (string * list TermMatch))
  : gset page :=
  fold_left add_pages term_matches ∅.

(** Lines 115-122: the terms that have a match on the page, in the order
    of the dictionary. *)
Definition terms_present_on (term_matches : list (string * list TermMatch))
    (p : page) : list string :=
  flat_map (fun entry : string * list TermMatch =>
              match List.filter (fun m : TermMatch => on_page p m) (snd entry) with
              | [] => []
              | _ :: _ => [fst entry]
              end)
           term_matches.

(** Lines 113-128, for one page: the page is recorded with its terms, and
    kept as qualifying when they are enough. *)
Definition check_page (term_matches : list (string * list TermMatch))
    (min_terms_required : Z)
    (acc : list (page * nat * list string) * gmap page (list string)) (p : page)
  : list (page * nat * list string) * gmap page (list string) :=
  let terms_present := terms_present_on term_matches p in
  let terms_count := List.length terms_present in
  let page_term_counts := <[ p := terms_present ]> (snd acc) in
  if (min_terms_required <=? Z.of_nat terms_count)%Z
  then (fst acc ++ [(p, terms_count, terms_present)], page_term_counts)
  else (fst acc, page_term_counts).

(** Lines 139-145, for one qualifying page. *)
Definition matches_on_page (term_matches : list (string * list TermMatch))
    (q : page * nat * list string) : list (list TermMatch) :=
  let '(p, _, terms_present) := q in
  map (fun term =>
         List.filter (fun m : TermMatch => on_page p m)
                     (default [] (dict_get term term_matches)))
      terms_present.

(** Lines 152-160. *)
Definition add_metadata (page_term_counts : gmap page (list string))
    (m : TermMatch) : CoMatch :=
  let terms := default [] (page_term_counts !! page_of m) in
  mkCoMatch m (List.length terms)
            (py.str (py.join (py.chars ", ") (map py.chars terms))).

(** Lines 74-160: the matches of the pages on which enough terms occur,
    [None] when no page qualifies. *)
Definition co_occurrence (terms : list string) (min_terms_required : Z)
    (df : list Row) : res (option (list CoMatch)) :=
  term_matches ← for_each (find_term df) terms [];
  let unique_pages := pages_with_matches term_matches in
  let checked :=
    fold_left (check_page term_matches min_terms_required)
              (elements unique_pages) ([], ∅) in
  let qualifying_pages := fst checked in
  let page_term_counts := snd checked in
  match qualifying_pages with
  | [] => Ok None
  | _ :: _ =>
      let all_qualifying_matches :=
        flat_map (matches_on_page term_matches) qualifying_pages in
      let search_results := List.concat all_qualifying_matches in
      Ok (Some (map (add_metadata page_term_counts) search_results))
  end.

(** Lines 171-178, as in [search_function]. *)
Definition find_negations (df : list Row) (term : string)
    (acc : list (string * list Row) * nat) : res (list (string * list Row) * nat) :=
  term_matches ← str_contains (whole_word_pattern term) df;
  Ok (dict_set term term_matches (fst acc), snd acc + List.length term_matches).

(** Lines 203-210.  The call of line 204 looks [calculate_distance] up
    among the globals of this module; what follows the call is the text of
    [search_function]. *)
Definition check_negation (x1 y1 : float) (negation_distance : Q) (term : string)
    (neg_row : Row) (st : search_function.scan) : res search_function.scan :=
  _ ← load_global "calculate_distance";
  Ok (search_function.check_negation x1 y1 negation_distance term st neg_row).

(** Lines 197-210, for one negation term. *)
Definition check_term (file : string) (x1 y1 : float) (negation_distance : Q)
    (entry : string * list Row) (st : search_function.scan)
  : res search_function.scan :=
  let file_negations :=
    List.filter (fun n : Row => String.eqb (filename n) file) (snd entry) in
  for_each (check_negation x1 y1 negation_distance (fst entry)) file_negations st.

(** Lines 187-217, for one search result: its label is kept when no
    negation term is nearby. *)
Definition check_result (negation_matches_dict : list (string * list Row))
    (negation_distance : Q) (r : CoMatch) (results_to_keep : list nat)
  : res (list nat) :=
  st ← for_each (check_term (filename r) (search_function.to_float (bbx0 r))
                            (search_function.to_float (bby0 r)) negation_distance)
                negation_matches_dict search_function.scan_start;
  if search_function.has_nearby_negation st then Ok results_to_keep
  else Ok (results_to_keep ++ [index r]).

(** Lines 163-226. *)
Definition negation_filter (df : list Row) (negation_terms : list string)
    (negation_distance : Q) (search_results : list CoMatch) : res (list CoMatch) :=
  match negation_terms, search_results with
  | _ :: _, _ :: _ =>
      found ← for_each (find_negations df) negation_terms ([], 0);
      let negation_matches_dict := fst found in
      let total_negation_matches := snd found in
      if 0 <? total_negation_matches
      then
        results_to_keep ←
          for_each (check_result negation_matches_dict negation_distance)
                   search_results [];
        Ok (loc (fun r : CoMatch => index r) results_to_keep search_results)
      else Ok search_results
  | _, _ => Ok search_results
  end.

(** Lines 239-278, as in [search_function]. *)
Definition date_filter (start_date end_date : date_arg) (search_results : list CoMatch)
  : list CoMatch :=
  match start_date with
  | DateBad => search_results
  | _ =>
      let after_start :=
        match start_date with
        | DateOk start_dt =>
            List.filter (fun m : CoMatch => search_function.date_ge (date m) start_dt)
                        search_results
        | _ => search_results
        end in
      match end_date with
      | DateOk end_dt =>
          List.filter (fun m : CoMatch => search_function.date_le (date m) end_dt)
                      after_start
      | _ => after_start
      end
  end.

(** Lines 284-288: the keys of the final order; the count is descending. *)
Definition by_page_and_term (a b : CoMatch) : bool :=
  not_after
    (then_by (String.compare (filename a) (filename b))
       (then_by (Z.compare (page_number a) (page_number b))
          (then_by (Nat.compare (co_occurring_terms_count b) (co_occurring_terms_count a))
                   (String.compare (search_term a) (search_term b))))).

(** [search_documents_co_occurrence] *)
Definition search_documents_co_occurrence (terms : list string)
    (min_terms_required : Z) (csv_file : option (list Span))
    (negation_terms : terms_arg) (negation_distance : Q)
    (start_date end_date : date_arg) : res (option (list CoMatch)) :=
  if (Z.of_nat (List.length terms) <? min_terms_required)%Z then Ok None
  else
    match csv_file with
    | None => Ok None
    | Some lines =>
        let df := read_csv lines in
        found ← co_occurrence terms min_terms_required df;
        match found with
        | None => Ok None
        | Some search_results =>
            search_results ←
              negation_filter df (search_function.negation_list negation_terms)
                              negation_distance search_results;
            match search_results with
            | [] => Ok None
            | _ :: _ =>
                match date_filter start_date end_date search_results with
                | [] => Ok None
                | kept => Ok (Some (sort_values by_page_and_term kept))
                end
            end
        end
    end.

End co_occurance_search.

(* ================================================================== *)
(** * pdf_highlighter.py *)
(* ================================================================== *)

Module pdf_highlighter.

(** A line of the CSV of search results, with the columns the renderer
    reads. *)
Record Hit : Type := mkHit {
  filename : string;
  bbx0 : Q;
  bby0 : Q;
  bbx1 : Q;
  bby1 : Q;
  similarity : Z;          (* read when the file has the column *)
  search_term : string     (* read when the file has the column *)
}.

(** The file of results: which optional columns it has, and its lines. *)
Record Results : Type := mkResults {
  has_similarity : bool;        (* ['similarity' in search_results.columns] *)
  is_co_occurrence : bool;      (* ['co_occurring_terms' in ...] *)
  has_search_term : bool;       (* ['search_term' in row] *)
  lines : list Hit
}.

Inductive color : Type := Yellow | Orange | Green | Blue | Pink.

(** The call that raises while one source document is processed. *)
Inductive fault : Type :=
| AtOpen                        (* [pymupdf.open], [doc[0]] *)
| AtAnnotate                    (* a highlight annotation *)
| AtSave (left_behind : bool)   (* [doc.save]; a partial file may remain *)
| AtAppend                      (* [pdf_writer.append] *)
| AtBookmark (caught : bool).   (* the outline entry; [caught]: only the
                                   fallback of lines 171-178 failed *)

(** What the model does not compute: the behaviour of the PDF libraries
    and of the interpreter on this run. *)
Record env : Type := mkEnv {
  term_hash : string -> nat;              (* [hash(term)] *)
  fault_of : string -> option fault;      (* by source file name *)
  more_pages : string -> nat;             (* the pages a source document has
                                             after its first one *)
  cwd : list string;                      (* [os.getcwd()], the names of the
                                             directories from the root *)
  write_fails : bool                      (* [pdf_writer.write] raises *)
}.

(** A page of the merged document. *)
Record Page : Type := mkPage {
  source : string;
  highlights : list (Q * Q * Q * Q * color);
  watermark : option string
}.

(** The variables of the function and the file system.  [files] holds
    the names of the files that exist, a name being what [resolve] below
    gives for a path to the file. *)
Record state : Type := mkState {
  files : gset string;
  pdf_writer : list Page;
  outline : list (string * nat);
  temp_files : list string;
  processed_count : nat;
  highlighted_count : nat
}.

Inductive outcome : Type :=
| Returned (pdf_path : option string) (pages highlights : nat)
| Raised (e : exn).

(** [os.path.join(a, b)] on POSIX paths. *)
Definition path_join (a b : string) : string :=
  let a' := py.chars a in
  let b' := py.chars b in
  if py.starts_with ["/"%char] b' then b
  else if py.eqb_chars a' [] || py.ends_with ["/"%char] a' then py.str (a' ++ b')
  else py.str (a' ++ "/"%char :: b').

(** [os.path.basename(p)]: what follows the last separator. *)
Fixpoint basename_from (cur : list ascii) (p : list ascii) : list ascii :=
  match p with
  | [] => rev cur
  | c :: p' => if Ascii.eqb c "/" then basename_from [] p' else basename_from (c :: cur) p'
  end.
Definition basename (p : string) : list ascii := basename_from [] (py.chars p).

(** Lines 226-228 and 158-160: the display name, extension stripped. *)
Definition display_name (p : string) : string :=
  let name := basename p in
  if py.ends_with (py.chars ".pdf") (py.lower name)
  then py.str (firstn (List.length name - 4) name)
  else py.str name.

(** ** Paths and files

    A file below the working directory is named by the path that leads to
    it from there, without empty, [.] and [..] components: an entry of the
    working directory by its bare name.  A file elsewhere is named by its
    absolute path, written the same way.  This is the file the system
    opens for a path when no component is a link and the directories the
    path goes through exist. *)

(** [p.split('/')]; [cur] is the component being read, reversed. *)
Fixpoint split_from (cur : list ascii) (p : list ascii) : list string :=
  match p with
  | [] => [py.str (rev cur)]
  | c :: p' =>
      if Ascii.eqb c "/" then py.str (rev cur) :: split_from [] p'
      else split_from (c :: cur) p'
  end.
Definition split_path (p : string) : list string := split_from [] (py.chars p).

(** A component that names no entry of a directory. *)
Definition is_dot (comp : string) : bool :=
  String.eqb comp EmptyString || String.eqb comp "." || String.eqb comp "..".

(** One step along a path, from the directory [dir]. *)
Definition walk (dir : list string) (comp : string) : list string :=
  if String.eqb comp ".." then removelast dir
  else if is_dot comp then dir
  else dir ++ [comp].

(** The components of the absolute path. *)
Definition absolute (e : env) (p : string) : list string :=
  fold_left walk (split_path p)
            (if py.starts_with ["/"%char] (py.chars p) then [] else cwd e).

(** What follows [dir] in [path], when [path] goes through [dir]. *)
Fixpoint below (dir path : list string) : option (list string) :=
  match dir, path with
  | [], _ => Some path
  | d :: dir', c :: path' => if String.eqb d c then below dir' path' else None
  | _ :: _, [] => None
  end.

Fixpoint join_path (comps : list string) : list ascii :=
  match comps with
  | [] => []
  | [c] => py.chars c
  | c :: comps' => py.chars c ++ "/"%char :: join_path comps'
  end.

(** The name of the file a path leads to. *)
Definition resolve (e : env) (p : string) : string :=
  let a := absolute e p in
  match below (cwd e) a with
  | Some (c :: comps) => py.str (join_path (c :: comps))
  | _ => py.str ("/"%char :: join_path a)
  end.

(** The path names a directory, whatever lies there: it ends with a
    separator, or with [.] or [..]. *)
Definition names_directory (p : string) : bool :=
  is_dot (last (split_path p) EmptyString).

(** The path leads to a file that exists. *)
Definition file_at (e : env) (fs : gset string) (p : string) : bool :=
  negb (names_directory p) && bool_decide (resolve e p ∈ fs).

(** Line 144. *)
Definition temp_path_of (filename : string) : string :=
  py.str (py.chars "_tmp_"
          ++ py.replace (py.chars ".pdf") []
               (py.replace (py.chars ",") []
                  (py.replace (py.chars " ") (py.chars "_") (py.chars filename)))
          ++ py.chars ".pdf").

(** [glob.glob("_tmp_*.pdf")] gives the names of the entries of the
    working directory that start with [_tmp_] and end with [.pdf]. *)
Definition is_tmp_pdf (name : string) : bool :=
  let n := py.chars name in
  negb (existsb (Ascii.eqb "/") n)
  && (9 <=? List.length n)
  && py.starts_with (py.chars "_tmp_") n
  && py.ends_with (py.chars ".pdf") n.

Definition glob_tmp_pdf (fs : gset string) : list string :=
  List.filter is_tmp_pdf (elements fs).

(** Lines 93-123. *)
Definition highlight_color (e : env) (res : Results) (h : Hit) : color :=
  if has_similarity res then
    if (similarity h =? 100)%Z then Yellow
    else if (90 <=? similarity h)%Z then Orange
    else if (80 <=? similarity h)%Z then Green
    else Blue
  else if is_co_occurrence res then
    if has_search_term res then
      nth (term_hash e (search_term h) mod 5) [Yellow; Orange; Green; Blue; Pink] Yellow
    else Yellow
  else Yellow.

Definition highlight_of (e : env) (res : Results) (h : Hit) : Q * Q * Q * Q * color :=
  (bbx0 h, bby0 h, bbx1 h, bby1 h, highlight_color e res h).

(** Lines 70-184: one turn of the loop over the source files.  An
    exception raised inside the [try] is caught at line 183: the turn ends
    with what it had done until then.  A path that names a directory is
    skipped like a missing file: it does not exist, or [pymupdf.open]
    raises on it.  [doc.save] writes the whole document and
    [pdf_writer.append] adds all its pages: the first one, which carries
    the annotations of the turn, and the others as they are. *)
Definition process_file (e : env) (res : Results) (base_folder : string)
    (add_watermarks add_bookmarks : bool) (st : state) (filename : string) : state :=
  let pdf_path := path_join base_folder filename in
  if negb (file_at e (files st) pdf_path) then st
  else
    let file_results := List.filter (fun h => String.eqb (pdf_highlighter.filename h) filename)
                                    (lines res) in
    match fault_of e filename with
    | Some AtOpen => st
    | Some AtAnnotate => st
    | ft =>
        let hits_count := List.length file_results in
        let page := mkPage filename (map (highlight_of e res) file_results)
                      (if add_watermarks then Some (display_name pdf_path) else None) in
        let temp_path := temp_path_of filename in
        match ft with
        | Some (AtSave left_behind) =>
            if left_behind
            then mkState ({[ resolve e temp_path ]} ∪ files st) (pdf_writer st)
                         (outline st) (temp_files st) (processed_count st)
                         (highlighted_count st)
            else st
        | _ =>
            let saved := {[ resolve e temp_path ]} ∪ files st in
            let tracked := temp_files st ++ [temp_path] in
            match ft with
            | Some AtAppend =>
                mkState saved (pdf_writer st) (outline st) tracked
                        (processed_count st) (highlighted_count st)
            | _ =>
                let appended := pdf_writer st ++ page
                                  :: repeat (mkPage filename [] None)
                                            (more_pages e filename) in
                let first_page_number := List.length appended - 1 in
                let bookmark_title := display_name filename in
                match add_bookmarks, ft with
                | true, Some (AtBookmark false) =>
                    mkState saved appended (outline st) tracked
                            (processed_count st) (highlighted_count st)
                | true, Some (AtBookmark true) =>
                    mkState saved appended (outline st) tracked
                            (processed_count st + 1) (highlighted_count st + hits_count)
                | true, _ =>
                    mkState saved appended
                            (outline st ++ [(bookmark_title, first_page_number)]) tracked
                            (processed_count st + 1) (highlighted_count st + hits_count)
                | false, _ =>
                    mkState saved appended (outline st) tracked
                            (processed_count st + 1) (highlighted_count st + hits_count)
                end
            end
        end
    end.

(** Line 67: the file names in order, each once. *)
Definition unique_filenames (res : Results) : list string :=
  pandas.drop_duplicates String.eqb (map filename (lines res)).

(** Lines 65-193: the body of the [try]. *)
Definition render (e : env) (res : Results) (base_folder output_pdf_path : string)
    (add_watermarks add_bookmarks : bool) (fs : gset string) : outcome * state :=
  let st := fold_left (process_file e res base_folder add_watermarks add_bookmarks)
                      (unique_filenames res)
                      (mkState fs [] [] [] 0 0) in
  if 0 <? processed_count st then
    if write_fails e then (Raised (IOError output_pdf_path), st)
    else (Returned (Some output_pdf_path) (processed_count st) (highlighted_count st),
          mkState ({[ resolve e output_pdf_path ]} ∪ files st) (pdf_writer st)
                  (outline st)
                  (temp_files st) (processed_count st) (highlighted_count st))
  else (Returned None 0 0, st).

(** Lines 195-209: the [finally].  [os.remove] is taken to succeed on an
    existing file. *)
Definition remove_files (e : env) (paths : list string) (fs : gset string)
  : gset string :=
  fold_left (fun acc path => acc ∖ {[ resolve e path ]}) paths fs.

Definition cleanup (e : env) (temp_files : list string) (fs : gset string)
  : gset string :=
  let fs1 := remove_files e temp_files fs in
  remove_files e (glob_tmp_pdf fs1) fs1.

(** [highlight_search_results]: what the call gives and the file system it
    leaves.  [search_results] is the content of [csv_path], [None] when
    [pd.read_csv] raises; [output_pdf_path] is the path lines 23-45
    compute. *)
Definition highlight_search_results (e : env) (search_results : option Results)
    (base_folder output_pdf_path : string) (add_watermarks add_bookmarks : bool)
    (fs : gset string) : outcome * gset string :=
  match search_results with
  | None => (Raised (IOError "csv_path"), fs)
  | Some res =>
      match lines res with
      | [] => (Returned None 0 0, fs)
      | _ :: _ =>
          let '(out, st) := render e res base_folder output_pdf_path
                                   add_watermarks add_bookmarks fs in
          (out, cleanup e (temp_files st) (files st))
      end
  end.

End pdf_highlighter.

(* ================================================================== *)
(** * The files the functions name, read and write *)
(* ================================================================== *)

Module io.
Import pandas search_function co_occurance_search.

(** [str(n)] for an integer, as an f-string formats it. *)
Definition str_of_int (n : Z) : list ascii :=
  py.chars (NilZero.string_of_int (Z.to_int n)).

(** co_occurance_search.py, lines 15-38: [load_terms_from_file].  [file]
    is the sequence of the lines of the file, each with its line end,
    [None] when opening or reading it raises. *)
Definition load_terms_from_file (file : option (list string)) : list string :=
  match file with
  | None => []
  | Some f =>
      let terms :=
        map (fun line => py.str (py.strip (py.chars line)))
            (List.filter (fun line => negb (py.eqb_chars (py.strip (py.chars line)) [])) f) in
      match terms with
      | [] => []
      | _ :: _ => terms
      end
  end.

(** The first lines of the three functions that write a file
    (search_function.py 301-309, co_occurance_search.py 316-324,
    pdf_highlighter.py 24-31): a missing directory is created, and the
    working directory is used when that fails.  [available]: the
    directory exists, or [os.makedirs] succeeds. *)
Definition directory_used (output_directory : string) (available : bool) : string :=
  if available then output_directory else ".".

(** combined_together.py, lines 56-62, and co_occurance_search.py, lines
    393-399: the part of the file name that tells the date range. *)
Definition date_range_str (start_date end_date : option string) : string :=
  if py.truthy start_date && py.truthy end_date
  then py.str (py.chars "_" ++ py.chars (default "" start_date)
               ++ py.chars "_to_" ++ py.chars (default "" end_date))
  else if py.truthy start_date
  then py.str (py.chars "_from_" ++ py.chars (default "" start_date))
  else if py.truthy end_date
  then py.str (py.chars "_until_" ++ py.chars (default "" end_date))
  else "".

(** ["_not_" + "_".join([term.replace(' ', '_') for term in negation_terms])],
    the empty string when there is no negation term. *)
Definition negation_str (negation_terms : list string) : list ascii :=
  match negation_terms with
  | [] => []
  | _ :: _ =>
      py.chars "_not_"
      ++ py.join (py.chars "_")
           (map (fun term => py.replace (py.chars " ") (py.chars "_") (py.chars term))
                negation_terms)
  end.

(** search_function.py, lines 311-319: the name of the file of results,
    without its directory and extension. *)
Definition search_term_filename (search_term : string) (negation_terms : terms_arg)
    (date_range_str : string) : list ascii :=
  py.replace (py.chars " ") (py.chars "_") (py.chars search_term)
  ++ negation_str (search_function.negation_list negation_terms)
  ++ py.chars date_range_str.

(** [save_search_results]: the path the results are written to, which the
    function returns. *)
Definition save_search_results (search_term : string) (negation_terms : terms_arg)
    (output_directory : string) (available : bool) (date_range_str : string) : string :=
  pdf_highlighter.path_join (directory_used output_directory available)
    (py.str (py.chars "search_results_"
             ++ search_term_filename search_term negation_terms date_range_str
             ++ py.chars ".csv")).

(** co_occurance_search.py, lines 326-339: the name of the file of
    co-occurrence results, cut to 150 characters. *)
Definition filename_base (terms : list string) (min_terms_required : Z)
    (negation_terms : terms_arg) (date_range_str : string) : list ascii :=
  let terms_str :=
    py.join (py.chars "_")
      (map (fun term => py.replace (py.chars " ") (py.chars "-") (py.chars term)) terms) in
  let filename_base :=
    py.chars "co_occur_" ++ str_of_int min_terms_required
    ++ py.chars "_of_" ++ str_of_int (Z.of_nat (List.length terms))
    ++ py.chars "_" ++ firstn 50 terms_str
    ++ negation_str (search_function.negation_list negation_terms)
    ++ py.chars date_range_str in
  if 150 <? List.length filename_base then firstn 150 filename_base else filename_base.

(** [save_co_occurrence_results]: the path the results are written to,
    which the function returns. *)
Definition save_co_occurrence_results (terms : list string) (min_terms_required : Z)
    (negation_terms : terms_arg) (output_directory : string) (available : bool)
    (date_range_str : string) : string :=
  pdf_highlighter.path_join (directory_used output_directory available)
    (py.str (filename_base terms min_terms_required negation_terms date_range_str
             ++ py.chars ".csv")).

(** combined_together.py, lines 45-70: the path of the file of results of
    [search_and_highlight]. *)
Definition csv_path (csv_filename : option string) (search_term : string)
    (negation_terms : terms_arg) (output_directory : string) (available : bool)
    (start_date end_date : option string) : string :=
  if py.truthy csv_filename
  then
    let name := default "" csv_filename in
    let csv_path := pdf_highlighter.path_join output_directory name in
    if negb (py.ends_with (py.chars ".csv") (py.chars name))
    then py.str (py.chars csv_path ++ py.chars ".csv")
    else csv_path
  else
    save_search_results search_term negation_terms output_directory available
                        (date_range_str start_date end_date).

(** pdf_highlighter.py, lines 24-45: the path of the highlighted PDF. *)
Definition output_pdf_path (csv_path output_directory : string) (available : bool)
    (custom_pdf_name : option string) : string :=
  let output_directory := directory_used output_directory available in
  if py.truthy custom_pdf_name
  then
    let name := py.chars (default "" custom_pdf_name) in
    let name := if negb (py.ends_with (py.chars ".pdf") name)
                then name ++ py.chars ".pdf" else name in
    pdf_highlighter.path_join output_directory (py.str name)
  else
    let search_term_filename :=
      py.replace (py.chars ".csv") []
        (py.replace (py.chars "search_results_") [] (pdf_highlighter.basename csv_path)) in
    if negb (py.starts_with (py.chars "highlighted_") search_term_filename)
    then pdf_highlighter.path_join output_directory
           (py.str (py.chars "highlighted_" ++ search_term_filename ++ py.chars ".pdf"))
    else pdf_highlighter.path_join output_directory
           (py.str (search_term_filename ++ py.chars ".pdf")).

(** The file of results as the renderer reads it back
    ([search_results.to_csv(path, index=False)], then [pd.read_csv(path)]):
    a search for one term writes the column [similarity]. *)
Definition results_of_search (search_results : list search_function.Match)
  : pdf_highlighter.Results :=
  pdf_highlighter.mkResults true false false
    (map (fun m : search_function.Match =>
            pdf_highlighter.mkHit (filename m) (bbx0 m) (bby0 m) (bbx1 m) (bby1 m)
                                  (search_function.similarity m) "")
         search_results).

(** A co-occurrence search writes the columns [search_term] and
    [co_occurring_terms], and no [similarity]. *)
Definition results_of_co_occurrence (search_results : list co_occurance_search.CoMatch)
  : pdf_highlighter.Results :=
  pdf_highlighter.mkResults false true true
    (map (fun m : co_occurance_search.CoMatch =>
            pdf_highlighter.mkHit (filename m) (bbx0 m) (bby0 m) (bbx1 m) (bby1 m)
                                  0 (co_occurance_search.search_term m))
         search_results).

End io.

(* ================================================================== *)
(** * The functions that chain the search and the renderer *)
(* ================================================================== *)

Module pipeline.
Import pandas search_function co_occurance_search.

(** What a call depends on and the model does not compute. *)
Record world : Type := mkWorld {
  to_datetime : string -> option Z;       (* [pd.to_datetime] on a bound;
                                             [None] when it raises *)
  corpus : option (list Span);            (* the corpus file the function
                                             reads; [None] when it is missing *)
  directory_available : string -> bool;   (* the directory exists, or
                                             [os.makedirs] succeeds *)
  to_csv_fails : string -> bool;          (* [to_csv] raises on this path *)
  pdf : pdf_highlighter.env
}.

(** A date bound as the search functions treat it: [if start_date:], then
    [pd.to_datetime(start_date)]. *)
Definition date_bound (w : world) (d : option string) : date_arg :=
  if py.truthy d
  then match to_datetime w (default "" d) with
       | Some day => DateOk day
       | None => DateBad
       end
  else DateNone.

(** What the renderer gives back to its caller, who keeps the path. *)
Definition pdf_path_of (r : pdf_highlighter.outcome * gset string)
  : res (option string) * gset string :=
  match fst r with
  | pdf_highlighter.Returned pdf_path _ _ => (Ok pdf_path, snd r)
  | pdf_highlighter.Raised e => (Raise e, snd r)
  end.

(** combined_together.py, lines 7-102: [search_and_highlight].  The value
    is the path the function returns and the file system it leaves. *)
Definition search_and_highlight (w : world) (fs : gset string)
    (search_term base_folder output_directory : string) (similarity_threshold : Z)
    (negation_terms : terms_arg) (negation_distance : Q)
    (start_date end_date : option string) (add_watermarks add_bookmarks : bool)
    (csv_filename pdf_filename : option string)
  : res (option string) * gset string :=
  match search_documents search_term (corpus w) similarity_threshold negation_terms
          negation_distance (date_bound w start_date) (date_bound w end_date) with
  | Raise e => (Raise e, fs)
  | Ok None => (Ok None, fs)
  | Ok (Some search_results) =>
      let available := directory_available w output_directory in
      let csv_path := io.csv_path csv_filename search_term negation_terms
                        output_directory available start_date end_date in
      if to_csv_fails w csv_path then (Raise (IOError csv_path), fs)
      else
        let custom_pdf_name := if py.truthy pdf_filename then pdf_filename else None in
        pdf_path_of
          (pdf_highlighter.highlight_search_results (pdf w)
             (Some (io.results_of_search search_results)) base_folder
             (io.output_pdf_path csv_path output_directory available custom_pdf_name)
             add_watermarks add_bookmarks
             ({[ pdf_highlighter.resolve (pdf w) csv_path ]} ∪ fs))
  end.

(** co_occurance_search.py, lines 354-440:
    [search_and_highlight_co_occurrence].  The renderer is called with its
    defaults: no watermark, no bookmark, the default name. *)
Definition search_and_highlight_co_occurrence (w : world) (fs : gset string)
    (terms : list string) (min_terms_required : Z)
    (base_folder output_directory : string)
    (negation_terms : terms_arg) (negation_distance : Q)
    (start_date end_date : option string)
  : res (option string) * gset string :=
  match search_documents_co_occurrence terms min_terms_required (corpus w)
          negation_terms negation_distance
          (date_bound w start_date) (date_bound w end_date) with
  | Raise e => (Raise e, fs)
  | Ok None => (Ok None, fs)
  | Ok (Some search_results) =>
      let available := directory_available w output_directory in
      let date_range_str := io.date_range_str start_date end_date in
      let csv_path := io.save_co_occurrence_results terms min_terms_required
                        negation_terms output_directory available date_range_str in
      if to_csv_fails w csv_path then (Raise (IOError csv_path), fs)
      else
        pdf_path_of
          (pdf_highlighter.highlight_search_results (pdf w)
             (Some (io.results_of_co_occurrence search_results)) base_folder
             (io.output_pdf_path csv_path output_directory available None)
             false false ({[ pdf_highlighter.resolve (pdf w) csv_path ]} ∪ fs))
  end.

End pipeline.

(* ================================================================== *)
(** * The vocabulary of the specification *)
(* ================================================================== *)

Module spec.
Import pandas search_function co_occurance_search.

Definition last_char (s : list ascii) : option ascii := hd_error (rev s).

(** The character before the position reached after reading [mid] from
    a position that follows [prev]. *)
Definition prev_after (prev : option ascii) (mid : list ascii) : option ascii :=
  match last_char mid with
  | Some c => Some c
  | None => prev
  end.

(** [term] is a case-insensitive substring of [text]. *)
Definition substring_ci (term text : list ascii) : Prop :=
  exists pre post, py.lower text = pre ++ py.lower term ++ post.

(** [text] reads [pre ++ mid ++ post], where [mid] is [term] up to case and
    a word boundary lies on each side of [mid]. *)
Definition whole_word_at (term pre mid post : list ascii) : Prop :=
  py.lower mid = py.lower term
  /\ re.at_boundary (last_char pre) (mid ++ post) = true
  /\ re.at_boundary (last_char (pre ++ mid)) post = true.

Definition whole_word_in (term text : list ascii) : Prop :=
  exists pre mid post, text = pre ++ mid ++ post /\ whole_word_at term pre mid post.

(** The row holds an occurrence of the term: case-insensitive, whole-word,
    anchored at word boundaries. *)
Definition occurs_in (term : string) (r : Span) : Prop :=
  exists t, text r = Some t /\ whole_word_in (py.chars term) (py.chars t).

(** The compiled form of [whole_word_pattern term], and the test it makes
    on a row. *)
Definition word_regex (term : string) : list re.atom :=
  re.WordBoundary :: map re.Lit (py.chars term) ++ [re.WordBoundary].

Definition occurs_in_b (term : string) (r : Span) : bool :=
  text_matches (word_regex term) r.

(** A term in which no character has a special meaning for [re]. *)
Definition literal_term (term : string) : Prop :=
  Forall (fun c => re.is_special c = false) (py.chars term).

(** The row holds the term as a case-insensitive substring. *)
Definition contains_term (term : string) (r : Span) : Prop :=
  exists t, text r = Some t /\ substring_ci (py.chars term) (py.chars t).

(** The edit distance of the specification: insertions, deletions and
    substitutions. *)
Fixpoint levenshtein (s t : list ascii) : nat :=
  match s with
  | [] => List.length t
  | a :: s' =>
      (fix inner (t : list ascii) : nat :=
         match t with
         | [] => List.length s
         | b :: t' =>
             if Ascii.eqb a b then levenshtein s' t'
             else S (Nat.min (levenshtein s' t) (Nat.min (inner t') (levenshtein s' t')))
         end) t
  end.

(** [100 * (1 - distance / max(len_a, len_b, 1))] *)
Definition levenshtein_score (a b : list ascii) : Q :=
  100 * (1 - (Z.of_nat (levenshtein a b)
              # Pos.of_nat (Nat.max (List.length a) (Nat.max (List.length b) 1)))).

(** The normalization of the fuzzy stage and the words of a span. *)
Definition normalize (s : string) : list ascii :=
  py.lower (search_function.clean_text (Some s)).

Definition words (s : string) : list (list ascii) := py.split (normalize s).

(** The fuzzy similarity as the specification words it. *)
Definition levenshtein_similarity (term text : string) : Z :=
  max_list (map (fun w => py_round (levenshtein_score (normalize term) w)) (words text)).

(** The decision of the negation filter on one result: some recorded
    negation occurrence of the same file is within the distance. *)
Definition nearby_b (negation_matches_dict : list (string * list Row))
    (negation_distance : Q) (m : Span) : bool :=
  existsb (fun entry : string * list Row =>
             existsb (fun o : Row =>
                        String.eqb (filename o) (filename m)
                        && search_function.distance_le
                             (search_function.calculate_distance
                                (search_function.to_float (bbx0 m))
                                (search_function.to_float (bby0 m))
                                (search_function.to_float (bbx0 o))
                                (search_function.to_float (bby0 o)))
                             negation_distance)
                     (snd entry))
          negation_matches_dict.

(** The state the loop over the negation terms reaches. *)
Definition negations_found (df : list Row) (negation_terms : list string)
  : list (string * list Row) * nat :=
  fold_left (fun acc term =>
               let term_matches := List.filter (fun r : Row => occurs_in_b term r) df in
               (dict_set term term_matches (fst acc), snd acc + List.length term_matches))
            negation_terms ([], 0).

(** The dictionary after the loop over [seen]: every entry is a term of
    [seen] with its occurrences, every term of [seen] has an entry. *)
Definition negations_ok (df : list Row) (seen : list string)
    (d : list (string * list Row)) : Prop :=
  (forall e, In e d ->
     In (fst e) seen /\ snd e = List.filter (fun r : Row => occurs_in_b (fst e) r) df)
  /\ (forall t, In t seen ->
        In (t, List.filter (fun r : Row => occurs_in_b t r) df) d).

(** While no negation has been found the minimum is still infinite. *)
Definition scan_ok (st : search_function.scan) : Prop :=
  search_function.has_nearby_negation st = false ->
  search_function.min_distance st = PrimFloat.infinity.

(** The matches of one term in the co-occurrence search: the rows that
    hold it as a whole word, tagged with the term. *)
Definition matches_of (df : list Row) (term : string)
  : list co_occurance_search.TermMatch :=
  map (fun r => co_occurance_search.mkTermMatch r term "exact")
      (List.filter (fun r : Row => occurs_in_b term r) df).

(** The dictionary the loop over the terms builds. *)
Definition term_matches_found (df : list Row) (terms : list string)
  : list (string * list co_occurance_search.TermMatch) :=
  fold_left (fun d term => dict_set term (matches_of df term) d) terms [].

(** The term has a match on the page. *)
Definition term_on_page (df : list Row) (term : string)
    (p : co_occurance_search.page) : Prop :=
  exists r : Row, In r df /\ co_occurance_search.page_of r = p /\ occurs_in term r.

(** [ts] lists, each once, the query terms that have a match on the
    page. *)
Definition page_terms (terms : list string) (df : list Row)
    (p : co_occurance_search.page) (ts : list string) : Prop :=
  NoDup ts /\ forall t, In t ts <-> In t terms /\ term_on_page df t p.

(** Some recorded negation occurrence lies on the file of the result. *)
Definition same_file_negation_b (negation_matches_dict : list (string * list Row))
    (m : Span) : bool :=
  existsb (fun entry : string * list Row =>
             existsb (fun o : Row => String.eqb (filename o) (filename m)) (snd entry))
          negation_matches_dict.

(** The order of the results of [search_documents]: the page date
    ascending, a missing date after every date, then the page number
    ascending. *)
Definition date_page_le (a b : Span) : Prop :=
  match date a, date b with
  | Some x, Some y => (x < y)%Z \/ (x = y /\ (page_number a <= page_number b)%Z)
  | Some _, None => True
  | None, Some _ => False
  | None, None => (page_number a <= page_number b)%Z
  end.

(** The order of the results of [search_documents_co_occurrence]: the file
    name ascending, then the page number ascending, then the number of
    distinct terms of the page descending, then the term ascending. *)
Definition file_page_count_term_le (a b : co_occurance_search.CoMatch) : Prop :=
  String.compare (filename a) (filename b) = Lt
  \/ (filename a = filename b
      /\ ((page_number a < page_number b)%Z
          \/ (page_number a = page_number b
              /\ (co_occurance_search.co_occurring_terms_count b
                  < co_occurance_search.co_occurring_terms_count a
                  \/ (co_occurance_search.co_occurring_terms_count a
                      = co_occurance_search.co_occurring_terms_count b
                      /\ String.compare (co_occurance_search.search_term a)
                                        (co_occurance_search.search_term b) <> Gt))))).

(** The order the specification words: the source document first, then
    the page date, then the page number (the matched term is the same for
    all the results of a single-term search). *)
Definition claimed_order (a b : Span) : bool :=
  not_after (then_by (String.compare (filename a) (filename b))
               (then_by (compare_date (date a) (date b))
                        (Z.compare (page_number a) (page_number b)))).

(** A class of rows that the order [leb] ties. *)
Definition tied {A} (leb : A -> A -> bool) (P : A -> bool) : Prop :=
  forall x y, P x = true -> P y = true -> leb x y = true.

(** A negation-term occurrence on the document of [m] whose anchor is
    within [negation_distance] of the anchor of [m]: the distance that
    [calculate_distance] computes is at most [negation_distance]. *)
Definition negation_nearby (df : list Row) (negation_terms : list string)
    (negation_distance : Q) (m : Span) : Prop :=
  exists term o,
    In term negation_terms /\ In o df /\ occurs_in term o
    /\ filename o = filename m
    /\ search_function.distance_le
         (search_function.calculate_distance
            (search_function.to_float (bbx0 m)) (search_function.to_float (bby0 m))
            (search_function.to_float (bbx0 o)) (search_function.to_float (bby0 o)))
         negation_distance = true.



(** No call raises an exception that ends the turn of the source file:
    a fault of the outline entry counts only when bookmarks are asked for
    and the exception is not the one the fallback catches. *)
Definition succeeds (e : pdf_highlighter.env) (add_bookmarks : bool) (f : string) : bool :=
  match pdf_highlighter.fault_of e f with
  | None => true
  | Some (pdf_highlighter.AtBookmark caught) => caught || negb add_bookmarks
  | Some _ => false
  end.

(** The source file is found and its turn succeeds. *)
Definition processed_ok (e : pdf_highlighter.env) (add_bookmarks : bool)
    (base_folder : string) (fs : gset string) (f : string) : bool :=
  pdf_highlighter.file_at e fs (pdf_highlighter.path_join base_folder f)
  && succeeds e add_bookmarks f.

(** The source file is found when its turn comes and its turn succeeds. *)
Definition turn_ok (e : pdf_highlighter.env) (add_bookmarks : bool)
    (base_folder : string) (st : pdf_highlighter.state) (f : string) : bool :=
  pdf_highlighter.file_at e (pdf_highlighter.files st)
    (pdf_highlighter.path_join base_folder f)
  && succeeds e add_bookmarks f.

(** The source files that are processed to the end, in order: the state
    in which a file is looked for is the one the turns before it leave. *)
Fixpoint processed_docs (e : pdf_highlighter.env) (res : pdf_highlighter.Results)
    (base_folder : string) (add_watermarks add_bookmarks : bool)
    (names : list string) (st : pdf_highlighter.state) : list string :=
  match names with
  | [] => []
  | f :: names' =>
      (if turn_ok e add_bookmarks base_folder st f then [f] else [])
      ++ processed_docs e res base_folder add_watermarks add_bookmarks names'
           (pdf_highlighter.process_file e res base_folder add_watermarks
                                         add_bookmarks st f)
  end.

(** The lines of the results that lie on the source file. *)
Definition hits_on (res : pdf_highlighter.Results) (f : string) : nat :=
  List.length (List.filter (fun h => String.eqb (pdf_highlighter.filename h) f)
                           (pdf_highlighter.lines res)).

(** No source document of the run lies where a temporary file of the run
    is written. *)
Definition sources_apart (e : pdf_highlighter.env) (base_folder : string)
    (names : list string) : bool :=
  forallb (fun f =>
             forallb (fun g =>
                        negb (String.eqb
                                (pdf_highlighter.resolve e
                                   (pdf_highlighter.path_join base_folder f))
                                (pdf_highlighter.resolve e
                                   (pdf_highlighter.temp_path_of g))))
                     names)
          names.

(** The path does not lead to a temporary file of the run. *)
Definition not_temp_of (e : pdf_highlighter.env) (names : list string) (p : string)
  : bool :=
  forallb (fun g => negb (String.eqb (pdf_highlighter.resolve e p)
                                     (pdf_highlighter.resolve e
                                        (pdf_highlighter.temp_path_of g))))
          names.

(** The pages of a source document in the merged document: its first
    page with the highlights of the results on the document and the
    watermark, then its other pages. *)
Definition pages_of (e : pdf_highlighter.env) (res : pdf_highlighter.Results)
    (base_folder : string) (add_watermarks : bool) (f : string)
  : list pdf_highlighter.Page :=
  pdf_highlighter.mkPage f
    (map (pdf_highlighter.highlight_of e res)
         (List.filter (fun h => String.eqb (pdf_highlighter.filename h) f)
                      (pdf_highlighter.lines res)))
    (if add_watermarks
     then Some (pdf_highlighter.display_name (pdf_highlighter.path_join base_folder f))
     else None)
  :: repeat (pdf_highlighter.mkPage f [] None) (pdf_highlighter.more_pages e f).

End spec.

(* ================================================================== *)
(** * The scenarios of the specification *)
(* ================================================================== *)

Module scenario.
Import pandas.

(** A span of text on a page, at the anchor [(x, y)]. *)
Definition span (file : string) (page : Z) (day : Z) (t : string) (x y : Q) : Span :=
  mkSpan file page (Some day) (Some t) 10 x y (x + 40) (y + 10) 1.

(** Three spans on one page. *)
Definition three_spans : list Span :=
  [ span "a.pdf" 1 0 "the rain" 0 0;
    span "a.pdf" 1 0 "in spain" 50 0;
    span "a.pdf" 1 0 "stays mainly" 100 0 ].



(** The match of the term [rain] in [three_spans]. *)
Definition rain_matches : list search_function.Match :=
  [ search_function.mkMatch (mkRow 0 (span "a.pdf" 1 0 "the rain" 0 0)) 100 ].

(** A span whose text the pattern [a.c] matches, without holding it. *)
Definition dotted_term : string := "a.c".
Definition dotted_line : Span := span "a.pdf" 1 0 "abc" 0 0.

(** A span that holds the letters of the term [ab] in the other order. *)
Definition swapped_line : Span := span "a.pdf" 1 0 "ba" 0 0.

(** Two spans and two terms: the first span holds [rain] inside a longer
    word. *)
Definition rains_spans : list Span :=
  [ span "a.pdf" 1 0 "rains" 0 0;
    span "a.pdf" 1 0 "spain" 50 0 ].

(** Two terms on one page of [a.pdf], a negation term on [b.pdf] only. *)
Definition alpha_beta_spans : list Span :=
  [ span "a.pdf" 1 0 "alpha" 0 0;
    span "a.pdf" 1 0 "beta" 50 0;
    span "b.pdf" 1 0 "gamma" 0 0 ].

(** Two documents: the one whose name comes first has the later date. *)
Definition dated_spans : list Span :=
  [ span "b.pdf" 1 1 "rain" 0 0;
    span "a.pdf" 1 2 "rain" 0 0 ].

Definition dated_matches : list search_function.Match :=
  [ search_function.mkMatch (mkRow 0 (span "b.pdf" 1 1 "rain" 0 0)) 100;
    search_function.mkMatch (mkRow 1 (span "a.pdf" 1 2 "rain" 0 0)) 100 ].

Definition alpha_beta_matches : list co_occurance_search.CoMatch :=
  [ co_occurance_search.mkCoMatch
      (co_occurance_search.mkTermMatch (mkRow 0 (span "a.pdf" 1 0 "alpha" 0 0))
                                       "alpha" "exact")
      2 "alpha, beta";
    co_occurance_search.mkCoMatch
      (co_occurance_search.mkTermMatch (mkRow 1 (span "a.pdf" 1 0 "beta" 50 0))
                                       "beta" "exact")
      2 "alpha, beta" ].

(** A run of the renderer: two hits on [a.pdf], one on [b.pdf], which
    fails to open, one on a file that is missing; a temporary file of an
    earlier run lies in the working directory. *)
Definition hit (file : string) : pdf_highlighter.Hit :=
  pdf_highlighter.mkHit file 0 0 40 10 100 "rain".

Definition render_results : pdf_highlighter.Results :=
  pdf_highlighter.mkResults true false false
    [ hit "a.pdf"; hit "a.pdf"; hit "b.pdf"; hit "gone.pdf" ].

Definition no_results : pdf_highlighter.Results :=
  pdf_highlighter.mkResults true false false [].

Definition render_env : pdf_highlighter.env :=
  pdf_highlighter.mkEnv
    (fun _ => 0)
    (fun f => if String.eqb f "b.pdf" then Some pdf_highlighter.AtOpen else None)
    (fun _ => 0)
    ["home"; "work"]
    false.

(** The same run when [a.pdf] has two pages. *)
Definition two_page_env : pdf_highlighter.env :=
  pdf_highlighter.mkEnv
    (fun _ => 0)
    (fun f => if String.eqb f "b.pdf" then Some pdf_highlighter.AtOpen else None)
    (fun f => if String.eqb f "a.pdf" then 1 else 0)
    ["home"; "work"]
    false.

(** The same run when [pdf_writer.write] raises. *)
Definition failing_write_env : pdf_highlighter.env :=
  pdf_highlighter.mkEnv
    (fun _ => 0)
    (fun f => if String.eqb f "b.pdf" then Some pdf_highlighter.AtOpen else None)
    (fun _ => 0)
    ["home"; "work"]
    true.

Definition render_files : gset string :=
  {[ "pdfs/a.pdf" ]} ∪ {[ "pdfs/b.pdf" ]} ∪ {[ "_tmp_old.pdf" ]}.

End scenario.

(* ================================================================== *)
(** * Properties *)
(* ================================================================== *)

Import pandas search_function co_occurance_search.

(** ** Strings and lists of characters *)

Lemma chars_str (l : list ascii) : py.chars (py.str l) = l.
Proof. apply list_ascii_of_string_of_list_ascii. Qed.

Lemma str_chars (s : string) : py.str (py.chars s) = s.
Proof. apply string_of_list_ascii_of_string. Qed.

Lemma starts_with_iff (p s : list ascii) :
  py.starts_with p s = true <-> exists post, s = p ++ post.
Proof.
  revert s; induction p as [|a p IH]; intros s; simpl.
  - split; eauto.
  - destruct s as [|b s]; simpl.
    + split; [discriminate | intros [post H]; discriminate].
    + rewrite andb_true_iff, Ascii.eqb_eq, IH. split.
      * intros [-> [post ->]]. eauto.
      * intros [post H]. injection H as -> ->. eauto.
Qed.

Lemma contains_iff (p s : list ascii) :
  py.contains p s = true <-> exists pre post, s = pre ++ p ++ post.
Proof.
  induction s as [|c s IH]; simpl.
  - rewrite orb_false_r, starts_with_iff. split.
    + intros [post H]. exists [], post. exact H.
    + intros (pre & post & H). destruct pre; simpl in H; [eauto | discriminate].
  - rewrite orb_true_iff, starts_with_iff, IH. split.
    + intros [[post H] | (pre & post & H)].
      * exists [], post. exact H.
      * exists (c :: pre), post. simpl. now rewrite H.
    + intros (pre & post & H). destruct pre as [|d pre]; simpl in H.
      * left. eauto.
      * right. injection H as _ H. eauto.
Qed.

(** ** The regular expressions of the pipeline *)

Lemma escape_char_cases (c : ascii) :
  (re.escape_char c = ["\"%char; c]
   /\ Ascii.eqb c "b" = false /\ py.is_alnum c = false)
  \/ (re.escape_char c = [c]
      /\ Ascii.eqb c "\" = false /\ Ascii.eqb c "." = false
      /\ re.is_special c = false).
Proof.
  destruct c as [[] [] [] [] [] [] [] []]; vm_compute;
    first [ left; repeat split; reflexivity | right; repeat split; reflexivity ].
Qed.

Lemma parse_escape_char (c : ascii) (rest : list ascii) :
  re.parse (re.escape_char c ++ rest) = option_map (cons (re.Lit c)) (re.parse rest).
Proof.
  destruct (escape_char_cases c) as [(-> & Hb & Hal) | (-> & Hbs & Hdot & Hsp)].
  - change (re.parse (["\"%char; c] ++ rest))
      with (if Ascii.eqb c "b" then option_map (cons re.WordBoundary) (re.parse rest)
            else if py.is_alnum c then None
                 else option_map (cons (re.Lit c)) (re.parse rest)).
    now rewrite Hb, Hal.
  - change (re.parse ([c] ++ rest))
      with (if Ascii.eqb c "\" then
              match rest with
              | [] => None
              | d :: rest' =>
                  if Ascii.eqb d "b" then option_map (cons re.WordBoundary) (re.parse rest')
                  else if py.is_alnum d then None
                       else option_map (cons (re.Lit d)) (re.parse rest')
              end
            else if Ascii.eqb c "." then option_map (cons re.AnyChar) (re.parse rest)
                 else if re.is_special c then None
                      else option_map (cons (re.Lit c)) (re.parse rest)).
    now rewrite Hbs, Hdot, Hsp.
Qed.

Lemma parse_escape (t rest : list ascii) :
  re.parse (re.escape t ++ rest) = option_map (app (map re.Lit t)) (re.parse rest).
Proof.
  induction t as [|c t IH].
  - simpl. destruct (re.parse rest); reflexivity.
  - change (re.escape (c :: t)) with (re.escape_char c ++ re.escape t).
    rewrite <- app_assoc, parse_escape_char, IH.
    destruct (re.parse rest); reflexivity.
Qed.

Lemma compile_whole_word (term : string) :
  re.compile (whole_word_pattern term) = Ok (spec.word_regex term).
Proof.
  unfold re.compile, whole_word_pattern. rewrite chars_str.
  change (py.chars "\b") with ["\"%char; "b"%char].
  cbn [app re.parse]. 
  replace (Ascii.eqb "\" "\") with true by reflexivity.
  replace (Ascii.eqb "b" "b") with true by reflexivity.
  rewrite parse_escape. reflexivity.
Qed.

Lemma str_contains_whole_word (term : string) (df : list Row) :
  str_contains (whole_word_pattern term) df
  = Ok (List.filter (fun r : Row => spec.occurs_in_b term r) df).
Proof.
  unfold str_contains. rewrite compile_whole_word. reflexivity.
Qed.

Lemma last_char_cons (c : ascii) (s : list ascii) :
  spec.last_char (c :: s) = spec.prev_after (Some c) s.
Proof.
  unfold spec.prev_after, spec.last_char. simpl.
  destruct (rev s) as [|d r]; reflexivity.
Qed.

Lemma prev_after_cons (prev : option ascii) (c : ascii) (s : list ascii) :
  spec.prev_after prev (c :: s) = spec.prev_after (Some c) s.
Proof.
  unfold spec.prev_after at 1. rewrite last_char_cons.
  unfold spec.prev_after. destruct (spec.last_char s); reflexivity.
Qed.

Lemma prev_after_app (prev : option ascii) (a b : list ascii) :
  spec.prev_after prev (a ++ b) = spec.prev_after (spec.prev_after prev a) b.
Proof.
  revert prev; induction a as [|c a IH]; intros prev.
  - reflexivity.
  - simpl. rewrite !prev_after_cons. apply IH.
Qed.

Lemma prev_after_None (s : list ascii) : spec.prev_after None s = spec.last_char s.
Proof. unfold spec.prev_after. destruct (spec.last_char s); reflexivity. Qed.

Lemma last_char_app (a b : list ascii) :
  spec.last_char (a ++ b) = spec.prev_after (spec.last_char a) b.
Proof.
  rewrite <- (prev_after_None (a ++ b)), prev_after_app, prev_after_None.
  reflexivity.
Qed.

Lemma lower_eqb_ci (t mid : list ascii) :
  py.lower mid = py.lower t <-> Forall2 (fun c x => re.eqb_ci c x = true) t mid.
Proof.
  revert mid; induction t as [|c t IH]; intros [|x mid]; simpl.
  - split; [constructor | reflexivity].
  - split; [discriminate | intros H; inversion H].
  - split; [discriminate | intros H; inversion H].
  - split.
    + intros H. injection H as Hx Hm. constructor.
      * unfold re.eqb_ci. apply Ascii.eqb_eq. now symmetry.
      * now apply IH.
    + intros H. inversion H as [|? ? ? ? Hc Hf]; subst.
      unfold re.eqb_ci in Hc. apply Ascii.eqb_eq in Hc.
      f_equal; [now symmetry | now apply IH].
Qed.

Lemma match_here_literals (t : list ascii) (r : list re.atom)
    (prev : option ascii) (s : list ascii) :
  re.match_here (map re.Lit t ++ r) prev s = true
  <-> exists mid rest, s = mid ++ rest /\ py.lower mid = py.lower t
                       /\ re.match_here r (spec.prev_after prev mid) rest = true.
Proof.
  revert prev s; induction t as [|c t IH]; intros prev s.
  - simpl. split.
    + intros H. exists [], s. auto.
    + intros (mid & rest & -> & Hl & H). destruct mid; [exact H | discriminate].
  - simpl. destruct s as [|x s].
    + split; [discriminate |].
      intros (mid & rest & Hs & Hl & _). destruct mid; discriminate.
    + rewrite andb_true_iff, IH. split.
      * intros (Hc & mid & rest & -> & Hl & H).
        exists (x :: mid), rest. rewrite prev_after_cons. repeat split; auto.
        simpl. unfold re.eqb_ci in Hc. apply Ascii.eqb_eq in Hc. congruence.
      * intros (mid & rest & Hs & Hl & H). destruct mid as [|y mid]; [discriminate |].
        simpl in Hs, Hl. injection Hs as <- ->. injection Hl as Hy Hl.
        rewrite prev_after_cons in H. split.
        -- unfold re.eqb_ci. apply Ascii.eqb_eq. now symmetry.
        -- eauto.
Qed.

Lemma search_from_iff (r : list re.atom) (prev : option ascii) (s : list ascii) :
  re.search_from r prev s = true
  <-> exists pre post, s = pre ++ post
                       /\ re.match_here r (spec.prev_after prev pre) post = true.
Proof.
  revert prev; induction s as [|x s IH]; intros prev; simpl.
  - rewrite orb_false_r. split.
    + intros H. exists [], []. auto.
    + intros (pre & post & Hs & H).
      symmetry in Hs. apply app_eq_nil in Hs as [-> ->]. exact H.
  - rewrite orb_true_iff, IH. split.
    + intros [H | (pre & post & -> & H)].
      * exists [], (x :: s). auto.
      * exists (x :: pre), post. rewrite prev_after_cons. auto.
    + intros (pre & post & Hs & H). destruct pre as [|y pre].
      * left. simpl in Hs. subst post. exact H.
      * right. simpl in Hs. injection Hs as <- ->.
        rewrite prev_after_cons in H. eauto.
Qed.

Lemma search_word_regex (term : string) (s : list ascii) :
  re.search (spec.word_regex term) s = true <-> spec.whole_word_in (py.chars term) s.
Proof.
  unfold re.search, spec.word_regex, spec.whole_word_in, spec.whole_word_at.
  rewrite search_from_iff. split.
  - intros (pre & post0 & -> & H). rewrite prev_after_None in H.
    cbn [re.match_here] in H. apply andb_true_iff in H as [Hb1 H].
    apply match_here_literals in H as (mid & post & -> & Hl & H).
    cbn [re.match_here] in H. rewrite andb_true_r in H.
    exists pre, mid, post. rewrite last_char_app. auto.
  - intros (pre & mid & post & -> & Hl & Hb1 & Hb2).
    exists pre, (mid ++ post). split; [reflexivity |].
    rewrite prev_after_None.
    cbn [re.match_here]. apply andb_true_iff. split; [exact Hb1 |].
    apply match_here_literals. exists mid, post. repeat split; auto.
    cbn [re.match_here]. rewrite andb_true_r.
    rewrite last_char_app in Hb2. exact Hb2.
Qed.

Lemma occurs_in_b_iff (term : string) (r : Span) :
  spec.occurs_in_b term r = true <-> spec.occurs_in term r.
Proof.
  unfold spec.occurs_in_b, spec.occurs_in, text_matches.
  destruct (text r) as [t|].
  - rewrite search_word_regex. split.
    + intros H. eauto.
    + intros (t' & Ht & H). injection Ht as <-. exact H.
  - split; [discriminate | intros (t' & Ht & _); discriminate].
Qed.

(** ** Distances *)


Lemma distance_le_mono (d : float) (a b : Q) :
  (a <= b)%Q ->
  search_function.distance_le d a = true -> search_function.distance_le d b = true.
Proof.
  unfold search_function.distance_le. intros Hab.
  destruct (Prim2SF d); auto; rewrite !Qle_bool_iff; intros H; eapply Qle_trans; eauto.
Qed.

(** A distance within a bound is below [float('inf')]. *)
Lemma distance_le_lt_infinity (d : float) (nd : Q) :
  search_function.distance_le d nd = true ->
  search_function.distance_lt d PrimFloat.infinity = true.
Proof.
  unfold search_function.distance_le, search_function.distance_lt. rewrite ltb_spec.
  change (Prim2SF PrimFloat.infinity) with (S754_infinity false).
  destruct (Prim2SF d) as [s | [] | | s m e]; try discriminate; reflexivity.
Qed.

Lemma binary_round_aux_sign (mx ex : Z) (lx : location) :
  match binary_round_aux prec emax false mx ex lx with
  | S754_zero s | S754_infinity s | S754_finite s _ _ => s = false
  | S754_nan => True
  end.
Proof.
  unfold binary_round_aux.
  destruct (shr_fexp prec emax mx ex lx) as [mrs' e'].
  destruct (shr_fexp prec emax _ e' loc_Exact) as [mrs'' e''].
  destruct (shr_m mrs''); [reflexivity | | exact I].
  destruct (Z.leb e'' _); reflexivity.
Qed.

(** A square root has no minus sign, unless it is the root of [-0.0]. *)
Lemma sqrt_sign (z : float) :
  match Prim2SF (PrimFloat.sqrt z) with
  | S754_infinity s | S754_finite s _ _ => s = false
  | _ => True
  end.
Proof.
  rewrite sqrt_spec. unfold SF64sqrt, SFsqrt.
  destruct (Prim2SF z) as [s | [] | | [] m e]; try exact I; try reflexivity.
  destruct (SFsqrt_core_binary prec emax (Z.pos m) e) as [[mz ez] lz].
  pose proof (binary_round_aux_sign mz ez lz) as H.
  destruct (binary_round_aux prec emax false mz ez lz); auto.
Qed.

Lemma number_of_pos (m : positive) (e : Z) :
  (0 < search_function.number_of false m e)%Q.
Proof.
  unfold search_function.number_of. apply Qmult_lt_0_compat.
  - unfold Qlt. simpl. lia.
  - apply Qpower_0_lt. reflexivity.
Qed.

(** A distance is never below zero. *)
Lemma distance_le_nonneg (z : float) (nd : Q) :
  search_function.distance_le (PrimFloat.sqrt z) nd = true -> (0 <= nd)%Q.
Proof.
  unfold search_function.distance_le. pose proof (sqrt_sign z) as Hs.
  destruct (Prim2SF (PrimFloat.sqrt z)) as [s | s | | s m e].
  - now rewrite Qle_bool_iff.
  - subst s. discriminate.
  - discriminate.
  - subst s. rewrite Qle_bool_iff. intros H.
    pose proof (number_of_pos m e). Lqa.lra.
Qed.

Lemma to_float_finite (q : Q) :
  match Prim2SF (search_function.to_float q) with
  | S754_zero _ | S754_finite _ _ _ => True
  | _ => False
  end.
Proof.
  unfold search_function.to_float. cbv zeta.
  destruct (Prim2SF (SF2Prim _)) eqn:E; try rewrite E; try exact I;
    change (Prim2SF PrimFloat.zero) with (S754_zero false); exact I.
Qed.

Lemma sub_self (x : float) :
  match Prim2SF x with
  | S754_zero _ | S754_finite _ _ _ => True
  | _ => False
  end ->
  PrimFloat.sub x x = PrimFloat.zero.
Proof.
  intros Hx. apply Prim2SF_inj. rewrite sub_spec.
  change (Prim2SF PrimFloat.zero) with (S754_zero false).
  unfold SF64sub, SFsub.
  destruct (Prim2SF x) as [[] | | | s m e]; try contradiction; try reflexivity.
  cbv zeta. rewrite Z.sub_diag. reflexivity.
Qed.

(** The distance of an anchor from itself is [0.0]. *)
Lemma calculate_distance_same (x y : float) :
  match Prim2SF x with S754_zero _ | S754_finite _ _ _ => True | _ => False end ->
  match Prim2SF y with S754_zero _ | S754_finite _ _ _ => True | _ => False end ->
  search_function.calculate_distance x y x y = PrimFloat.zero.
Proof.
  intros Hx Hy. unfold search_function.calculate_distance.
  rewrite (sub_self x Hx), (sub_self y Hy). reflexivity.
Qed.

(** ** The negation filter of [search_function] *)

Lemma dict_set_in {V} (k : string) (v : V) (d : list (string * V)) :
  In (k, v) (dict_set k v d).
Proof.
  induction d as [|[k' v'] d IH]; simpl; [auto |].
  destruct (String.eqb k' k); simpl; auto.
Qed.

Lemma dict_set_incl {V} (k : string) (v : V) (d : list (string * V)) (e : string * V) :
  In e (dict_set k v d) -> e = (k, v) \/ In e d.
Proof.
  induction d as [|[k' v'] d IH]; simpl.
  - intros [<- | []]. auto.
  - destruct (String.eqb k' k); simpl; intros [<- | H]; auto.
    apply IH in H as [-> | H]; auto.
Qed.

Lemma dict_set_other {V} (k : string) (v : V) (d : list (string * V)) (e : string * V) :
  In e d -> fst e <> k -> In e (dict_set k v d).
Proof.
  induction d as [|[k' v'] d IH]; simpl; [tauto |].
  intros [<- | H] Hk.
  - simpl in Hk. destruct (String.eqb_spec k' k); [contradiction | simpl; auto].
  - destruct (String.eqb k' k); simpl; auto.
Qed.

Lemma negations_fold_ok (df : list Row) (l seen : list string)
    (acc : list (string * list Row) * nat) :
  spec.negations_ok df seen (fst acc) ->
  spec.negations_ok df (seen ++ l)
    (fst (fold_left (fun acc term =>
            let term_matches := List.filter (fun r : Row => spec.occurs_in_b term r) df in
            (dict_set term term_matches (fst acc), snd acc + List.length term_matches))
          l acc)).
Proof.
  revert seen acc; induction l as [|t l IH]; intros seen acc Hok.
  - rewrite app_nil_r. exact Hok.
  - cbn [fold_left].
    replace (seen ++ t :: l) with ((seen ++ [t]) ++ l) by now rewrite <- app_assoc.
    apply IH. cbn [fst]. destruct Hok as [H1 H2]. split.
    + intros e He. apply dict_set_incl in He as [-> | He].
      * cbn [fst snd]. split; [apply in_or_app; simpl; auto | reflexivity].
      * destruct (H1 e He) as [Hs Hv]. split; [apply in_or_app; auto | exact Hv].
    + intros t' Ht'. apply in_app_or in Ht' as [Ht' | [<- | []]].
      * destruct (String.eqb_spec t' t) as [-> | Hne].
        -- apply dict_set_in.
        -- apply dict_set_other; [apply H2, Ht' | exact Hne].
      * apply dict_set_in.
Qed.

Lemma negations_found_ok (df : list Row) (negation_terms : list string) :
  spec.negations_ok df negation_terms (fst (spec.negations_found df negation_terms)).
Proof.
  unfold spec.negations_found.
  apply (negations_fold_ok df negation_terms [] ([], 0)).
  split; [intros e [] | intros t []].
Qed.

Lemma negations_fold_total (df : list Row) (l : list string)
    (acc : list (string * list Row) * nat) :
  snd (fold_left (fun acc term =>
         let term_matches := List.filter (fun r : Row => spec.occurs_in_b term r) df in
         (dict_set term term_matches (fst acc), snd acc + List.length term_matches))
       l acc)
  = snd acc
    + list_sum (map (fun t => List.length (List.filter (fun r : Row => spec.occurs_in_b t r) df)) l).
Proof.
  revert acc; induction l as [|t l IH]; intros acc; cbn [fold_left map].
  - simpl. lia.
  - rewrite IH. cbn [snd]. simpl list_sum. lia.
Qed.

(** No occurrence at all when the total is zero. *)
Lemma negations_found_none (df : list Row) (negation_terms : list string) :
  snd (spec.negations_found df negation_terms) = 0 ->
  forall t o, In t negation_terms -> In o df -> spec.occurs_in_b t o = false.
Proof.
  unfold spec.negations_found. rewrite negations_fold_total. cbn [snd].
  induction negation_terms as [|t l IH]; intros Hsum t' o Ht' Ho; [destruct Ht' |].
  simpl in Hsum.
  destruct Ht' as [<- | Ht'].
  - destruct (spec.occurs_in_b t o) eqn:E; [| reflexivity].
    assert (Hin : In o (List.filter (fun r : Row => spec.occurs_in_b t r) df))
      by (apply filter_In; auto).
    destruct (List.filter (fun r : Row => spec.occurs_in_b t r) df); [destruct Hin |].
    simpl in Hsum. lia.
  - apply IH; auto. lia.
Qed.

(** One turn of the loop of [find_negations], which never raises. *)
Lemma find_negations_step (df : list Row) (t : string)
    (acc : list (string * list Row) * nat) :
  search_function.find_negations df t acc
  = Ok (dict_set t (List.filter (fun r : Row => spec.occurs_in_b t r) df) (fst acc),
        snd acc + List.length (List.filter (fun r : Row => spec.occurs_in_b t r) df)).
Proof.
  unfold search_function.find_negations.
  rewrite str_contains_whole_word. reflexivity.
Qed.

Lemma find_negations_total (df : list Row) (l : list string)
    (acc : list (string * list Row) * nat) :
  for_each (search_function.find_negations df) l acc
  = Ok (fold_left (fun acc term =>
          let term_matches := List.filter (fun r : Row => spec.occurs_in_b term r) df in
          (dict_set term term_matches (fst acc), snd acc + List.length term_matches))
        l acc).
Proof.
  revert acc; induction l as [|t l IH]; intros acc; [reflexivity |].
  cbn [for_each fold_left]. rewrite find_negations_step. cbn. apply IH.
Qed.

Lemma check_negation_spec (x1 y1 : float) (nd : Q) (term : string)
    (st : search_function.scan) (o : Row) :
  spec.scan_ok st ->
  let st' := search_function.check_negation x1 y1 nd term st o in
  spec.scan_ok st'
  /\ search_function.has_nearby_negation st'
     = search_function.has_nearby_negation st
       || search_function.distance_le
            (search_function.calculate_distance x1 y1 (search_function.to_float (bbx0 o))
                          (search_function.to_float (bby0 o))) nd.
Proof.
  intros Hok. unfold search_function.check_negation. cbn zeta.
  destruct (search_function.distance_le _ nd) eqn:Hle; cbn [andb].
  - destruct (search_function.has_nearby_negation st) eqn:Hn.
    + destruct (search_function.distance_lt _ _); cbn.
      * split; [intros H; discriminate | reflexivity].
      * split; [exact Hok | rewrite Hn; reflexivity].
    + rewrite (Hok Hn), (distance_le_lt_infinity _ _ Hle). cbn.
      split; [intros H; discriminate | reflexivity].
  - split; [exact Hok | now rewrite orb_false_r].
Qed.

Lemma check_negations_spec (x1 y1 : float) (nd : Q) (term : string) (l : list Row)
    (st : search_function.scan) :
  spec.scan_ok st ->
  let st' := fold_left (search_function.check_negation x1 y1 nd term) l st in
  spec.scan_ok st'
  /\ search_function.has_nearby_negation st'
     = search_function.has_nearby_negation st
       || existsb (fun o : Row =>
                     search_function.distance_le
                       (search_function.calculate_distance x1 y1 (search_function.to_float (bbx0 o))
                          (search_function.to_float (bby0 o))) nd) l.
Proof.
  revert st; induction l as [|o l IH]; intros st Hok; cbn [fold_left existsb].
  - split; [exact Hok | now rewrite orb_false_r].
  - destruct (check_negation_spec x1 y1 nd term st o Hok) as [Hok' Hn'].
    destruct (IH _ Hok') as [Hok'' Hn'']. split; [exact Hok'' |].
    rewrite Hn'', Hn'. now rewrite orb_assoc.
Qed.

Lemma existsb_filter {A} (p q : A -> bool) (l : list A) :
  existsb q (List.filter p l) = existsb (fun x => p x && q x) l.
Proof.
  induction l as [|x l IH]; [reflexivity |]. simpl.
  destruct (p x); simpl; now rewrite IH.
Qed.

Lemma check_term_spec (file : string) (x1 y1 : float) (nd : Q)
    (st : search_function.scan) (e : string * list Row) :
  spec.scan_ok st ->
  let st' := search_function.check_term file x1 y1 nd st e in
  spec.scan_ok st'
  /\ search_function.has_nearby_negation st'
     = search_function.has_nearby_negation st
       || existsb (fun o : Row =>
                     String.eqb (filename o) file
                     && search_function.distance_le
                          (search_function.calculate_distance x1 y1 (search_function.to_float (bbx0 o))
                          (search_function.to_float (bby0 o))) nd)
                  (snd e).
Proof.
  intros Hok. unfold search_function.check_term.
  destruct (check_negations_spec x1 y1 nd (fst e)
              (List.filter (fun n : Row => String.eqb (filename n) file) (snd e)) st Hok)
    as [Hok' Hn'].
  split; [exact Hok' |]. rewrite Hn', existsb_filter. reflexivity.
Qed.

Lemma check_terms_spec (file : string) (x1 y1 : float) (nd : Q)
    (d : list (string * list Row)) (st : search_function.scan) :
  spec.scan_ok st ->
  let st' := fold_left (search_function.check_term file x1 y1 nd) d st in
  spec.scan_ok st'
  /\ search_function.has_nearby_negation st'
     = search_function.has_nearby_negation st
       || existsb (fun entry : string * list Row =>
                     existsb (fun o : Row =>
                                String.eqb (filename o) file
                                && search_function.distance_le
                                     (search_function.calculate_distance x1 y1 (search_function.to_float (bbx0 o))
                          (search_function.to_float (bby0 o))) nd)
                             (snd entry)) d.
Proof.
  revert st; induction d as [|e d IH]; intros st Hok; cbn [fold_left existsb].
  - split; [exact Hok | now rewrite orb_false_r].
  - destruct (check_term_spec file x1 y1 nd st e Hok) as [Hok' Hn'].
    destruct (IH _ Hok') as [Hok'' Hn'']. split; [exact Hok'' |].
    rewrite Hn'', Hn'. now rewrite orb_assoc.
Qed.

Lemma scan_result_nearby (d : list (string * list Row)) (nd : Q)
    (m : search_function.Match) :
  search_function.has_nearby_negation (search_function.scan_result d nd m)
  = spec.nearby_b d nd m.
Proof.
  unfold search_function.scan_result, spec.nearby_b.
  destruct (check_terms_spec (filename m) (search_function.to_float (bbx0 m))
              (search_function.to_float (bby0 m)) nd d
              search_function.scan_start) as [_ H].
  - intros _. reflexivity.
  - exact H.
Qed.

Lemma loc_in {A} (label : A -> nat) (labels : list nat) (df : list A) (m : A) :
  In m (loc label labels df) <-> In (label m) labels /\ In m df.
Proof.
  unfold loc. rewrite in_flat_map. split.
  - intros (i & Hi & Hm). apply filter_In in Hm as [Hm He].
    apply Nat.eqb_eq in He. subst i. auto.
  - intros [Hi Hm]. exists (label m). split; [exact Hi |].
    apply filter_In. split; [exact Hm | apply Nat.eqb_refl].
Qed.

Lemma filter_none {A} (p : A -> bool) (l : list A) :
  (forall y, In y l -> p y = false) -> List.filter p l = [].
Proof.
  induction l as [|x l IH]; intros H; [reflexivity |].
  cbn [List.filter]. rewrite (H x) by now left.
  apply IH. intros y Hy. apply H. now right.
Qed.

Lemma filter_all {A} (p : A -> bool) (l : list A) :
  (forall y, In y l -> p y = true) -> List.filter p l = l.
Proof.
  induction l as [|x l IH]; intros H; [reflexivity |].
  cbn [List.filter]. rewrite (H x) by now left.
  f_equal. apply IH. intros y Hy. apply H. now right.
Qed.

Lemma filter_label_unique {A} (label : A -> nat) (df : list A) (r : A) :
  NoDup (map label df) -> In r df ->
  List.filter (fun x => label x =? label r) df = [r].
Proof.
  induction df as [|x df IH]; intros Hnd Hin; [destruct Hin |].
  cbn [map] in Hnd. inversion Hnd as [|? ? Hx Hnd']; subst.
  cbn [List.filter]. destruct Hin as [-> | Hin].
  - rewrite Nat.eqb_refl. f_equal.
    apply filter_none. intros y Hy. apply Nat.eqb_neq. intros E.
    apply Hx. rewrite <- E. now apply in_map.
  - destruct (Nat.eqb_spec (label x) (label r)) as [E | _].
    + exfalso. apply Hx. rewrite E. now apply in_map.
    + now apply IH.
Qed.

(** With labels that are all different, selecting the kept labels is
    filtering the rows. *)
Lemma loc_kept_filter {A} (label : A -> nat) (drop_it : A -> bool) (df : list A) :
  NoDup (map label df) ->
  loc label (flat_map (fun r => if drop_it r then [] else [label r]) df) df
  = List.filter (fun r => negb (drop_it r)) df.
Proof.
  intros Hnd. unfold loc.
  assert (H : forall l, incl l df ->
            flat_map (fun i => List.filter (fun r => label r =? i) df)
                     (flat_map (fun r => if drop_it r then [] else [label r]) l)
            = List.filter (fun r => negb (drop_it r)) l).
  { induction l as [|x l IH]; intros Hl; [reflexivity |].
    cbn [flat_map List.filter]. rewrite flat_map_app, IH.
    - destruct (drop_it x); cbn [negb flat_map app]; [reflexivity |].
      rewrite app_nil_r, (filter_label_unique label df x Hnd); [reflexivity |].
      apply Hl. now left.
    - intros y Hy. apply Hl. now right. }
  apply H, incl_refl.
Qed.

Lemma results_to_keep_in (d : list (string * list Row)) (nd : Q)
    (sr : list search_function.Match) (i : nat) :
  In i (search_function.results_to_keep d nd sr)
  <-> exists r : search_function.Match,
        In r sr /\ index r = i /\ spec.nearby_b d nd r = false.
Proof.
  unfold search_function.results_to_keep. rewrite in_flat_map. split.
  - intros (r & Hr & Hi). rewrite scan_result_nearby in Hi.
    destruct (spec.nearby_b d nd r) eqn:E; [destruct Hi |].
    destruct Hi as [<- | []]. eauto.
  - intros (r & Hr & <- & E). exists r. split; [exact Hr |].
    rewrite scan_result_nearby, E. now left.
Qed.

(** The filter computes a value on every input. *)
Lemma negation_filter_value (df : list Row) (nts : list string) (nd : Q)
    (sr : list search_function.Match) :
  search_function.negation_filter df nts nd sr
  = Ok (match nts, sr with
        | _ :: _, _ :: _ =>
            if 0 <? snd (spec.negations_found df nts)
            then loc (fun r : search_function.Match => index r)
                     (search_function.results_to_keep
                        (fst (spec.negations_found df nts)) nd sr) sr
            else sr
        | _, _ => sr
        end).
Proof.
  unfold search_function.negation_filter.
  destruct nts as [|t nts]; [reflexivity |].
  destruct sr as [|m sr]; [reflexivity |].
  rewrite find_negations_total. unfold spec.negations_found.
  unfold mbind, res_bind. cbv beta iota zeta.
  destruct (0 <? _); reflexivity.
Qed.

(** The test of the loop is the condition of the specification. *)
Lemma nearby_b_iff (df : list Row) (nts : list string) (nd : Q) (m : Span) :
  spec.nearby_b (fst (spec.negations_found df nts)) nd m = true
  <-> spec.negation_nearby df nts nd m.
Proof.
  destruct (negations_found_ok df nts) as [H1 H2].
  unfold spec.nearby_b, spec.negation_nearby. rewrite existsb_exists. split.
  - intros (e & He & Hex). apply existsb_exists in Hex as (o & Ho & Hc).
    apply andb_true_iff in Hc as [Hf Hd]. apply String.eqb_eq in Hf.
    destruct (H1 e He) as [Ht Hv]. rewrite Hv in Ho.
    apply filter_In in Ho as [Ho Hocc].
    exists (fst e), o. repeat split; auto.
    + now apply occurs_in_b_iff.
  - intros (t & o & Ht & Ho & Hocc & Hf & Hd).
    exists (t, List.filter (fun r : Row => spec.occurs_in_b t r) df).
    split; [now apply H2 |]. apply existsb_exists. exists o. split.
    + apply filter_In. split; [exact Ho | now apply occurs_in_b_iff].
    + apply andb_true_iff. split; [now apply String.eqb_eq | exact Hd].
Qed.

Lemma nearby_b_mono (d : list (string * list Row)) (d1 d2 : Q) (m : Span) :
  (d1 <= d2)%Q -> spec.nearby_b d d1 m = true -> spec.nearby_b d d2 m = true.
Proof.
  intros Hle. unfold spec.nearby_b. rewrite !existsb_exists.
  intros (e & He & Hex). exists e. split; [exact He |].
  apply existsb_exists in Hex as (o & Ho & Hc). apply existsb_exists.
  exists o. split; [exact Ho |].
  apply andb_true_iff in Hc as [Hf Hd]. apply andb_true_iff. split; [exact Hf |].
  eapply distance_le_mono; eauto.
Qed.

(** What the filter keeps when the labels of the results are all
    different. *)
Lemma negation_filter_kept (df : list Row) (nts : list string) (nd : Q)
    (sr : list search_function.Match) :
  NoDup (map (fun m : search_function.Match => index m) sr) ->
  search_function.negation_filter df nts nd sr
  = Ok (List.filter
          (fun m : search_function.Match =>
             negb (spec.nearby_b (fst (spec.negations_found df nts)) nd m)) sr).
Proof.
  intros Hnd. rewrite negation_filter_value. f_equal.
  assert (Hnone : snd (spec.negations_found df nts) = 0 ->
            List.filter (fun m : search_function.Match =>
               negb (spec.nearby_b (fst (spec.negations_found df nts)) nd m)) sr = sr).
  { intros H0. apply filter_all. intros m _.
    apply negb_true_iff. apply not_true_is_false. intros Hn.
    apply nearby_b_iff in Hn as (t & o & Ht & Ho & Hocc & _).
    apply occurs_in_b_iff in Hocc.
    rewrite (negations_found_none df nts H0 t o Ht Ho) in Hocc. discriminate. }
  destruct nts as [|t nts].
  - symmetry. apply Hnone. reflexivity.
  - destruct sr as [|m sr]; [reflexivity |].
    destruct (Nat.ltb_spec 0 (snd (spec.negations_found df (t :: nts)))) as [Hpos | Hz].
    + unfold search_function.results_to_keep.
      erewrite flat_map_ext.
      * apply (loc_kept_filter (fun r : search_function.Match => index r)
                 (fun r => spec.nearby_b (fst (spec.negations_found df (t :: nts))) nd r)).
        exact Hnd.
      * intros r. cbn beta. now rewrite scan_result_nearby.
    + symmetry. apply Hnone. lia.
Qed.

(** ** The stages of [search_documents] *)

Lemma firstn_skipn_add {A} (a b : nat) (l : list A) :
  firstn a l ++ firstn b (skipn a l) = firstn (a + b) l.
Proof.
  revert l; induction a as [|a IH]; intros l; [reflexivity |].
  destruct l as [|x l]; simpl.
  - now rewrite firstn_nil.
  - now rewrite IH.
Qed.

Lemma concat_chunks {A} (cs : nat) (l : list A) (n : nat) :
  List.concat (map (fun k => iloc (k * cs) cs l) (seq 0 n)) = firstn (n * cs) l.
Proof.
  induction n as [|n IH]; [reflexivity |].
  rewrite seq_S, map_app, concat_app, IH. cbn [map List.concat plus].
  rewrite app_nil_r. unfold iloc. rewrite firstn_skipn_add.
  f_equal. lia.
Qed.

Lemma chunks_cover (cs len : nat) : 0 < cs -> len <= (len + cs - 1) / cs * cs.
Proof.
  intros Hcs.
  pose proof (Nat.div_mod_eq (len + cs - 1) cs) as E.
  pose proof (Nat.mod_upper_bound (len + cs - 1) cs ltac:(lia)) as U.
  nia.
Qed.

Lemma fuzzy_chunk_app (term : string) (thr : Z) (a b : list Row) :
  search_function.fuzzy_chunk term thr (a ++ b)
  = search_function.fuzzy_chunk term thr a ++ search_function.fuzzy_chunk term thr b.
Proof.
  unfold search_function.fuzzy_chunk. now rewrite map_app, filter_app.
Qed.

Lemma fuzzy_chunk_concat (term : string) (thr : Z) (chunks : list (list Row)) :
  List.concat (map (search_function.fuzzy_chunk term thr) chunks)
  = search_function.fuzzy_chunk term thr (List.concat chunks).
Proof.
  induction chunks as [|c chunks IH]; [reflexivity |].
  cbn [map List.concat]. now rewrite fuzzy_chunk_app, IH.
Qed.

(** The chunks do not change the fuzzy stage: it scores every remaining
    row and keeps those that reach the threshold. *)
Lemma fuzzy_chunks_whole (term : string) (thr : Z) (remaining_df : list Row) :
  List.concat (search_function.fuzzy_matches_chunks term thr remaining_df)
  = search_function.fuzzy_chunk term thr remaining_df.
Proof.
  unfold search_function.fuzzy_matches_chunks.
  rewrite <- (map_map (fun k => iloc (k * search_function.chunk_size)
                                    search_function.chunk_size remaining_df)
                      (search_function.fuzzy_chunk term thr)).
  rewrite fuzzy_chunk_concat, concat_chunks. f_equal.
  apply firstn_all2. apply chunks_cover.
  unfold search_function.chunk_size. apply Nat.mul_pos_pos; lia.
Qed.

Lemma map_fst_combine {A B} (a : list A) (b : list B) :
  List.length a = List.length b -> map fst (combine a b) = a.
Proof.
  revert b; induction a as [|x a IH]; intros [|y b] H; try discriminate; [reflexivity |].
  simpl. f_equal. apply IH. now injection H.
Qed.

Lemma read_csv_index (lines : list Span) :
  map index (read_csv lines) = seq 0 (List.length lines).
Proof.
  unfold read_csv. rewrite map_map. cbn [index].
  apply map_fst_combine. now rewrite length_seq.
Qed.

Lemma read_csv_nodup (lines : list Span) : NoDup (map index (read_csv lines)).
Proof. rewrite read_csv_index. apply seq_NoDup. Qed.

Lemma nodup_map_filter {A B} (f : A -> B) (p : A -> bool) (l : list A) :
  NoDup (map f l) -> NoDup (map f (List.filter p l)).
Proof.
  induction l as [|x l IH]; intros H; [constructor |].
  cbn [map] in H. inversion H as [|? ? Hx Hl]; subst.
  cbn [List.filter]. destruct (p x); [| now apply IH].
  cbn [map]. constructor; [| now apply IH].
  intros Hin. apply Hx. apply in_map_iff in Hin as (y & <- & Hy).
  apply in_map. now apply filter_In in Hy.
Qed.

Lemma drop_duplicates_from_in {A} (same : A -> A -> bool) (seen l : list A) (x : A) :
  In x (drop_duplicates_from same seen l) -> In x l.
Proof.
  revert seen; induction l as [|y l IH]; intros seen; simpl; [tauto |].
  destruct (existsb (same y) seen); simpl.
  - intros H. right. eapply IH, H.
  - intros [-> | H]; [now left | right; eapply IH, H].
Qed.

Lemma drop_duplicates_from_nodup {A B} (f : A -> B) (same : A -> A -> bool)
    (seen l : list A) :
  NoDup (map f l) -> NoDup (map f (drop_duplicates_from same seen l)).
Proof.
  revert seen; induction l as [|y l IH]; intros seen H; [constructor |].
  cbn [map] in H. inversion H as [|? ? Hy Hl]; subst.
  simpl. destruct (existsb (same y) seen); [now apply IH |].
  cbn [map]. constructor; [| now apply IH].
  intros Hin. apply Hy. apply in_map_iff in Hin as (z & <- & Hz).
  apply in_map. eapply drop_duplicates_from_in, Hz.
Qed.

(** The two stages on a corpus: the rows the pattern matches, with
    similarity 100, then the other rows that reach the threshold. *)
Lemma matching_value (term : string) (thr : Z) (df : list Row) (r : list re.atom) :
  re.compile term = Ok r ->
  search_function.matching term thr df
  = Ok (drop_duplicates search_function.match_eqb
          (map (fun x => search_function.mkMatch x 100)
               (List.filter (fun x : Row => text_matches r x) df)
           ++ search_function.fuzzy_chunk term thr
                (drop index
                   (map index (List.filter (fun x : Row => text_matches r x) df)) df))).
Proof.
  intros Hc. unfold search_function.matching, search_function.exact_stage, str_contains.
  rewrite Hc. unfold mbind, res_bind. cbv beta iota zeta.
  unfold search_function.fuzzy_stage. rewrite fuzzy_chunks_whole, map_map.
  reflexivity.
Qed.

Lemma matching_compiles (term : string) (thr : Z) (df : list Row)
    (sr : list search_function.Match) :
  search_function.matching term thr df = Ok sr ->
  exists r, re.compile term = Ok r.
Proof.
  unfold search_function.matching, search_function.exact_stage, str_contains.
  destruct (re.compile term) as [r|e]; [eauto | discriminate].
Qed.

Lemma drop_not_listed {A} (label : A -> nat) (labels : list nat) (df : list A) (x : A) :
  In x (drop label labels df) <-> In x df /\ ~ In (label x) labels.
Proof.
  unfold drop. rewrite filter_In, negb_true_iff. split.
  - intros [Hx Hn]. split; [exact Hx |]. intros Hin.
    assert (existsb (Nat.eqb (label x)) labels = true) as E.
    { apply existsb_exists. exists (label x). split; [exact Hin | apply Nat.eqb_refl]. }
    congruence.
  - intros [Hx Hn]. split; [exact Hx |].
    apply not_true_is_false. intros E. apply existsb_exists in E as (i & Hi & Ei).
    apply Nat.eqb_eq in Ei. subst i. contradiction.
Qed.

(** The labels of the matches of a corpus read from a file are all
    different. *)
Lemma matching_index_nodup (term : string) (thr : Z) (lines : list Span)
    (sr : list search_function.Match) :
  search_function.matching term thr (read_csv lines) = Ok sr ->
  NoDup (map (fun m : search_function.Match => index m) sr).
Proof.
  intros H. destruct (matching_compiles _ _ _ _ H) as [r Hr].
  rewrite (matching_value _ _ _ _ Hr) in H. injection H as <-.
  apply drop_duplicates_from_nodup.
  set (df := read_csv lines).
  set (exact := List.filter (fun x : Row => text_matches r x) df).
  rewrite map_app, map_map. cbn [search_function.row index].
  change (map (fun x : Row => index x) exact) with (map index exact).
  change (map (fun x : search_function.Match => index x)
              (search_function.fuzzy_chunk term thr (drop index (map index exact) df)))
    with (map (fun x : search_function.Match => index x)
              (List.filter (fun m => (thr <=? search_function.similarity m)%Z)
                 (map (fun x : Row =>
                         search_function.mkMatch x
                           (search_function.word_level_similarity term (text x)))
                      (drop index (map index exact) df)))).
  assert (Hdf : NoDup (map index df)) by apply read_csv_nodup.
  apply NoDup_app.
  - now apply nodup_map_filter.
  - apply nodup_map_filter. rewrite map_map. cbn [search_function.row].
    now apply nodup_map_filter.
  - intros i Hi Hi'. apply in_map_iff in Hi' as (m & <- & Hm).
    apply filter_In in Hm as [Hm _]. apply in_map_iff in Hm as (x & <- & Hx).
    apply drop_not_listed in Hx as [_ Hx]. apply Hx, Hi.
Qed.

(** ** The negation filter: what is dropped (C3) and monotonicity (C4) *)




(** C4.  For a fixed corpus, fixed matches and fixed negation terms, a
    larger [negation_distance] keeps a subset of what a smaller one
    keeps. *)
Theorem negation_filter_antitone :
  forall (df : list Row) (negation_terms : list string) (d1 d2 : Q)
         (search_results : list search_function.Match),
    (d1 <= d2)%Q ->
    exists kept1 kept2,
      search_function.negation_filter df negation_terms d1 search_results = Ok kept1
      /\ search_function.negation_filter df negation_terms d2 search_results = Ok kept2
      /\ (forall m, In m kept2 -> In m kept1).
Proof.
  intros df nts d1 d2 sr Hle.
  do 2 eexists. split; [apply negation_filter_value |].
  split; [apply negation_filter_value |].
  destruct nts as [|t nts]; [auto |].
  destruct sr as [|m0 sr]; [auto |].
  destruct (0 <? snd (spec.negations_found df (t :: nts))); [| auto].
  intros m Hm. apply loc_in in Hm as [Hi Hm]. apply loc_in. split; [| exact Hm].
  apply results_to_keep_in in Hi as (r & Hr & Hri & Hn).
  apply results_to_keep_in. exists r. repeat split; auto.
  destruct (spec.nearby_b _ d1 r) eqn:E; [| reflexivity].
  apply (nearby_b_mono _ d1 d2) in E; [congruence | exact Hle].
Qed.

Lemma negation_filter_antitone_witness :
  exists kept1 kept2,
    search_function.negation_filter (read_csv scenario.three_spans) ["spain"]
                                    5 scenario.rain_matches = Ok kept1
    /\ search_function.negation_filter (read_csv scenario.three_spans) ["spain"]
                                       100 scenario.rain_matches = Ok kept2
    /\ (forall m, In m kept2 -> In m kept1).
Proof.
  apply (negation_filter_antitone (read_csv scenario.three_spans) ["spain"] 5 100
                                  scenario.rain_matches).
  unfold Qle. simpl. lia.
Defined.

(** ** The exact stage (C1) *)

Lemma substring_ci_iff (term text : list ascii) :
  py.contains (py.lower term) (py.lower text) = true <-> spec.substring_ci term text.
Proof. apply contains_iff. Qed.

Lemma parse_literal (t : list ascii) :
  Forall (fun c => re.is_special c = false) t -> re.parse t = Some (map re.Lit t).
Proof.
  induction 1 as [|c t Hc Ht IH]; [reflexivity |].
  assert (Hbs : Ascii.eqb c "\" = false).
  { destruct (Ascii.eqb_spec c "\") as [-> | ]; [discriminate Hc | reflexivity]. }
  assert (Hdot : Ascii.eqb c "." = false).
  { destruct (Ascii.eqb_spec c ".") as [-> | ]; [discriminate Hc | reflexivity]. }
  cbn [re.parse map]. rewrite Hbs, Hdot, Hc, IH. reflexivity.
Qed.

Lemma search_literals (t s : list ascii) :
  re.search (map re.Lit t) s = true <-> spec.substring_ci t s.
Proof.
  unfold re.search, spec.substring_ci. rewrite search_from_iff. split.
  - intros (pre & post0 & -> & H).
    rewrite <- (app_nil_r (map re.Lit t)) in H.
    apply match_here_literals in H as (mid & post & -> & Hl & _).
    exists (py.lower pre), (py.lower post).
    unfold py.lower in *. now rewrite !map_app, Hl.
  - intros (pre' & post' & H). unfold py.lower in H.
    apply map_eq_app in H as (pre & rest & -> & Hpre & H).
    apply map_eq_app in H as (mid & post & -> & Hmid & Hpost).
    exists pre, (mid ++ post). split; [reflexivity |].
    rewrite <- (app_nil_r (map re.Lit t)).
    apply match_here_literals. exists mid, post. repeat split. exact Hmid.
Qed.

(** On a term without special characters the exact stage is the
    case-insensitive substring test, with similarity 100. *)
Lemma exact_stage_literal (term : string) (df : list Row) :
  spec.literal_term term ->
  exists exact,
    search_function.exact_stage term df = Ok exact
    /\ forall m, In m exact
                 <-> exists r : Row, In r df /\ spec.contains_term term r
                                     /\ m = search_function.mkMatch r 100.
Proof.
  intros Hlit. unfold search_function.exact_stage, str_contains, re.compile.
  rewrite (parse_literal _ Hlit). eexists. split; [reflexivity |].
  intros m. rewrite in_map_iff. split.
  - intros (r & <- & Hr). apply filter_In in Hr as [Hr Hm].
    exists r. repeat split; auto.
    unfold text_matches in Hm. unfold spec.contains_term.
    destruct (text r) as [t|]; [| discriminate].
    exists t. split; [reflexivity | now apply search_literals].
  - intros (r & Hr & (t & Ht & Hsub) & ->). exists r. split; [reflexivity |].
    apply filter_In. split; [exact Hr |].
    unfold text_matches. rewrite Ht. now apply search_literals.
Qed.

(** C1.  The exact stage reads the term as a regular expression: for the
    term [a.c] the span [abc] is returned as an exact match with
    similarity 100 although it does not hold [a.c] as a substring. *)
Theorem exact_stage_pattern_not_substring :
  search_function.exact_stage scenario.dotted_term (read_csv [scenario.dotted_line])
  = Ok [search_function.mkMatch (mkRow 0 scenario.dotted_line) 100]
  /\ ~ spec.contains_term scenario.dotted_term scenario.dotted_line.
Proof.
  split; [vm_compute; reflexivity |].
  intros (t & Ht & Hsub). injection Ht as <-.
  apply substring_ci_iff in Hsub. vm_compute in Hsub. discriminate.
Qed.

(** ** The fuzzy stage (C2) *)

Lemma lcs_refl (s : list ascii) : fuzz.lcs s s = List.length s.
Proof.
  induction s as [|a s IH]; [reflexivity |].
  cbn [fuzz.lcs List.length]. rewrite Ascii.eqb_refl. now rewrite IH.
Qed.

Lemma py_round_comp (x y : Q) : (x == y)%Q -> py_round x = py_round y.
Proof.
  intros E. unfold py_round. rewrite (Qfloor_comp x y E).
  assert (E' : (x - inject_Z (Qfloor y) == y - inject_Z (Qfloor y))%Q) by now rewrite E.
  now rewrite (Qcompare_comp _ _ E' (1 # 2) (1 # 2) (Qeq_refl _)).
Qed.

Lemma py_round_le_100 (x : Q) : (x <= 100)%Q -> (py_round x <= 100)%Z.
Proof.
  intros Hx. unfold py_round.
  assert (Hf : (Qfloor x <= 100)%Z).
  { change 100%Z with (Qfloor (inject_Z 100)). now apply Qfloor_resp_le. }
  destruct (Z.eq_dec (Qfloor x) 100) as [E | Hne].
  - rewrite E.
    assert (Hlt : (x - inject_Z 100 < 1 # 2)%Q).
    { apply Qle_lt_trans with (y := 0%Q); [| reflexivity].
      unfold inject_Z. Lqa.lra. }
    rewrite (proj1 (Qlt_alt _ _) Hlt). lia.
  - destruct (Qcompare _ _); [destruct (Z.even _) | |]; lia.
Qed.

Lemma ratio_le_100 (s t : list ascii) : (fuzz.ratio s t <= 100)%Q.
Proof.
  unfold fuzz.ratio. destruct (_ =? 0); [apply Qle_refl |].
  set (d := Z.of_nat (fuzz.indel_distance s t)).
  set (p := Pos.of_nat (List.length s + List.length t)).
  assert (H : (0 <= d # p)%Q).
  { unfold Qle. simpl. unfold d. lia. }
  Lqa.lra.
Qed.

Lemma ratio_refl (s : list ascii) : (fuzz.ratio s s == 100)%Q.
Proof.
  unfold fuzz.ratio. destruct (_ =? 0); [apply Qeq_refl |].
  unfold fuzz.indel_distance. rewrite lcs_refl.
  replace (List.length s + List.length s - 2 * List.length s) with 0 by lia.
  set (p := Pos.of_nat _).
  assert (H : (0 # p == 0)%Q) by (unfold Qeq; simpl; lia).
  change (Z.of_nat 0) with 0%Z. rewrite H. ring.
Qed.

Lemma fold_max_bounds (l : list Z) (x b : Z) :
  (x <= b)%Z -> (forall y, In y l -> (y <= b)%Z) ->
  (x <= fold_left Z.max l x <= b)%Z
  /\ forall y, In y l -> (y <= fold_left Z.max l x)%Z.
Proof.
  revert x; induction l as [|z l IH]; intros x Hx Hl; cbn [fold_left].
  - split; [lia | intros y []].
  - destruct (IH (Z.max x z)) as [[H1 H2] H3].
    + specialize (Hl z (or_introl eq_refl)). lia.
    + intros y Hy. apply Hl. now right.
    + split; [lia |]. intros y [<- | Hy]; [lia | now apply H3].
Qed.

(** The greatest element of a list that holds its upper bound. *)
Lemma max_list_attained (l : list Z) (b : Z) :
  In b l -> (forall y, In y l -> (y <= b)%Z) -> max_list l = b.
Proof.
  intros Hb Hl. destruct l as [|x l]; [destruct Hb |]. cbn [max_list].
  destruct (fold_max_bounds l x b) as [[H1 H2] H3].
  - apply Hl. now left.
  - intros y Hy. apply Hl. now right.
  - destruct Hb as [-> | Hb]; [lia |]. specialize (H3 b Hb). lia.
Qed.

Lemma mem_iff (x : list ascii) (l : list (list ascii)) :
  py.mem x l = true <-> In x l.
Proof.
  unfold py.mem. rewrite existsb_exists. split.
  - intros (y & Hy & E). unfold py.eqb_chars in E.
    destruct (list_eq_dec ascii_dec x y) as [-> | ]; [exact Hy | discriminate].
  - intros H. exists x. split; [exact H |]. unfold py.eqb_chars.
    destruct (list_eq_dec ascii_dec x x); [reflexivity | contradiction].
Qed.

(** The similarity of a span is the greatest rounded ratio of the term
    with one of its words. *)
Lemma word_level_similarity_max (term text : string) :
  search_function.word_level_similarity term (Some text)
  = max_list (map (fun w => py_round (fuzz.ratio (spec.normalize term) w))
                  (spec.words text)).
Proof.
  unfold search_function.word_level_similarity.
  fold (spec.normalize term). fold (spec.normalize text). fold (spec.words text).
  destruct (py.mem (spec.normalize term) (spec.words text)) eqn:Hmem.
  - symmetry. apply max_list_attained.
    + apply mem_iff in Hmem. apply in_map_iff. exists (spec.normalize term).
      split; [| exact Hmem].
      rewrite (py_round_comp _ 100 (ratio_refl _)). reflexivity.
    + intros y Hy. apply in_map_iff in Hy as (w & <- & _).
      apply py_round_le_100, ratio_le_100.
  - destruct (spec.words text); reflexivity.
Qed.

(** The fuzzy stage keeps, of the rows the exact stage left, those whose
    similarity reaches the threshold. *)
Lemma fuzzy_stage_in (term : string) (thr : Z) (df : list Row)
    (exact : list search_function.Match) (m : search_function.Match) :
  In m (search_function.fuzzy_stage term thr df exact)
  <-> exists r : Row,
        In r df
        /\ ~ In (index r) (map (fun e : search_function.Match => index e) exact)
        /\ m = search_function.mkMatch r
                 (search_function.word_level_similarity term (text r))
        /\ (thr <= search_function.word_level_similarity term (text r))%Z.
Proof.
  unfold search_function.fuzzy_stage. rewrite fuzzy_chunks_whole.
  unfold search_function.fuzzy_chunk. rewrite filter_In, in_map_iff. split.
  - intros [(r & <- & Hr) Hthr]. apply drop_not_listed in Hr as [Hr Hn].
    exists r. cbn [search_function.similarity] in Hthr.
    repeat split; auto. now apply Z.leb_le.
  - intros (r & Hr & Hn & -> & Hthr). split.
    + exists r. split; [reflexivity |]. apply drop_not_listed. auto.
    + cbn [search_function.similarity]. now apply Z.leb_le.
Qed.

(** C2, as the code has it.  The similarity [word_level_similarity] gives
    a span with text is the maximum, over the words of the normalized
    text, of [fuzz.ratio] rounded to the nearest integer (the even one on
    a tie), 0 when there is no word: the ratio is the normalized Indel
    similarity [100 * (1 - indel / (len_a + len_b))], not the Levenshtein
    ratio.  A row the exact stage left is returned by the fuzzy stage
    exactly when this similarity reaches the threshold. *)
Theorem word_level_similarity_indel :
  forall (term : string) (similarity_threshold : Z) (df : list Row)
         (exact_matches : list search_function.Match),
    (forall text : string,
        search_function.word_level_similarity term (Some text)
        = max_list (map (fun w => py_round (fuzz.ratio (spec.normalize term) w))
                        (spec.words text)))
    /\ (forall a b : list ascii,
          fuzz.ratio a b
          = if List.length a + List.length b =? 0 then 100%Q
            else (100 * (1 - (Z.of_nat (List.length a + List.length b - 2 * fuzz.lcs a b)
                              # Pos.of_nat (List.length a + List.length b))))%Q)
    /\ (forall m : search_function.Match,
          In m (search_function.fuzzy_stage term similarity_threshold df exact_matches)
          <-> exists r : Row,
                In r df
                /\ ~ In (index r) (map (fun e : search_function.Match => index e)
                                       exact_matches)
                /\ m = search_function.mkMatch r
                         (search_function.word_level_similarity term (text r))
                /\ (similarity_threshold
                    <= search_function.word_level_similarity term (text r))%Z).
Proof.
  intros term thr df exact. split; [| split].
  - intros text. apply word_level_similarity_max.
  - intros a b. reflexivity.
  - intros m. apply fuzzy_stage_in.
Qed.

(** C2, as the claim words it, fails on the term [ab] and the span [ba]:
    the code gives the similarity 50 (one common letter out of four),
    the Levenshtein ratio gives 0; with the threshold 50 the span is
    returned as a fuzzy match. *)
Lemma word_level_similarity_not_levenshtein :
  search_function.word_level_similarity "ab" (Some "ba") = 50%Z
  /\ spec.levenshtein_similarity "ab" "ba" = 0%Z
  /\ search_function.word_level_similarity "ab" (Some "ba")
     <> spec.levenshtein_similarity "ab" "ba"
  /\ search_function.fuzzy_stage "ab" 50 (read_csv [scenario.swapped_line]) []
     = [search_function.mkMatch (mkRow 0 scenario.swapped_line) 50].
Proof. vm_compute. repeat split; try reflexivity. discriminate. Qed.

(** ** The per-term matches of the co-occurrence search (C7) *)

Lemma dict_set_keys {V} (k : string) (v : V) (d : list (string * V)) :
  map fst (dict_set k v d) = if existsb (String.eqb k) (map fst d)
                             then map fst d else map fst d ++ [k].
Proof.
  induction d as [|[k' v'] d IH]; [reflexivity |].
  cbn [dict_set map fst existsb].
  destruct (String.eqb_spec k' k) as [-> | Hne].
  - rewrite String.eqb_refl. reflexivity.
  - cbn [map fst]. rewrite IH.
    destruct (String.eqb_spec k k') as [E | _]; [congruence |].
    cbn [orb]. destruct (existsb _ _); reflexivity.
Qed.

Lemma dict_set_keys_nodup {V} (k : string) (v : V) (d : list (string * V)) :
  NoDup (map fst d) -> NoDup (map fst (dict_set k v d)).
Proof.
  intros H. rewrite dict_set_keys.
  destruct (existsb (String.eqb k) (map fst d)) eqn:E; [exact H |].
  apply NoDup_app; [exact H | repeat constructor; intros [] |].
  intros a Ha [Ea | []]. subst a.
  assert (existsb (String.eqb k) (map fst d) = true) as E'.
  { apply existsb_exists. exists k. split; [exact Ha | apply String.eqb_refl]. }
  congruence.
Qed.

Section DictFold.
Context {V : Type}.
Variable val : string -> V.

Let step (d : list (string * V)) (t : string) := dict_set t (val t) d.

Lemma dict_fold_in (l : list string) (d0 : list (string * V)) (e : string * V) :
  In e (fold_left step l d0) -> (In (fst e) l /\ snd e = val (fst e)) \/ In e d0.
Proof.
  revert d0; induction l as [|t l IH]; intros d0; cbn [fold_left]; [auto |].
  intros H. apply IH in H as [[H1 H2] | H].
  - left. split; [now right | exact H2].
  - apply dict_set_incl in H as [-> | H]; [| auto].
    left. cbn. auto.
Qed.

Lemma dict_fold_keep (l : list string) (d0 : list (string * V)) (t : string) :
  In (t, val t) d0 -> In (t, val t) (fold_left step l d0).
Proof.
  revert d0; induction l as [|t' l IH]; intros d0 H; cbn [fold_left]; [exact H |].
  apply IH. unfold step. destruct (String.eqb_spec t t') as [<- | Hne].
  - apply dict_set_in.
  - apply dict_set_other; [exact H | exact Hne].
Qed.

Lemma dict_fold_has (l : list string) (d0 : list (string * V)) (t : string) :
  In t l -> In (t, val t) (fold_left step l d0).
Proof.
  revert d0; induction l as [|t' l IH]; intros d0 H; [destruct H |].
  cbn [fold_left]. destruct H as [-> | H].
  - apply dict_fold_keep, dict_set_in.
  - now apply IH.
Qed.

Lemma dict_fold_nodup (l : list string) (d0 : list (string * V)) :
  NoDup (map fst d0) -> NoDup (map fst (fold_left step l d0)).
Proof.
  revert d0; induction l as [|t l IH]; intros d0 H; cbn [fold_left]; [exact H |].
  apply IH, dict_set_keys_nodup, H.
Qed.

End DictFold.

Lemma dict_get_in {V} (k : string) (v : V) (d : list (string * V)) :
  NoDup (map fst d) -> In (k, v) d -> dict_get k d = Some v.
Proof.
  induction d as [|[k' v'] d IH]; intros Hnd Hin; [destruct Hin |].
  cbn [map fst] in Hnd. inversion Hnd as [|? ? Hk Hnd']; subst.
  cbn [dict_get]. destruct Hin as [E | Hin].
  - injection E as -> ->. now rewrite String.eqb_refl.
  - destruct (String.eqb_spec k' k) as [-> | _]; [| now apply IH].
    exfalso. apply Hk. apply in_map_iff. exists (k, v). auto.
Qed.

Lemma find_term_step (df : list Row) (t : string)
    (d : list (string * list co_occurance_search.TermMatch)) :
  co_occurance_search.find_term df t d = Ok (dict_set t (spec.matches_of df t) d).
Proof.
  unfold co_occurance_search.find_term. rewrite str_contains_whole_word. reflexivity.
Qed.

(** The loop over the terms never raises. *)
Lemma find_terms_total (df : list Row) (l : list string)
    (d : list (string * list co_occurance_search.TermMatch)) :
  for_each (co_occurance_search.find_term df) l d
  = Ok (fold_left (fun d term => dict_set term (spec.matches_of df term) d) l d).
Proof.
  revert d; induction l as [|t l IH]; intros d; [reflexivity |].
  cbn [for_each fold_left]. rewrite find_term_step. apply IH.
Qed.

Lemma matches_of_in (df : list Row) (t : string) (m : co_occurance_search.TermMatch) :
  In m (spec.matches_of df t)
  <-> exists r : Row, In r df /\ spec.occurs_in t r
                      /\ m = co_occurance_search.mkTermMatch r t "exact".
Proof.
  unfold spec.matches_of. rewrite in_map_iff. split.
  - intros (r & <- & Hr). apply filter_In in Hr as [Hr Ho].
    exists r. repeat split; auto. now apply occurs_in_b_iff.
  - intros (r & Hr & Ho & ->). exists r. split; [reflexivity |].
    apply filter_In. split; [exact Hr | now apply occurs_in_b_iff].
Qed.

Lemma term_matches_found_entry (df : list Row) (terms : list string)
    (e : string * list co_occurance_search.TermMatch) :
  In e (spec.term_matches_found df terms)
  <-> In (fst e) terms /\ snd e = spec.matches_of df (fst e).
Proof.
  unfold spec.term_matches_found. split.
  - intros H. apply (dict_fold_in (spec.matches_of df)) in H as [H | []]. exact H.
  - intros [Ht Hv]. destruct e as [t v]. cbn in *. subst v.
    now apply (dict_fold_has (spec.matches_of df)).
Qed.

Lemma term_matches_found_nodup (df : list Row) (terms : list string) :
  NoDup (map fst (spec.term_matches_found df terms)).
Proof. apply (dict_fold_nodup (spec.matches_of df)). constructor. Qed.

(** C7, as the code has it.  For a multi-term query the matches are found
    term by term by one stage only: the case-insensitive whole-word test
    (word boundaries on both sides), which is neither the substring test
    nor a fuzzy comparison; no similarity is computed.  The dictionary has
    one entry per distinct term, holding the rows in which the term occurs,
    each tagged with the term and the type [exact]: a span in which several
    terms occur gives one record per such term. *)
Theorem find_term_whole_word_only :
  forall (terms : list string) (df : list Row),
  exists term_matches,
    for_each (co_occurance_search.find_term df) terms [] = Ok term_matches
    /\ NoDup (map fst term_matches)
    /\ (forall t, In t terms <-> In t (map fst term_matches))
    /\ (forall t ms m,
          In (t, ms) term_matches ->
          (In m ms <-> exists r : Row,
                         In r df /\ spec.occurs_in t r
                         /\ m = co_occurance_search.mkTermMatch r t "exact")).
Proof.
  intros terms df. exists (spec.term_matches_found df terms).
  split; [apply find_terms_total |].
  split; [apply term_matches_found_nodup |]. split.
  - intros t. rewrite in_map_iff. split.
    + intros Ht. exists (t, spec.matches_of df t). split; [reflexivity |].
      apply term_matches_found_entry. auto.
    + intros (e & <- & He). now apply term_matches_found_entry in He.
  - intros t ms m He. apply term_matches_found_entry in He as [_ Hv].
    cbn in Hv. subst ms. apply matches_of_in.
Qed.

(** C7, as the claim words it, fails on the terms [rain] and [spain] and
    the spans [rains] and [spain]: the first span holds [rain] as a
    substring and has similarity 89 with it, yet the only record is the
    one of [spain]. *)
Lemma co_occurrence_no_substring_no_fuzzy :
  co_occurance_search.search_documents_co_occurrence
    ["rain"; "spain"] 1 (Some scenario.rains_spans) TermsNone 100 DateNone DateNone
  = Ok (Some [co_occurance_search.mkCoMatch
                (co_occurance_search.mkTermMatch
                   (mkRow 1 (scenario.span "a.pdf" 1 0 "spain" 50 0)) "spain" "exact")
                1 "spain"])
  /\ spec.contains_term "rain" (scenario.span "a.pdf" 1 0 "rains" 0 0)
  /\ search_function.word_level_similarity "rain" (Some "rains") = 89%Z.
Proof.
  split; [vm_compute; reflexivity |]. split; [| vm_compute; reflexivity].
  exists "rains". split; [reflexivity |].
  apply substring_ci_iff. vm_compute. reflexivity.
Qed.

(** ** The pages that qualify (C5) *)

Lemma on_page_iff (p : co_occurance_search.page) (r : Span) :
  co_occurance_search.on_page p r = true <-> co_occurance_search.page_of r = p.
Proof.
  unfold co_occurance_search.on_page, co_occurance_search.page_of.
  destruct p as [f n]. cbn [fst snd].
  rewrite andb_true_iff, String.eqb_eq, Z.eqb_eq. split.
  - intros [-> ->]. reflexivity.
  - intros E. injection E as -> ->. auto.
Qed.

Lemma page_eqb_iff (p q : co_occurance_search.page) :
  co_occurance_search.page_eqb p q = true <-> p = q.
Proof.
  unfold co_occurance_search.page_eqb. destruct p as [f n], q as [g k]. cbn [fst snd].
  rewrite andb_true_iff, String.eqb_eq, Z.eqb_eq. split.
  - intros [-> ->]. reflexivity.
  - intros E. injection E as -> ->. auto.
Qed.

Lemma drop_duplicates_from_keeps {A} (same : A -> A -> bool) (seen l : list A) (x : A) :
  (forall a b, same a b = true <-> a = b) ->
  In x l -> ~ In x seen -> In x (drop_duplicates_from same seen l).
Proof.
  intros Hsame. revert seen; induction l as [|y l IH]; intros seen Hx Hs; [destruct Hx |].
  cbn [drop_duplicates_from].
  destruct (existsb (same y) seen) eqn:E.
  - destruct Hx as [-> | Hx]; [| now apply IH].
    exfalso. apply existsb_exists in E as (z & Hz & Ez).
    apply Hsame in Ez. subst z. contradiction.
  - destruct Hx as [-> | Hx]; [now left |].
    destruct (same y x) eqn:Eyx.
    + left. now apply Hsame.
    + right. apply IH; [exact Hx |]. intros [E' | Hin]; [| contradiction].
      apply Hsame in E'. congruence.
Qed.

Lemma drop_duplicates_in {A} (same : A -> A -> bool) (l : list A) (x : A) :
  (forall a b, same a b = true <-> a = b) ->
  In x (drop_duplicates same l) <-> In x l.
Proof.
  intros Hsame. split.
  - apply drop_duplicates_from_in.
  - intros H. apply drop_duplicates_from_keeps; auto.
Qed.

Lemma add_to_set_in (l : list co_occurance_search.page)
    (u : gset co_occurance_search.page) (p : co_occurance_search.page) :
  p ∈ fold_left (fun acc q => {[ q ]} ∪ acc) l u <-> p ∈ u \/ In p l.
Proof.
  revert u; induction l as [|q l IH]; intros u; cbn [fold_left].
  - split; [auto | intros [H | []]; exact H].
  - rewrite IH, elem_of_union, elem_of_singleton. cbn [In]. split.
    + intros [[-> | H] | H]; auto.
    + intros [H | [<- | H]]; auto.
Qed.

Lemma add_pages_in (u : gset co_occurance_search.page)
    (e : string * list co_occurance_search.TermMatch) (p : co_occurance_search.page) :
  p ∈ co_occurance_search.add_pages u e
  <-> p ∈ u \/ exists m : co_occurance_search.TermMatch,
                 In m (snd e) /\ co_occurance_search.page_of m = p.
Proof.
  unfold co_occurance_search.add_pages. destruct (snd e) as [|m0 ms] eqn:E.
  - split; [auto | intros [H | (m & [] & _)]; exact H].
  - rewrite add_to_set_in, (drop_duplicates_in _ _ _ page_eqb_iff), in_map_iff.
    split; intros [H | (m & H1 & H2)]; auto; right; exists m; auto.
Qed.

Lemma pages_fold_in (l : list (string * list co_occurance_search.TermMatch))
    (u : gset co_occurance_search.page) (p : co_occurance_search.page) :
  p ∈ fold_left co_occurance_search.add_pages l u
  <-> p ∈ u \/ exists e (m : co_occurance_search.TermMatch),
                 In e l /\ In m (snd e) /\ co_occurance_search.page_of m = p.
Proof.
  revert u; induction l as [|e l IH]; intros u; cbn [fold_left].
  - split; [auto | intros [H | (e & m & [] & _)]; exact H].
  - rewrite IH, add_pages_in. split.
    + intros [[H | (m & H1 & H2)] | (e' & m & H1 & H2 & H3)]; auto.
      * right. exists e, m. cbn. auto.
      * right. exists e', m. cbn. auto.
    + intros [H | (e' & m & [<- | H1] & H2 & H3)]; auto.
      * left. right. eauto.
      * right. eauto.
Qed.

(** The terms recorded for a page are the query terms with a match on
    it, each once. *)
Lemma terms_present_in (df : list Row) (terms : list string)
    (p : co_occurance_search.page) (t : string) :
  In t (co_occurance_search.terms_present_on (spec.term_matches_found df terms) p)
  <-> In t terms /\ spec.term_on_page df t p.
Proof.
  unfold co_occurance_search.terms_present_on. rewrite in_flat_map. split.
  - intros (e & He & Ht). apply term_matches_found_entry in He as [Hin Hv].
    destruct (List.filter _ (snd e)) as [|m ms] eqn:E; [destruct Ht |].
    destruct Ht as [<- | []]. split; [exact Hin |].
    assert (Hm : In m (List.filter (fun m : co_occurance_search.TermMatch =>
                                     co_occurance_search.on_page p m) (snd e)))
      by (rewrite E; now left).
    apply filter_In in Hm as [Hm Hp]. rewrite Hv in Hm.
    apply matches_of_in in Hm as (r & Hr & Ho & ->).
    apply on_page_iff in Hp. exists r. auto.
  - intros [Hin (r & Hr & Hp & Ho)].
    exists (t, spec.matches_of df t). split.
    + apply term_matches_found_entry. auto.
    + cbn [fst snd].
      assert (Hm : In (co_occurance_search.mkTermMatch r t "exact")
                      (List.filter (fun m : co_occurance_search.TermMatch =>
                                      co_occurance_search.on_page p m)
                                   (spec.matches_of df t))).
      { apply filter_In. split; [apply matches_of_in; eauto | now apply on_page_iff]. }
      destruct (List.filter _ _); [destruct Hm | now left].
Qed.

Lemma flat_map_keys_nodup {V} (pick : string * V -> bool) (d : list (string * V)) :
  NoDup (map fst d) ->
  NoDup (flat_map (fun e => if pick e then [fst e] else []) d).
Proof.
  induction d as [|e d IH]; intros H; [constructor |].
  cbn [map] in H. inversion H as [|? ? He Hd]; subst.
  cbn [flat_map]. destruct (pick e); cbn [app]; [| now apply IH].
  constructor; [| now apply IH].
  intros Hin. apply He. apply in_flat_map in Hin as (e' & He' & Hk).
  destruct (pick e'); [| destruct Hk]. destruct Hk as [<- | []]. now apply in_map.
Qed.

Lemma terms_present_nodup (df : list Row) (terms : list string)
    (p : co_occurance_search.page) :
  NoDup (co_occurance_search.terms_present_on (spec.term_matches_found df terms) p).
Proof.
  unfold co_occurance_search.terms_present_on.
  erewrite flat_map_ext.
  - apply (flat_map_keys_nodup
             (fun e : string * list co_occurance_search.TermMatch =>
                match List.filter (fun m : co_occurance_search.TermMatch =>
                                     co_occurance_search.on_page p m) (snd e) with
                | [] => false
                | _ :: _ => true
                end)).
    apply term_matches_found_nodup.
  - intros e. cbn beta. destruct (List.filter _ _); reflexivity.
Qed.

Lemma terms_present_page_terms (df : list Row) (terms : list string)
    (p : co_occurance_search.page) :
  spec.page_terms terms df p
    (co_occurance_search.terms_present_on (spec.term_matches_found df terms) p).
Proof.
  split; [apply terms_present_nodup | intros t; apply terms_present_in].
Qed.

(** Two lists of the terms of a page have the same length. *)
Lemma page_terms_length (terms : list string) (df : list Row)
    (p : co_occurance_search.page) (ts ts' : list string) :
  spec.page_terms terms df p ts -> spec.page_terms terms df p ts' ->
  List.length ts = List.length ts'.
Proof.
  intros [Hn Hi] [Hn' Hi']. apply Permutation_length.
  apply NoDup_Permutation; auto.
  intros t. rewrite Hi, Hi'. tauto.
Qed.

(** A page is in the set when some term has a match on it. *)
Lemma unique_pages_in (df : list Row) (terms : list string)
    (p : co_occurance_search.page) :
  p ∈ co_occurance_search.pages_with_matches (spec.term_matches_found df terms)
  <-> exists t, In t terms /\ spec.term_on_page df t p.
Proof.
  unfold co_occurance_search.pages_with_matches. rewrite pages_fold_in. split.
  - intros [H | (e & m & He & Hm & Hp)]; [now apply not_elem_of_empty in H |].
    apply term_matches_found_entry in He as [Hin Hv]. rewrite Hv in Hm.
    apply matches_of_in in Hm as (r & Hr & Ho & ->).
    exists (fst e). split; [exact Hin |]. exists r. auto.
  - intros (t & Hin & r & Hr & Hp & Ho). right.
    exists (t, spec.matches_of df t), (co_occurance_search.mkTermMatch r t "exact").
    split; [apply term_matches_found_entry; auto |].
    split; [apply matches_of_in; eauto | exact Hp].
Qed.

Lemma counts_fold_lookup (tp : co_occurance_search.page -> list string)
    (ps : list co_occurance_search.page)
    (counts : gmap co_occurance_search.page (list string))
    (p : co_occurance_search.page) :
  In p ps ->
  fold_left (fun c q => <[ q := tp q ]> c) ps counts !! p = Some (tp p).
Proof.
  revert counts; induction ps as [|q ps IH]; intros counts H; [destruct H |].
  cbn [fold_left]. destruct (in_dec (fun a b : string * Z => decide (a = b)) p ps) as [Hin | Hout].
  - now apply IH.
  - destruct H as [-> | H]; [| contradiction].
    clear IH. revert counts. induction ps as [|q ps IH]; intros counts; cbn [fold_left].
    + apply lookup_insert_eq.
    + assert (q <> p) by (intros ->; apply Hout; now left).
      rewrite insert_insert_ne by auto. 
      apply IH. intros Hin. apply Hout. now right.
Qed.

(** The loop over the pages: the qualifying pages in the order of the
    enumeration, and the terms recorded for every page. *)
Lemma check_pages_fold (d : list (string * list co_occurance_search.TermMatch))
    (min : Z) (ps : list co_occurance_search.page)
    (acc : list (co_occurance_search.page * nat * list string)
           * gmap co_occurance_search.page (list string)) :
  fold_left (co_occurance_search.check_page d min) ps acc
  = (fst acc
     ++ map (fun p => (p, List.length (co_occurance_search.terms_present_on d p),
                       co_occurance_search.terms_present_on d p))
            (List.filter
               (fun p => (min <=? Z.of_nat
                             (List.length (co_occurance_search.terms_present_on d p)))%Z)
               ps),
     fold_left (fun c q => <[ q := co_occurance_search.terms_present_on d q ]> c)
               ps (snd acc)).
Proof.
  revert acc; induction ps as [|p ps IH]; intros [qs counts]; cbn [fold_left fst snd].
  - cbn. now rewrite app_nil_r.
  - rewrite IH. f_equal.
    + unfold co_occurance_search.check_page. cbn [fst snd List.filter].
      destruct (min <=? _)%Z; cbn [fst snd map]; [| reflexivity].
      now rewrite <- app_assoc.
    + unfold co_occurance_search.check_page. cbn [fst snd].
      destruct (min <=? _)%Z; reflexivity.
Qed.

(** The records collected from the qualifying pages. *)
Lemma qualifying_matches_in (df : list Row) (terms : list string) (min : Z)
    (tm : co_occurance_search.TermMatch) :
  let d := spec.term_matches_found df terms in
  In tm (List.concat
           (flat_map (co_occurance_search.matches_on_page d)
              (map (fun p => (p, List.length (co_occurance_search.terms_present_on d p),
                              co_occurance_search.terms_present_on d p))
                   (List.filter
                      (fun p => (min <=? Z.of_nat
                                    (List.length (co_occurance_search.terms_present_on d p)))%Z)
                      (elements (co_occurance_search.pages_with_matches d))))))
  <-> exists (r : Row) (t : string),
        In r df /\ In t terms /\ spec.occurs_in t r
        /\ tm = co_occurance_search.mkTermMatch r t "exact"
        /\ (min <= Z.of_nat
                     (List.length (co_occurance_search.terms_present_on d
                                     (co_occurance_search.page_of r))))%Z.
Proof.
  intros d. rewrite in_concat. split.
  - intros (ms & Hms & Htm). apply in_flat_map in Hms as (q & Hq & Hms).
    apply in_map_iff in Hq as (p & <- & Hp). apply filter_In in Hp as [_ Hmin].
    cbn [co_occurance_search.matches_on_page] in Hms.
    apply in_map_iff in Hms as (t & <- & Ht).
    apply terms_present_in in Ht as [Hin _].
    rewrite (dict_get_in t (spec.matches_of df t)) in Htm.
    + cbn [default] in Htm. apply filter_In in Htm as [Htm Hon].
      apply matches_of_in in Htm as (r & Hr & Ho & ->).
      apply on_page_iff in Hon. cbn in Hon. subst p.
      exists r, t. repeat split; auto. now apply Z.leb_le.
    + apply term_matches_found_nodup.
    + apply term_matches_found_entry. auto.
  - intros (r & t & Hr & Hin & Ho & -> & Hmin).
    set (p := co_occurance_search.page_of r) in *.
    assert (Hon : spec.term_on_page df t p) by (exists r; auto).
    exists (List.filter (fun m : co_occurance_search.TermMatch =>
                           co_occurance_search.on_page p m)
                        (default [] (dict_get t d))).
    split.
    + apply in_flat_map.
      exists (p, List.length (co_occurance_search.terms_present_on d p),
              co_occurance_search.terms_present_on d p). split.
      * apply in_map_iff. exists p. split; [reflexivity |].
        apply filter_In. split; [| now apply Z.leb_le].
        apply list_elem_of_In, elem_of_elements, unique_pages_in. eauto.
      * cbn [co_occurance_search.matches_on_page]. apply in_map_iff.
        exists t. split; [reflexivity |]. apply terms_present_in. auto.
    + unfold d. rewrite (dict_get_in t (spec.matches_of df t)).
      * cbn [default]. apply filter_In. split; [apply matches_of_in; eauto |].
        now apply on_page_iff.
      * apply term_matches_found_nodup.
      * apply term_matches_found_entry. auto.
Qed.

(** The value of the aggregation: every record of a qualifying page, with
    the terms of its page. *)
Lemma co_occurrence_results (terms : list string) (min : Z) (df : list Row) :
  exists found,
    co_occurance_search.co_occurrence terms min df = Ok found
    /\ forall m : co_occurance_search.CoMatch,
         In m (default [] found)
         <-> exists (r : Row) (t : string),
               In r df /\ In t terms /\ spec.occurs_in t r
               /\ (min <= Z.of_nat
                     (List.length
                        (co_occurance_search.terms_present_on
                           (spec.term_matches_found df terms)
                           (co_occurance_search.page_of r))))%Z
               /\ m = co_occurance_search.add_metadata
                        (fold_left
                           (fun c q => <[ q := co_occurance_search.terms_present_on
                                                 (spec.term_matches_found df terms) q ]> c)
                           (elements (co_occurance_search.pages_with_matches
                                        (spec.term_matches_found df terms)))
                           ∅)
                        (co_occurance_search.mkTermMatch r t "exact").
Proof.
  unfold co_occurance_search.co_occurrence.
  rewrite find_terms_total. fold (spec.term_matches_found df terms).
  set (d := spec.term_matches_found df terms).
  unfold mbind, res_bind. cbv beta iota zeta.
  rewrite check_pages_fold. cbn [fst snd app].
  set (qs := map _ (List.filter _ (elements (co_occurance_search.pages_with_matches d)))).
  set (counts := fold_left _ _ ∅).
  assert (H : forall m : co_occurance_search.CoMatch,
            In m (map (co_occurance_search.add_metadata counts)
                      (List.concat (flat_map (co_occurance_search.matches_on_page d) qs)))
            <-> exists (r : Row) (t : string),
                  In r df /\ In t terms /\ spec.occurs_in t r
                  /\ (min <= Z.of_nat
                        (List.length (co_occurance_search.terms_present_on d
                                        (co_occurance_search.page_of r))))%Z
                  /\ m = co_occurance_search.add_metadata counts
                           (co_occurance_search.mkTermMatch r t "exact")).
  { intros m. rewrite in_map_iff. split.
    - intros (tm & <- & Htm).
      apply (qualifying_matches_in df terms min tm) in Htm
        as (r & t & Hr & Ht & Ho & -> & Hmin).
      exists r, t. auto.
    - intros (r & t & Hr & Ht & Ho & Hmin & ->).
      exists (co_occurance_search.mkTermMatch r t "exact"). split; [reflexivity |].
      apply (qualifying_matches_in df terms min). exists r, t. auto. }
  destruct qs as [|q qs'] eqn:Eq.
  - exists None. split; [reflexivity |]. intros m. rewrite <- H. reflexivity.
  - eexists. split; [reflexivity |]. exact H.
Qed.

(** The columns added to a record of a page that holds a match. *)
Lemma add_metadata_on_page (df : list Row) (terms : list string) (r : Row) (t : string) :
  In r df -> In t terms -> spec.occurs_in t r ->
  co_occurance_search.add_metadata
    (fold_left
       (fun c q => <[ q := co_occurance_search.terms_present_on
                             (spec.term_matches_found df terms) q ]> c)
       (elements (co_occurance_search.pages_with_matches
                    (spec.term_matches_found df terms)))
       ∅)
    (co_occurance_search.mkTermMatch r t "exact")
  = let ts := co_occurance_search.terms_present_on
                (spec.term_matches_found df terms) (co_occurance_search.page_of r) in
    co_occurance_search.mkCoMatch
      (co_occurance_search.mkTermMatch r t "exact")
      (List.length ts) (py.str (py.join (py.chars ", ") (map py.chars ts))).
Proof.
  intros Hr Ht Ho. unfold co_occurance_search.add_metadata.
  cbn [co_occurance_search.row].
  rewrite (counts_fold_lookup
             (co_occurance_search.terms_present_on (spec.term_matches_found df terms))).
  - reflexivity.
  - apply list_elem_of_In, elem_of_elements, unique_pages_in.
    exists t. split; [exact Ht |]. exists r. auto.
Qed.

(** C5, as the code has it.  With [min_terms_required >= 1], a page
    contributes records exactly when the number of distinct query terms
    that have a match on it is at least [min_terms_required]; the records
    are those of the terms of the qualifying pages, each carrying the count
    and the list of the distinct terms of its page; a page below the
    threshold contributes nothing.  When the terms are pairwise different
    and [min_terms_required] is their number, a page contributes exactly
    when every term has a match on it. *)
Theorem co_occurrence_qualifying_pages :
  forall (terms : list string) (min_terms_required : Z) (df : list Row),
    (1 <= min_terms_required)%Z ->
    exists found,
      co_occurance_search.co_occurrence terms min_terms_required df = Ok found
      /\ (forall p ts,
            spec.page_terms terms df p ts ->
            ((exists m : co_occurance_search.CoMatch,
                 In m (default [] found) /\ co_occurance_search.page_of m = p)
             <-> (min_terms_required <= Z.of_nat (List.length ts))%Z))
      /\ (forall m : co_occurance_search.CoMatch,
            In m (default [] found) ->
            exists (r : Row) (t : string) (ts : list string),
              In r df /\ In t terms /\ spec.occurs_in t r
              /\ spec.page_terms terms df (co_occurance_search.page_of r) ts
              /\ (min_terms_required <= Z.of_nat (List.length ts))%Z
              /\ m = co_occurance_search.mkCoMatch
                       (co_occurance_search.mkTermMatch r t "exact")
                       (List.length ts)
                       (py.str (py.join (py.chars ", ") (map py.chars ts))))
      /\ (forall (r : Row) (t : string) (ts : list string),
            In r df -> In t terms -> spec.occurs_in t r ->
            spec.page_terms terms df (co_occurance_search.page_of r) ts ->
            (min_terms_required <= Z.of_nat (List.length ts))%Z ->
            exists m : co_occurance_search.CoMatch,
              In m (default [] found)
              /\ co_occurance_search.hit m = co_occurance_search.mkTermMatch r t "exact"
              /\ co_occurance_search.co_occurring_terms_count m = List.length ts)
      /\ (NoDup terms ->
          min_terms_required = Z.of_nat (List.length terms) ->
          forall p,
            (exists m : co_occurance_search.CoMatch,
                In m (default [] found) /\ co_occurance_search.page_of m = p)
            <-> (forall t, In t terms -> spec.term_on_page df t p)).
Proof.
  intros terms min df Hmin.
  destruct (co_occurrence_results terms min df) as (found & Hfound & Hres).
  exists found. split; [exact Hfound |].
  pose proof (add_metadata_on_page df terms) as Hmeta.
  pose proof (terms_present_page_terms df terms) as Hpt.
  pose proof (terms_present_in df terms) as Htp.
  set (d := spec.term_matches_found df terms) in *.
  set (tp := co_occurance_search.terms_present_on d) in *.
  assert (Hpages : forall p,
            (exists m : co_occurance_search.CoMatch,
                In m (default [] found) /\ co_occurance_search.page_of m = p)
            <-> (min <= Z.of_nat (List.length (tp p)))%Z).
  { intros p. split.
    - intros (m & Hm & Hp). apply Hres in Hm as (r & t & Hr & Ht & Ho & Hq & ->).
      rewrite (Hmeta r t Hr Ht Ho) in Hp. cbn in Hp. subst p. exact Hq.
    - intros Hq. destruct (tp p) as [|t ts0] eqn:E; [cbn in Hq; lia |].
      assert (Ht : In t (tp p)) by (rewrite E; now left).
      apply Htp in Ht as [Ht (r & Hr & Hp & Ho)].
      eexists. split.
      + apply Hres. exists r, t. repeat split; eauto.
        rewrite Hp, E. exact Hq.
      + rewrite (Hmeta r t Hr Ht Ho). exact Hp. }
  split; [| split; [| split]].
  - intros p ts Hts. rewrite Hpages.
    rewrite (page_terms_length terms df p ts (tp p) Hts (Hpt p)).
    reflexivity.
  - intros m Hm. apply Hres in Hm as (r & t & Hr & Ht & Ho & Hq & ->).
    exists r, t, (tp (co_occurance_search.page_of r)).
    split; [exact Hr |]. split; [exact Ht |]. split; [exact Ho |].
    split; [apply Hpt |]. split; [exact Hq |].
    apply (Hmeta r t Hr Ht Ho).
  - intros r t ts Hr Ht Ho Hts Hq.
    rewrite (page_terms_length terms df _ ts (tp (co_occurance_search.page_of r)) Hts
               (Hpt _)) in *.
    eexists. split; [apply Hres; exists r, t; repeat split; eauto |].
    rewrite (Hmeta r t Hr Ht Ho). split; reflexivity.
  - intros Hnd -> p. rewrite Hpages.
    destruct (Hpt p) as [Hn Hi].
    split.
    + intros Hlen t Ht.
      assert (Hincl : incl terms (tp p)).
      { apply NoDup_length_incl; [exact Hn | lia |].
        intros x Hx. now apply Hi in Hx. }
      now apply Hi, Hincl.
    + intros Hall. apply inj_le. apply NoDup_incl_length; [exact Hnd |].
      intros t Ht. apply Hi. auto.
Qed.

Lemma co_occurrence_qualifying_pages_witness :
  exists found,
    co_occurance_search.co_occurrence ["alpha"; "beta"] 2
                                      (read_csv scenario.alpha_beta_spans) = Ok found
    /\ (forall p ts,
          spec.page_terms ["alpha"; "beta"] (read_csv scenario.alpha_beta_spans) p ts ->
          ((exists m : co_occurance_search.CoMatch,
               In m (default [] found) /\ co_occurance_search.page_of m = p)
           <-> (2 <= Z.of_nat (List.length ts))%Z))
    /\ (forall m : co_occurance_search.CoMatch,
          In m (default [] found) ->
          exists (r : Row) (t : string) (ts : list string),
            In r (read_csv scenario.alpha_beta_spans) /\ In t ["alpha"; "beta"]
            /\ spec.occurs_in t r
            /\ spec.page_terms ["alpha"; "beta"] (read_csv scenario.alpha_beta_spans)
                               (co_occurance_search.page_of r) ts
            /\ (2 <= Z.of_nat (List.length ts))%Z
            /\ m = co_occurance_search.mkCoMatch
                     (co_occurance_search.mkTermMatch r t "exact")
                     (List.length ts)
                     (py.str (py.join (py.chars ", ") (map py.chars ts))))
    /\ (forall (r : Row) (t : string) (ts : list string),
          In r (read_csv scenario.alpha_beta_spans) -> In t ["alpha"; "beta"] ->
          spec.occurs_in t r ->
          spec.page_terms ["alpha"; "beta"] (read_csv scenario.alpha_beta_spans)
                          (co_occurance_search.page_of r) ts ->
          (2 <= Z.of_nat (List.length ts))%Z ->
          exists m : co_occurance_search.CoMatch,
            In m (default [] found)
            /\ co_occurance_search.hit m = co_occurance_search.mkTermMatch r t "exact"
            /\ co_occurance_search.co_occurring_terms_count m = List.length ts)
    /\ (NoDup ["alpha"; "beta"] ->
        2%Z = Z.of_nat (List.length ["alpha"; "beta"]) ->
        forall p,
          (exists m : co_occurance_search.CoMatch,
              In m (default [] found) /\ co_occurance_search.page_of m = p)
          <-> (forall t, In t ["alpha"; "beta"] ->
                         spec.term_on_page (read_csv scenario.alpha_beta_spans) t p)).
Proof.
  apply (co_occurrence_qualifying_pages ["alpha"; "beta"] 2
                                        (read_csv scenario.alpha_beta_spans)).
  lia.
Defined.

(** C5, as the claim words it, fails when a term is given twice: with the
    terms [alpha], [alpha] and [min_terms_required = 2], the number of
    terms, every term of the query has a match on page 1 of [a.pdf], yet
    the page does not qualify and nothing is returned. *)
Lemma co_occurrence_repeated_term :
  Z.of_nat (List.length ["alpha"; "alpha"]) = 2%Z
  /\ (forall t, In t ["alpha"; "alpha"] ->
                spec.term_on_page (read_csv scenario.alpha_beta_spans) t ("a.pdf", 1%Z))
  /\ co_occurance_search.co_occurrence ["alpha"; "alpha"] 2
                                       (read_csv scenario.alpha_beta_spans) = Ok None
  /\ co_occurance_search.search_documents_co_occurrence
       ["alpha"; "alpha"] 2 (Some scenario.alpha_beta_spans)
       TermsNone 100 DateNone DateNone = Ok None.
Proof.
  split; [reflexivity |]. split; [| split; vm_compute; reflexivity].
  intros t Ht.
  assert (t = "alpha") as -> by (destruct Ht as [<- | [<- | []]]; reflexivity).
  exists (mkRow 0 (scenario.span "a.pdf" 1 0 "alpha" 0 0)).
  split; [now left |]. split; [reflexivity |].
  apply occurs_in_b_iff. vm_compute. reflexivity.
Qed.

(** ** The negation branch of the co-occurrence search (C9) *)

Lemma calculate_distance_unbound :
  co_occurance_search.load_global "calculate_distance"
  = Raise (NameError "calculate_distance").
Proof. reflexivity. Qed.

Lemma co_check_negations (x1 y1 : float) (nd : Q) (term : string) (negs : list Row)
    (st : search_function.scan) :
  for_each (co_occurance_search.check_negation x1 y1 nd term) negs st
  = match negs with
    | [] => Ok st
    | _ :: _ => Raise (NameError "calculate_distance")
    end.
Proof.
  destruct negs as [|o negs]; [reflexivity |].
  cbn [for_each]. unfold co_occurance_search.check_negation.
  rewrite calculate_distance_unbound. reflexivity.
Qed.

Lemma filter_nil_existsb {A} (p : A -> bool) (l : list A) :
  match List.filter p l with [] => false | _ :: _ => true end = existsb p l.
Proof.
  induction l as [|x l IH]; [reflexivity |].
  cbn [List.filter existsb]. destruct (p x); [reflexivity | exact IH].
Qed.

Lemma co_check_term (file : string) (x1 y1 : float) (nd : Q) (entry : string * list Row)
    (st : search_function.scan) :
  co_occurance_search.check_term file x1 y1 nd entry st
  = if existsb (fun o : Row => String.eqb (filename o) file) (snd entry)
    then Raise (NameError "calculate_distance")
    else Ok st.
Proof.
  unfold co_occurance_search.check_term. rewrite co_check_negations.
  rewrite <- filter_nil_existsb. destruct (List.filter _ _); reflexivity.
Qed.

Lemma co_check_terms (file : string) (x1 y1 : float) (nd : Q) (d : list (string * list Row))
    (st : search_function.scan) :
  for_each (co_occurance_search.check_term file x1 y1 nd) d st
  = if existsb (fun entry : string * list Row =>
                  existsb (fun o : Row => String.eqb (filename o) file) (snd entry)) d
    then Raise (NameError "calculate_distance")
    else Ok st.
Proof.
  induction d as [|e d IH]; [reflexivity |].
  cbn [for_each existsb]. rewrite co_check_term.
  destruct (existsb _ (snd e)); [reflexivity |]. cbn. exact IH.
Qed.

Lemma co_check_result (d : list (string * list Row)) (nd : Q)
    (r : co_occurance_search.CoMatch) (keep : list nat) :
  co_occurance_search.check_result d nd r keep
  = if spec.same_file_negation_b d r
    then Raise (NameError "calculate_distance")
    else Ok (keep ++ [index r]).
Proof.
  unfold co_occurance_search.check_result, spec.same_file_negation_b.
  rewrite co_check_terms. destruct (existsb _ d); reflexivity.
Qed.

Lemma co_check_results (d : list (string * list Row)) (nd : Q)
    (sr : list co_occurance_search.CoMatch) (keep : list nat) :
  for_each (co_occurance_search.check_result d nd) sr keep
  = if existsb (fun r : co_occurance_search.CoMatch => spec.same_file_negation_b d r) sr
    then Raise (NameError "calculate_distance")
    else Ok (keep ++ map (fun r : co_occurance_search.CoMatch => index r) sr).
Proof.
  revert keep; induction sr as [|r sr IH]; intros keep.
  - cbn. now rewrite app_nil_r.
  - cbn [for_each existsb map]. rewrite co_check_result.
    destruct (spec.same_file_negation_b d r); [reflexivity |].
    cbn. rewrite IH. destruct (existsb _ sr); [reflexivity |].
    now rewrite <- app_assoc.
Qed.

Lemma co_find_negations_found (df : list Row) (nts : list string) :
  for_each (co_occurance_search.find_negations df) nts ([], 0)
  = Ok (spec.negations_found df nts).
Proof.
  change (co_occurance_search.find_negations df)
    with (search_function.find_negations df).
  apply find_negations_total.
Qed.

Lemma same_file_negation_iff (df : list Row) (nts : list string) (m : Span) :
  spec.same_file_negation_b (fst (spec.negations_found df nts)) m = true
  <-> exists t o, In t nts /\ In o df /\ spec.occurs_in t o /\ filename o = filename m.
Proof.
  destruct (negations_found_ok df nts) as [H1 H2].
  unfold spec.same_file_negation_b. rewrite existsb_exists. split.
  - intros (e & He & Hex). apply existsb_exists in Hex as (o & Ho & Hf).
    apply String.eqb_eq in Hf. destruct (H1 e He) as [Ht Hv].
    rewrite Hv in Ho. apply filter_In in Ho as [Ho Hocc].
    exists (fst e), o. repeat split; auto. now apply occurs_in_b_iff.
  - intros (t & o & Ht & Ho & Hocc & Hf).
    exists (t, List.filter (fun r : Row => spec.occurs_in_b t r) df).
    split; [now apply H2 |]. apply existsb_exists. exists o. split.
    + apply filter_In. split; [exact Ho | now apply occurs_in_b_iff].
    + now apply String.eqb_eq.
Qed.

(** The filter of the co-occurrence search raises exactly when a negation
    occurrence lies on the file of some result, and only a [NameError]. *)
Lemma co_negation_filter_raises (df : list Row) (nts : list string) (nd : Q)
    (sr : list co_occurance_search.CoMatch) :
  (co_occurance_search.negation_filter df nts nd sr
   = Raise (NameError "calculate_distance")
   <-> exists (m : co_occurance_search.CoMatch) t o,
         In m sr /\ In t nts /\ In o df /\ spec.occurs_in t o
         /\ filename o = filename m)
  /\ (forall e, co_occurance_search.negation_filter df nts nd sr = Raise e ->
                e = NameError "calculate_distance").
Proof.
  assert (Hex : existsb (fun r : co_occurance_search.CoMatch =>
                           spec.same_file_negation_b (fst (spec.negations_found df nts)) r) sr
                = true
                <-> exists (m : co_occurance_search.CoMatch) t o,
                      In m sr /\ In t nts /\ In o df /\ spec.occurs_in t o
                      /\ filename o = filename m).
  { rewrite existsb_exists. split.
    - intros (m & Hm & H). apply same_file_negation_iff in H as (t & o & H).
      exists m, t, o. tauto.
    - intros (m & t & o & Hm & H). exists m. split; [exact Hm |].
      apply same_file_negation_iff. exists t, o. tauto. }
  unfold co_occurance_search.negation_filter.
  destruct nts as [|t0 nts].
  { split; [| intros e H; discriminate]. split; [discriminate |].
    intros (m & t & o & _ & [] & _). }
  destruct sr as [|m0 sr].
  { split; [| intros e H; discriminate]. split; [discriminate |].
    intros (m & t & o & [] & _). }
  rewrite co_find_negations_found.
  unfold mbind, res_bind. cbv beta iota zeta.
  destruct (Nat.ltb_spec 0 (snd (spec.negations_found df (t0 :: nts)))) as [Hpos | Hz].
  - rewrite co_check_results.
    destruct (existsb _ (m0 :: sr)) eqn:E.
    + split; [| intros e H; congruence].
      split; [intros _; now apply Hex | reflexivity].
    + split; [| intros e H; discriminate]. split; [discriminate |].
      intros H. apply Hex in H. congruence.
  - split; [| intros e H; discriminate]. split; [discriminate |].
    intros (m & t & o & _ & Ht & Ho & Hocc & _).
    apply occurs_in_b_iff in Hocc.
    rewrite (negations_found_none df (t0 :: nts)) in Hocc; [discriminate | lia | auto | auto].
Qed.

(** C9, as the code has it.  [calculate_distance] is not bound in
    [co_occurance_search.py]; the call of line 204 is reached, and the
    search ends with [NameError], exactly when some occurrence of a
    negation term lies on the same file as some row of the result of the
    aggregation.  No other exception leaves the function: with negation
    terms that occur on other files only, the search returns. *)
Theorem co_occurrence_name_error :
  forall (terms : list string) (min_terms_required : Z) (lines : list Span)
         (negation_terms : terms_arg) (negation_distance : Q)
         (start_date end_date : date_arg),
    (co_occurance_search.search_documents_co_occurrence
       terms min_terms_required (Some lines) negation_terms negation_distance
       start_date end_date
     = Raise (NameError "calculate_distance")
     <-> (min_terms_required <= Z.of_nat (List.length terms))%Z
         /\ exists found,
              co_occurance_search.co_occurrence terms min_terms_required (read_csv lines)
              = Ok (Some found)
              /\ exists (m : co_occurance_search.CoMatch) t o,
                   In m found /\ In t (search_function.negation_list negation_terms)
                   /\ In o (read_csv lines) /\ spec.occurs_in t o
                   /\ filename o = filename m)
    /\ (forall e,
          co_occurance_search.search_documents_co_occurrence
            terms min_terms_required (Some lines) negation_terms negation_distance
            start_date end_date
          = Raise e ->
          e = NameError "calculate_distance").
Proof.
  intros terms min lines nts nd sd ed.
  unfold co_occurance_search.search_documents_co_occurrence.
  destruct (Z.ltb_spec (Z.of_nat (List.length terms)) min) as [Hlt | Hge].
  { split; [| intros e H; discriminate]. split; [discriminate | intros [H _]; lia]. }
  destruct (co_occurrence_results terms min (read_csv lines)) as (found & Hfound & _).
  rewrite Hfound. unfold mbind, res_bind. cbv beta iota.
  destruct found as [sr|].
  2:{ split; [| intros e H; discriminate]. split; [discriminate |].
      intros [_ (f & Hf & _)]. discriminate. }
  destruct (co_negation_filter_raises (read_csv lines)
              (search_function.negation_list nts) nd sr) as [Hiff Honly].
  destruct (co_occurance_search.negation_filter _ _ nd sr) as [kept | e] eqn:E.
  - assert (Hno : ~ exists (m : co_occurance_search.CoMatch) t o,
                      In m sr /\ In t (search_function.negation_list nts)
                      /\ In o (read_csv lines) /\ spec.occurs_in t o
                      /\ filename o = filename m).
    { intros H. apply Hiff in H. discriminate. }
    split.
    + split.
      * intros H. exfalso.
        destruct kept; [discriminate H |].
        destruct (co_occurance_search.date_filter sd ed _); discriminate H.
      * intros [_ (f & Hf & H)]. injection Hf as <-. contradiction.
    + intros e' H. exfalso.
      destruct kept; [discriminate H |].
      destruct (co_occurance_search.date_filter sd ed _); discriminate H.
  - pose proof (Honly e eq_refl) as ->. split.
    + split; [| reflexivity]. intros _. split; [lia |].
      exists sr. split; [reflexivity |]. now apply Hiff.
    + intros e' H. congruence.
Qed.

(** C9, as the claim words it, fails when the negation term occurs on
    another file only: the terms [alpha] and [beta] share page 1 of
    [a.pdf], the negation term [gamma] occurs in the corpus, on [b.pdf],
    the result of the aggregation is not empty, and the search returns
    its result. *)
Lemma co_occurrence_negation_elsewhere_returns :
  spec.occurs_in "gamma" (scenario.span "b.pdf" 1 0 "gamma" 0 0)
  /\ In (mkRow 2 (scenario.span "b.pdf" 1 0 "gamma" 0 0))
        (read_csv scenario.alpha_beta_spans)
  /\ (exists m found,
        co_occurance_search.co_occurrence ["alpha"; "beta"] 2
                                          (read_csv scenario.alpha_beta_spans)
        = Ok (Some (m :: found)))
  /\ (exists out,
        co_occurance_search.search_documents_co_occurrence
          ["alpha"; "beta"] 2 (Some scenario.alpha_beta_spans)
          (TermsList ["gamma"]) 100 DateNone DateNone
        = Ok (Some out)).
Proof.
  split; [apply occurs_in_b_iff; vm_compute; reflexivity |].
  split; [vm_compute; tauto |].
  split; [do 2 eexists; vm_compute; reflexivity |].
  eexists; vm_compute; reflexivity.
Qed.

(** ** The final order (C6) *)

Section Sorting.
Context {A : Type}.
Variable leb : A -> A -> bool.

Lemma insert_row_perm (x : A) (l : list A) : Permutation (x :: l) (insert_row leb x l).
Proof.
  induction l as [|y l IH]; cbn [insert_row]; [reflexivity |].
  destruct (leb x y); [reflexivity |].
  rewrite perm_swap. now apply perm_skip.
Qed.

Lemma sort_values_perm (l : list A) : Permutation l (sort_values leb l).
Proof.
  induction l as [|x l IH]; cbn [sort_values]; [constructor |].
  rewrite <- insert_row_perm. now apply perm_skip.
Qed.

Hypothesis leb_total : forall x y, leb x y = false -> leb y x = true.

Lemma insert_row_hd (x a : A) (l : list A) :
  leb a x = true -> HdRel (fun u v => leb u v = true) a l ->
  HdRel (fun u v => leb u v = true) a (insert_row leb x l).
Proof.
  intros Hax Hl. destruct l as [|y l]; cbn [insert_row].
  - now constructor.
  - destruct (leb x y); constructor; [exact Hax |]. now inversion Hl.
Qed.

Lemma insert_row_sorted (x : A) (l : list A) :
  Sorted (fun u v => leb u v = true) l ->
  Sorted (fun u v => leb u v = true) (insert_row leb x l).
Proof.
  induction 1 as [|y l Hs IH Hhd]; cbn [insert_row].
  - repeat constructor.
  - destruct (leb x y) eqn:E.
    + constructor; [now constructor | now constructor].
    + constructor; [exact IH |]. apply insert_row_hd; [now apply leb_total | exact Hhd].
Qed.

Lemma sort_values_sorted (l : list A) :
  Sorted (fun u v => leb u v = true) (sort_values leb l).
Proof.
  induction l as [|x l IH]; cbn [sort_values]; [constructor |].
  now apply insert_row_sorted.
Qed.

End Sorting.

(** The sort is stable: the rows of a class the order ties keep the
    order they had. *)
Lemma insert_row_stable {A} (leb : A -> A -> bool) (P : A -> bool) (x : A) (l : list A) :
  spec.tied leb P ->
  List.filter P (insert_row leb x l) = List.filter P (x :: l).
Proof.
  intros Ht. induction l as [|y l IH]; cbn [insert_row]; [reflexivity |].
  destruct (leb x y) eqn:E; [reflexivity |].
  cbn [List.filter] in *. rewrite IH.
  destruct (P x) eqn:Px, (P y) eqn:Py; try reflexivity.
  rewrite (Ht x y Px Py) in E. discriminate.
Qed.

Lemma sort_values_stable {A} (leb : A -> A -> bool) (P : A -> bool) (l : list A) :
  spec.tied leb P ->
  List.filter P (sort_values leb l) = List.filter P l.
Proof.
  intros Ht. induction l as [|x l IH]; cbn [sort_values]; [reflexivity |].
  rewrite (insert_row_stable leb P x _ Ht). cbn [List.filter]. now rewrite IH.
Qed.

Lemma compare_date_antisym (a b : option Z) :
  compare_date b a = CompOpp (compare_date a b).
Proof.
  destruct a, b; cbn; try reflexivity. apply Z.compare_antisym.
Qed.

Lemma then_by_antisym (c1 c2 d1 d2 : comparison) :
  d1 = CompOpp c1 -> d2 = CompOpp c2 -> then_by d1 d2 = CompOpp (then_by c1 c2).
Proof. intros -> ->. destruct c1; reflexivity. Qed.

Lemma not_after_total (c d : comparison) :
  d = CompOpp c -> not_after c = false -> not_after d = true.
Proof. intros ->. destruct c; cbn; congruence. Qed.

Lemma by_date_page_total (a b : search_function.Match) :
  search_function.by_date_page a b = false -> search_function.by_date_page b a = true.
Proof.
  unfold search_function.by_date_page. apply not_after_total.
  apply then_by_antisym; [apply compare_date_antisym | apply Z.compare_antisym].
Qed.

Lemma by_page_and_term_total (a b : co_occurance_search.CoMatch) :
  co_occurance_search.by_page_and_term a b = false ->
  co_occurance_search.by_page_and_term b a = true.
Proof.
  unfold co_occurance_search.by_page_and_term. apply not_after_total.
  apply then_by_antisym; [apply String.compare_antisym |].
  apply then_by_antisym; [apply Z.compare_antisym |].
  apply then_by_antisym; [apply Nat.compare_antisym | apply String.compare_antisym].
Qed.

Lemma not_after_Z (p q : Z) : not_after (Z.compare p q) = true <-> (p <= q)%Z.
Proof.
  unfold Z.le. destruct (Z.compare p q); cbn; split; congruence.
Qed.

Lemma by_date_page_le (a b : search_function.Match) :
  search_function.by_date_page a b = true <-> spec.date_page_le a b.
Proof.
  unfold search_function.by_date_page, spec.date_page_le, compare_date.
  destruct (date a) as [x|], (date b) as [y|].
  - destruct (Z.compare_spec x y) as [-> | Hlt | Hgt]; cbn [then_by].
    + rewrite not_after_Z. split; [intros H; right; auto |].
      intros [H | [_ H]]; [lia | exact H].
    + cbn. split; [intros _; now left | reflexivity].
    + cbn. split; [discriminate | intros [H | [H _]]; lia].
  - cbn. tauto.
  - cbn. split; [discriminate | tauto].
  - cbn [then_by]. apply not_after_Z.
Qed.

Lemma string_compare_eq (s t : string) : String.compare s t = Eq <-> s = t.
Proof.
  split; [apply String.compare_eq_iff |].
  intros ->. destruct (String.compare t t) eqn:E; [reflexivity | |];
    pose proof (String.compare_antisym t t) as H; rewrite E in H; discriminate.
Qed.

Lemma not_after_then_by (c1 c2 : comparison) :
  not_after (then_by c1 c2) = true <-> c1 = Lt \/ (c1 = Eq /\ not_after c2 = true).
Proof. destruct c1; cbn; intuition discriminate. Qed.

Lemma not_after_iff (c : comparison) : not_after c = true <-> c <> Gt.
Proof. destruct c; cbn; split; congruence. Qed.

Lemma by_page_and_term_le (a b : co_occurance_search.CoMatch) :
  co_occurance_search.by_page_and_term a b = true <-> spec.file_page_count_term_le a b.
Proof.
  unfold co_occurance_search.by_page_and_term, spec.file_page_count_term_le.
  rewrite !not_after_then_by, not_after_iff.
  rewrite string_compare_eq, Z.compare_lt_iff, Z.compare_eq_iff.
  rewrite Nat.compare_lt_iff, Nat.compare_eq_iff.
  intuition congruence.
Qed.

Lemma sorted_impl {A} (R R' : A -> A -> Prop) (l : list A) :
  (forall a b, R a b -> R' a b) -> Sorted R l -> Sorted R' l.
Proof.
  intros H. induction 1 as [|x l Hs IH Hhd]; constructor; [exact IH |].
  destruct Hhd; constructor. now apply H.
Qed.

(** The stages of [search_documents] behind a result. *)
Lemma search_documents_stages
    (term : string) (csv_file : option (list Span)) (thr : Z)
    (negs : terms_arg) (nd : Q) (sd ed : date_arg)
    (out : list search_function.Match) :
  search_function.search_documents term csv_file thr negs nd sd ed = Ok (Some out) ->
  exists lines sr kept,
    csv_file = Some lines
    /\ search_function.matching term thr (read_csv lines) = Ok sr
    /\ search_function.negation_filter (read_csv lines)
         (search_function.negation_list negs) nd sr = Ok kept
    /\ search_function.date_filter sd ed kept <> []
    /\ out = sort_values search_function.by_date_page
               (search_function.date_filter sd ed kept).
Proof.
  unfold search_function.search_documents.
  destruct csv_file as [lines |]; [| discriminate].
  unfold mbind, res_bind.
  destruct (search_function.matching term thr (read_csv lines)) as [sr |] eqn:Em;
    [| discriminate].
  destruct (search_function.negation_filter _ _ nd sr) as [kept |] eqn:En;
    [| discriminate].
  destruct kept as [| k kept]; [discriminate |].
  destruct (search_function.date_filter sd ed (k :: kept)) as [| d dated] eqn:Ed;
    [discriminate |].
  intros H. injection H as <-.
  exists lines, sr, (k :: kept). rewrite Ed. repeat split; try assumption; try reflexivity.
  discriminate.
Qed.

(** The stages of [search_documents_co_occurrence] behind a result. *)
Lemma co_search_stages
    (terms : list string) (min : Z) (csv_file : option (list Span))
    (negs : terms_arg) (nd : Q) (sd ed : date_arg)
    (out : list co_occurance_search.CoMatch) :
  co_occurance_search.search_documents_co_occurrence terms min csv_file negs nd sd ed
  = Ok (Some out) ->
  exists lines found kept,
    csv_file = Some lines
    /\ (min <= Z.of_nat (List.length terms))%Z
    /\ co_occurance_search.co_occurrence terms min (read_csv lines) = Ok (Some found)
    /\ co_occurance_search.negation_filter (read_csv lines)
         (search_function.negation_list negs) nd found = Ok kept
    /\ co_occurance_search.date_filter sd ed kept <> []
    /\ out = sort_values co_occurance_search.by_page_and_term
               (co_occurance_search.date_filter sd ed kept).
Proof.
  unfold co_occurance_search.search_documents_co_occurrence.
  destruct (Z.ltb_spec (Z.of_nat (List.length terms)) min) as [Hlt | Hge];
    [discriminate |].
  destruct csv_file as [lines |]; [| discriminate].
  unfold mbind, res_bind.
  destruct (co_occurance_search.co_occurrence terms min (read_csv lines))
    as [[found |] |] eqn:Ec; try discriminate.
  destruct (co_occurance_search.negation_filter _ _ nd found) as [kept |] eqn:En;
    [| discriminate].
  destruct kept as [| k kept]; [discriminate |].
  destruct (co_occurance_search.date_filter sd ed (k :: kept)) as [| d dated] eqn:Ed;
    [discriminate |].
  intros H. injection H as <-.
  exists lines, found, (k :: kept). rewrite Ed.
  repeat split; try assumption; try reflexivity. discriminate.
Qed.

(** C6, as the code has it.  The results of [search_documents] are sorted
    by page date ascending (a missing date last), then page number
    ascending: the source document is not a key.  The results of
    [search_documents_co_occurrence] are sorted by file name ascending,
    then page number ascending, then number of distinct terms of the page
    descending, then term ascending: the page date is not a key.  Both
    sorts are stable: the result holds the rows that the date filter
    leaves, and rows that tie on the keys are in the order in which the
    date filter leaves them, so that the order is a function of the
    input. *)
Theorem final_order_keys :
  forall (search_term : string) (csv_file : option (list Span))
         (similarity_threshold : Z) (negation_terms : terms_arg)
         (negation_distance : Q) (start_date end_date : date_arg)
         (out : list search_function.Match)
         (terms : list string) (min_terms_required : Z)
         (csv_file' : option (list Span)) (negation_terms' : terms_arg)
         (negation_distance' : Q) (start_date' end_date' : date_arg)
         (out' : list co_occurance_search.CoMatch),
    search_function.search_documents search_term csv_file similarity_threshold
      negation_terms negation_distance start_date end_date = Ok (Some out) ->
    co_occurance_search.search_documents_co_occurrence terms min_terms_required
      csv_file' negation_terms' negation_distance' start_date' end_date'
    = Ok (Some out') ->
    (Sorted (fun a b : search_function.Match => spec.date_page_le a b) out
     /\ exists lines matches kept,
          csv_file = Some lines
          /\ search_function.matching search_term similarity_threshold (read_csv lines)
             = Ok matches
          /\ search_function.negation_filter (read_csv lines)
               (search_function.negation_list negation_terms) negation_distance matches
             = Ok kept
          /\ Permutation (search_function.date_filter start_date end_date kept) out
          /\ forall P, spec.tied search_function.by_date_page P ->
                       List.filter P out
                       = List.filter P (search_function.date_filter
                                          start_date end_date kept))
    /\ (Sorted spec.file_page_count_term_le out'
        /\ exists lines found kept,
             csv_file' = Some lines
             /\ co_occurance_search.co_occurrence terms min_terms_required
                  (read_csv lines) = Ok (Some found)
             /\ co_occurance_search.negation_filter (read_csv lines)
                  (search_function.negation_list negation_terms') negation_distance'
                  found = Ok kept
             /\ Permutation (co_occurance_search.date_filter start_date' end_date' kept)
                            out'
             /\ forall P, spec.tied co_occurance_search.by_page_and_term P ->
                          List.filter P out'
                          = List.filter P (co_occurance_search.date_filter
                                             start_date' end_date' kept)).
Proof.
  intros until out'. intros H H'.
  apply search_documents_stages in H as (lines & sr & kept & -> & Hm & Hn & _ & ->).
  apply co_search_stages in H'
    as (lines' & found & kept' & -> & _ & Hc & Hn' & _ & ->).
  split; split.
  - eapply sorted_impl; [| apply sort_values_sorted, by_date_page_total].
    intros a b. apply by_date_page_le.
  - exists lines, sr, kept. repeat split; try assumption.
    + apply sort_values_perm.
    + intros P HP. now apply sort_values_stable.
  - eapply sorted_impl; [| apply sort_values_sorted, by_page_and_term_total].
    intros a b. apply by_page_and_term_le.
  - exists lines', found, kept'. repeat split; try assumption.
    + apply sort_values_perm.
    + intros P HP. now apply sort_values_stable.
Qed.

Lemma final_order_keys_witness :
  (Sorted (fun a b : search_function.Match => spec.date_page_le a b)
          scenario.dated_matches
   /\ exists lines matches kept,
        Some scenario.dated_spans = Some lines
        /\ search_function.matching "rain" 80 (read_csv lines) = Ok matches
        /\ search_function.negation_filter (read_csv lines)
             (search_function.negation_list TermsNone) 100 matches = Ok kept
        /\ Permutation (search_function.date_filter DateNone DateNone kept)
                       scenario.dated_matches
        /\ forall P, spec.tied search_function.by_date_page P ->
                     List.filter P scenario.dated_matches
                     = List.filter P (search_function.date_filter
                                        DateNone DateNone kept))
  /\ (Sorted spec.file_page_count_term_le scenario.alpha_beta_matches
      /\ exists lines found kept,
           Some scenario.alpha_beta_spans = Some lines
           /\ co_occurance_search.co_occurrence ["alpha"; "beta"] 2 (read_csv lines)
              = Ok (Some found)
           /\ co_occurance_search.negation_filter (read_csv lines)
                (search_function.negation_list TermsNone) 100 found = Ok kept
           /\ Permutation (co_occurance_search.date_filter DateNone DateNone kept)
                          scenario.alpha_beta_matches
           /\ forall P, spec.tied co_occurance_search.by_page_and_term P ->
                        List.filter P scenario.alpha_beta_matches
                        = List.filter P (co_occurance_search.date_filter
                                           DateNone DateNone kept)).
Proof.
  apply (final_order_keys
           "rain" (Some scenario.dated_spans) 80 TermsNone 100 DateNone DateNone
           scenario.dated_matches
           ["alpha"; "beta"] 2 (Some scenario.alpha_beta_spans) TermsNone 100
           DateNone DateNone scenario.alpha_beta_matches).
  - vm_compute. reflexivity.
  - vm_compute. reflexivity.
Defined.

(** C6, as the claim words it, fails in the single-term search: of two
    documents, [b.pdf] dated day 1 and [a.pdf] dated day 2, the result
    lists [b.pdf] first, while an order whose first key is the source
    document puts [a.pdf] first. *)
Lemma single_term_order_not_by_document :
  search_function.search_documents "rain" (Some scenario.dated_spans) 80
    TermsNone 100 DateNone DateNone
  = Ok (Some [ search_function.mkMatch
                 (mkRow 0 (scenario.span "b.pdf" 1 1 "rain" 0 0)) 100;
               search_function.mkMatch
                 (mkRow 1 (scenario.span "a.pdf" 1 2 "rain" 0 0)) 100 ])
  /\ spec.claimed_order (scenario.span "b.pdf" 1 1 "rain" 0 0)
                        (scenario.span "a.pdf" 1 2 "rain" 0 0) = false
  /\ spec.claimed_order (scenario.span "a.pdf" 1 2 "rain" 0 0)
                        (scenario.span "b.pdf" 1 1 "rain" 0 0) = true.
Proof. vm_compute. repeat split; reflexivity. Qed.

(** ** The renderer: failures of single documents (C8) and the cleanup (C10) *)

(** *** The names of files *)

Lemma split_from_plain (cur p : list ascii) :
  existsb (Ascii.eqb "/") p = false ->
  pdf_highlighter.split_from cur p = [py.str (rev cur ++ p)].
Proof.
  revert cur; induction p as [|c p IH]; intros cur H;
    cbn [pdf_highlighter.split_from].
  - now rewrite app_nil_r.
  - cbn [existsb] in H. apply orb_false_iff in H as [Hc Hp].
    rewrite Ascii.eqb_sym, Hc, (IH _ Hp). cbn [rev]. now rewrite <- app_assoc.
Qed.

Lemma below_app (dir rest : list string) :
  pdf_highlighter.below dir (dir ++ rest) = Some rest.
Proof.
  induction dir as [|d dir IH]; cbn; [reflexivity |].
  now rewrite String.eqb_refl.
Qed.

(** A bare name leads to the entry of the working directory that has this
    name. *)
Lemma resolve_entry (e : pdf_highlighter.env) (name : string) :
  existsb (Ascii.eqb "/") (py.chars name) = false ->
  pdf_highlighter.is_dot name = false ->
  pdf_highlighter.resolve e name = name.
Proof.
  intros Hs Hd.
  unfold pdf_highlighter.resolve, pdf_highlighter.absolute, pdf_highlighter.split_path.
  rewrite (split_from_plain [] _ Hs). cbn [rev app]. rewrite str_chars.
  assert (H1 : py.starts_with ["/"%char] (py.chars name) = false).
  { destruct (py.chars name) as [|c l]; [reflexivity |].
    cbn [existsb] in Hs. apply orb_false_iff in Hs as [Hc _].
    cbn [py.starts_with]. now rewrite Hc. }
  assert (H2 : String.eqb name ".." = false).
  { unfold pdf_highlighter.is_dot in Hd. now apply orb_false_iff in Hd as [_ Hd]. }
  rewrite H1. cbn [fold_left]. unfold pdf_highlighter.walk. rewrite H2, Hd.
  rewrite below_app. cbn [pdf_highlighter.join_path]. apply str_chars.
Qed.

(** The names [glob.glob("_tmp_*.pdf")] gives are the names of the files
    they lead to. *)
Lemma tmp_pdf_entry (e : pdf_highlighter.env) (name : string) :
  pdf_highlighter.is_tmp_pdf name = true -> pdf_highlighter.resolve e name = name.
Proof.
  unfold pdf_highlighter.is_tmp_pdf. intros H.
  apply andb_true_iff in H as [H _]. apply andb_true_iff in H as [H Hst].
  apply andb_true_iff in H as [Hs _]. apply negb_true_iff in Hs.
  apply resolve_entry; [exact Hs |].
  destruct name as [|a name]; [discriminate Hst |].
  unfold py.chars in Hst. cbn [list_ascii_of_string py.starts_with] in Hst.
  apply andb_true_iff in Hst as [Ha _]. apply Ascii.eqb_eq in Ha. subst a.
  reflexivity.
Qed.

Lemma remove_files_in (e : pdf_highlighter.env) (paths : list string)
    (fs : gset string) (p : string) :
  p ∈ pdf_highlighter.remove_files e paths fs
  <-> p ∈ fs /\ ~ In p (map (pdf_highlighter.resolve e) paths).
Proof.
  unfold pdf_highlighter.remove_files.
  revert fs; induction paths as [|n paths IH]; intros fs; cbn [fold_left map].
  - cbn. tauto.
  - rewrite IH, elem_of_difference, elem_of_singleton. cbn [In]. split.
    + intros [[H1 H2] H3]. split; [exact H1 |]. intros [E | H]; [| contradiction].
      apply H2. now symmetry.
    + intros [H1 H2]. split; [split; [exact H1 |] |]; intros E; apply H2; auto.
Qed.

(** What the cleanup leaves: the files that are neither tracked as
    temporary nor matched by [_tmp_*.pdf]. *)
Lemma cleanup_in (e : pdf_highlighter.env) (temps : list string) (fs : gset string)
    (p : string) :
  p ∈ pdf_highlighter.cleanup e temps fs
  <-> p ∈ fs /\ ~ In p (map (pdf_highlighter.resolve e) temps)
      /\ pdf_highlighter.is_tmp_pdf p = false.
Proof.
  unfold pdf_highlighter.cleanup, pdf_highlighter.glob_tmp_pdf.
  rewrite remove_files_in, in_map_iff, remove_files_in.
  destruct (pdf_highlighter.is_tmp_pdf p) eqn:Htmp; split.
  - intros [[H1 H2] H3]. exfalso. apply H3. exists p.
    split; [now apply tmp_pdf_entry |].
    apply filter_In. split; [| exact Htmp].
    apply list_elem_of_In, elem_of_elements, remove_files_in. auto.
  - intros (_ & _ & H). discriminate.
  - intros [[H1 H2] _]. auto.
  - intros (H1 & H2 & _). split; [auto |]. intros (n & Hn & Hin).
    apply filter_In in Hin as [_ Hin].
    rewrite (tmp_pdf_entry e n Hin) in Hn. congruence.
Qed.

(** One turn of the loop: the counters move only when the file is found
    and no call fails; the only file that may appear is the temporary
    file of the turn. *)
Lemma process_file_step (e : pdf_highlighter.env) (res : pdf_highlighter.Results)
    (base : string) (wm bm : bool) (st : pdf_highlighter.state) (f : string) :
  let st' := pdf_highlighter.process_file e res base wm bm st f in
  let ok := spec.turn_ok e bm base st f in
  pdf_highlighter.processed_count st'
  = pdf_highlighter.processed_count st + (if ok then 1 else 0)
  /\ pdf_highlighter.highlighted_count st'
     = pdf_highlighter.highlighted_count st + (if ok then spec.hits_on res f else 0)
  /\ (forall p, p ∈ pdf_highlighter.files st -> p ∈ pdf_highlighter.files st')
  /\ (forall p, p ∈ pdf_highlighter.files st' ->
                p ∈ pdf_highlighter.files st
                \/ p = pdf_highlighter.resolve e (pdf_highlighter.temp_path_of f)).
Proof.
  unfold pdf_highlighter.process_file, spec.turn_ok, spec.succeeds, spec.hits_on.
  destruct (pdf_highlighter.file_at e (pdf_highlighter.files st) _);
    cbn [negb andb].
  2:{ repeat split; auto; lia. }
  destruct (pdf_highlighter.fault_of e f) as [[| | [|] | | [|]]|];
    destruct bm; cbn [pdf_highlighter.processed_count pdf_highlighter.highlighted_count
                      pdf_highlighter.files orb negb];
    (split; [lia |]); (split; [lia |]);
    split; intros p Hp;
    first [ exact Hp
          | left; exact Hp
          | apply elem_of_union; right; exact Hp
          | apply elem_of_union in Hp as [Hp | Hp];
            [right; now apply elem_of_singleton in Hp | left; exact Hp] ].
Qed.

(** The loop over the source files: the counters count the files
    processed to the end and their highlights. *)
Lemma process_files_counts (e : pdf_highlighter.env) (res : pdf_highlighter.Results)
    (base : string) (wm bm : bool) (names : list string) (st : pdf_highlighter.state) :
  let st' := fold_left (pdf_highlighter.process_file e res base wm bm) names st in
  pdf_highlighter.processed_count st'
  = pdf_highlighter.processed_count st
    + List.length (spec.processed_docs e res base wm bm names st)
  /\ pdf_highlighter.highlighted_count st'
     = pdf_highlighter.highlighted_count st
       + list_sum (map (spec.hits_on res) (spec.processed_docs e res base wm bm names st)).
Proof.
  revert st; induction names as [|f names IH]; intros st.
  - cbn. lia.
  - cbn [fold_left spec.processed_docs].
    destruct (process_file_step e res base wm bm st f) as (Hc & Hh & _ & _).
    destruct (IH (pdf_highlighter.process_file e res base wm bm st f)) as [Hc' Hh'].
    cbn zeta in *. rewrite Hc', Hh', Hc, Hh.
    destruct (spec.turn_ok e bm base st f); cbn [app List.length map].
    + simpl list_sum. lia.
    + lia.
Qed.

(** When no source document lies where a temporary file of the run is
    written, a file is found in its turn exactly when it is there before
    the call. *)
Lemma processed_docs_static (e : pdf_highlighter.env) (res : pdf_highlighter.Results)
    (base : string) (wm bm : bool) (fs : gset string) (all names : list string)
    (st : pdf_highlighter.state) :
  spec.sources_apart e base all = true ->
  incl names all ->
  (forall p, p ∈ fs -> p ∈ pdf_highlighter.files st) ->
  (forall p, p ∈ pdf_highlighter.files st ->
             p ∈ fs \/ exists g, In g all
                                 /\ p = pdf_highlighter.resolve e
                                          (pdf_highlighter.temp_path_of g)) ->
  spec.processed_docs e res base wm bm names st
  = List.filter (spec.processed_ok e bm base fs) names.
Proof.
  intros Hsep. revert st; induction names as [|f names IH]; intros st Hincl Hsub Hsup.
  - reflexivity.
  - cbn [spec.processed_docs List.filter].
    destruct (process_file_step e res base wm bm st f) as (_ & _ & Hgrow & Hnew).
    assert (Hf : In f all) by (apply Hincl; now left).
    assert (Hfound : spec.turn_ok e bm base st f = spec.processed_ok e bm base fs f).
    { unfold spec.turn_ok, spec.processed_ok, pdf_highlighter.file_at. do 2 f_equal.
      apply bool_decide_ext. split; [| apply Hsub].
      intros Hp. apply Hsup in Hp as [Hp | (g & Hg & Hp)]; [exact Hp |].
      exfalso. unfold spec.sources_apart in Hsep.
      rewrite forallb_forall in Hsep. specialize (Hsep f Hf).
      rewrite forallb_forall in Hsep. specialize (Hsep g Hg).
      apply negb_true_iff, String.eqb_neq in Hsep. contradiction. }
    rewrite Hfound, IH.
    + destruct (spec.processed_ok e bm base fs f); reflexivity.
    + intros g Hg. apply Hincl. now right.
    + intros p Hp. apply Hgrow, Hsub, Hp.
    + intros p Hp. apply Hnew in Hp as [Hp | ->]; [now apply Hsup | right; eauto].
Qed.

Lemma process_file_temps (e : pdf_highlighter.env) (res : pdf_highlighter.Results)
    (base : string) (wm bm : bool) (st : pdf_highlighter.state) (f t : string) :
  In t (pdf_highlighter.temp_files
          (pdf_highlighter.process_file e res base wm bm st f)) ->
  In t (pdf_highlighter.temp_files st) \/ t = pdf_highlighter.temp_path_of f.
Proof.
  unfold pdf_highlighter.process_file.
  destruct (pdf_highlighter.file_at _ _ _); cbn [negb]; [| auto].
  destruct (pdf_highlighter.fault_of e f) as [[| | [|] | | [|]]|];
    destruct bm; cbn [pdf_highlighter.temp_files]; auto;
    intros H; apply in_app_or in H as [H | [<- | []]]; auto.
Qed.

(** The files and the tracked temporary files after the loop. *)
Lemma process_files_files (e : pdf_highlighter.env) (res : pdf_highlighter.Results)
    (base : string) (wm bm : bool) (fs : gset string) (all names : list string)
    (st : pdf_highlighter.state) :
  incl names all ->
  (forall p, p ∈ fs -> p ∈ pdf_highlighter.files st) ->
  (forall p, p ∈ pdf_highlighter.files st ->
             p ∈ fs \/ exists g, In g all
                                 /\ p = pdf_highlighter.resolve e
                                          (pdf_highlighter.temp_path_of g)) ->
  (forall t, In t (pdf_highlighter.temp_files st) ->
             exists g, In g all /\ t = pdf_highlighter.temp_path_of g) ->
  let st' := fold_left (pdf_highlighter.process_file e res base wm bm) names st in
  (forall p, p ∈ fs -> p ∈ pdf_highlighter.files st')
  /\ (forall p, p ∈ pdf_highlighter.files st' ->
                p ∈ fs \/ exists g, In g all
                                    /\ p = pdf_highlighter.resolve e
                                             (pdf_highlighter.temp_path_of g))
  /\ (forall t, In t (pdf_highlighter.temp_files st') ->
                exists g, In g all /\ t = pdf_highlighter.temp_path_of g).
Proof.
  revert st; induction names as [|f names IH]; intros st Hincl Hsub Hsup Htmp.
  - cbn. auto.
  - cbn [fold_left].
    destruct (process_file_step e res base wm bm st f) as (_ & _ & Hgrow & Hnew).
    assert (Hf : In f all) by (apply Hincl; now left).
    apply IH.
    + intros g Hg. apply Hincl. now right.
    + intros p Hp. apply Hgrow, Hsub, Hp.
    + intros p Hp. apply Hnew in Hp as [Hp | ->]; [now apply Hsup | right; eauto].
    + intros t Ht. apply process_file_temps in Ht as [Ht | ->]; [now apply Htmp | eauto].
Qed.

Lemma not_temp_of_spec (e : pdf_highlighter.env) (names : list string) (p : string) :
  spec.not_temp_of e names p = true ->
  ~ exists g, In g names
              /\ pdf_highlighter.resolve e p
                 = pdf_highlighter.resolve e (pdf_highlighter.temp_path_of g).
Proof.
  unfold spec.not_temp_of. rewrite forallb_forall. intros H (g & Hg & E).
  specialize (H g Hg). apply negb_true_iff, String.eqb_neq in H. contradiction.
Qed.

(** The value of the call on results that are not empty: the state the
    loop reaches decides it. *)
Lemma highlight_value (e : pdf_highlighter.env) (res : pdf_highlighter.Results)
    (base outp : string) (wm bm : bool) (fs : gset string) :
  pdf_highlighter.lines res <> [] ->
  let st := fold_left (pdf_highlighter.process_file e res base wm bm)
                      (pdf_highlighter.unique_filenames res)
                      (pdf_highlighter.mkState fs [] [] [] 0 0) in
  pdf_highlighter.highlight_search_results e (Some res) base outp wm bm fs
  = if 0 <? pdf_highlighter.processed_count st
    then if pdf_highlighter.write_fails e
         then (pdf_highlighter.Raised (IOError outp),
               pdf_highlighter.cleanup e (pdf_highlighter.temp_files st)
                                       (pdf_highlighter.files st))
         else (pdf_highlighter.Returned (Some outp)
                 (pdf_highlighter.processed_count st)
                 (pdf_highlighter.highlighted_count st),
               pdf_highlighter.cleanup e (pdf_highlighter.temp_files st)
                 ({[ pdf_highlighter.resolve e outp ]} ∪ pdf_highlighter.files st))
    else (pdf_highlighter.Returned None 0 0,
          pdf_highlighter.cleanup e (pdf_highlighter.temp_files st)
                                  (pdf_highlighter.files st)).
Proof.
  intros Hne. cbn zeta.
  unfold pdf_highlighter.highlight_search_results, pdf_highlighter.render.
  destruct (pdf_highlighter.lines res) as [|h hs] eqn:E; [contradiction |].
  destruct (0 <? _); [destruct (pdf_highlighter.write_fails e) |]; reflexivity.
Qed.

Lemma unique_filenames_nil (res : pdf_highlighter.Results) :
  pdf_highlighter.lines res = [] -> pdf_highlighter.unique_filenames res = [].
Proof. unfold pdf_highlighter.unique_filenames. now intros ->. Qed.

(** C8, as the code has it.  A source document that is missing, or on
    which a call fails, is skipped and the loop goes on with the next one.
    When no source document lies where a temporary file of the run is
    written, the documents processed are those that are there before the
    call and on which no call fails.  When there is none the function
    returns the failure [(None, 0, 0)] and writes nothing at the output
    path.  Otherwise it calls [pdf_writer.write]: when the write raises,
    the exception leaves the function; when it does not, the function
    returns the output path with the number of documents processed and the
    number of their highlights, and the merged file is there after the
    call unless the output path leads to a file that the cleanup deletes,
    an entry [_tmp_*.pdf] of the working directory or a temporary file of
    the run. *)
Theorem highlight_fails_iff_nothing_processed :
  forall (e : pdf_highlighter.env) (res : pdf_highlighter.Results)
         (base_folder output_pdf_path : string) (add_watermarks add_bookmarks : bool)
         (fs : gset string),
    spec.sources_apart e base_folder (pdf_highlighter.unique_filenames res) = true ->
    let processed :=
      List.filter (spec.processed_ok e add_bookmarks base_folder fs)
                  (pdf_highlighter.unique_filenames res) in
    let r := pdf_highlighter.highlight_search_results
               e (Some res) base_folder output_pdf_path
               add_watermarks add_bookmarks fs in
    let output := pdf_highlighter.resolve e output_pdf_path in
    let kept :=
      pdf_highlighter.is_tmp_pdf output = false
      /\ spec.not_temp_of e (pdf_highlighter.unique_filenames res) output_pdf_path
         = true in
    match processed with
    | [] =>
        fst r = pdf_highlighter.Returned None 0 0
        /\ (kept -> (output ∈ snd r <-> output ∈ fs))
    | _ :: _ =>
        if pdf_highlighter.write_fails e
        then fst r = pdf_highlighter.Raised (IOError output_pdf_path)
        else fst r = pdf_highlighter.Returned (Some output_pdf_path)
                       (List.length processed)
                       (list_sum (map (spec.hits_on res) processed))
             /\ (kept -> output ∈ snd r)
             /\ (pdf_highlighter.is_tmp_pdf output = true -> output ∉ snd r)
    end.
Proof.
  intros e res base outp wm bm fs Hsep. cbn zeta.
  destruct (pdf_highlighter.lines res) as [|h hs] eqn:Elines.
  { rewrite (unique_filenames_nil res Elines). cbn [List.filter].
    unfold pdf_highlighter.highlight_search_results. rewrite Elines. cbn. tauto. }
  rewrite (highlight_value e res base outp wm bm fs) by (rewrite Elines; discriminate).
  set (names := pdf_highlighter.unique_filenames res) in *.
  set (st0 := pdf_highlighter.mkState fs [] [] [] 0 0).
  destruct (process_files_counts e res base wm bm names st0) as (Hc & Hh).
  destruct (process_files_files e res base wm bm fs names names st0)
    as (Hsub & Hsup & Htemps); [apply incl_refl | auto | auto | intros t [] |].
  assert (Hstatic : spec.processed_docs e res base wm bm names st0
                    = List.filter (spec.processed_ok e bm base fs) names).
  { apply (processed_docs_static e res base wm bm fs names names st0 Hsep);
      [apply incl_refl | auto | auto]. }
  rewrite Hstatic in Hc, Hh.
  cbn zeta in *. cbn [pdf_highlighter.processed_count
                      pdf_highlighter.highlighted_count st0 plus] in Hc, Hh.
  set (st := fold_left _ names st0) in *.
  assert (Hnt : spec.not_temp_of e names outp = true ->
                ~ In (pdf_highlighter.resolve e outp)
                     (map (pdf_highlighter.resolve e) (pdf_highlighter.temp_files st))).
  { intros Hout Hin. apply in_map_iff in Hin as (t & Ht & Hin).
    apply Htemps in Hin as (g & Hg & ->).
    apply (not_temp_of_spec e names outp Hout). eauto. }
  rewrite Hc, Hh.
  destruct (List.filter (spec.processed_ok e bm base fs) names) as [|f ok] eqn:Eok;
    cbn [List.length].
  - cbn [Nat.ltb Nat.leb fst snd]. split; [reflexivity |].
    intros [Htmp Hout]. rewrite cleanup_in. split.
    + intros (Hin & _ & _). apply Hsup in Hin as [Hin | Hin]; [exact Hin |].
      exfalso. now apply (not_temp_of_spec e names outp Hout).
    + intros Hin. auto.
  - cbn [Nat.ltb Nat.leb]. destruct (pdf_highlighter.write_fails e); cbn [fst snd].
    + reflexivity.
    + split; [reflexivity |]. split.
      * intros [Htmp Hout]. apply cleanup_in.
        split; [apply elem_of_union; left; now apply elem_of_singleton | auto].
      * intros Htmp Hin. apply cleanup_in in Hin as (_ & _ & Hin). congruence.
Qed.

Lemma highlight_fails_iff_nothing_processed_witness :
  fst (pdf_highlighter.highlight_search_results
         scenario.render_env (Some scenario.render_results) "pdfs"
         "out/highlighted_rain.pdf" true true scenario.render_files)
  = pdf_highlighter.Returned (Some "out/highlighted_rain.pdf") 1 2
  /\ "out/highlighted_rain.pdf"
     ∈ snd (pdf_highlighter.highlight_search_results
              scenario.render_env (Some scenario.render_results) "pdfs"
              "out/highlighted_rain.pdf" true true scenario.render_files).
Proof.
  pose proof (highlight_fails_iff_nothing_processed
                scenario.render_env scenario.render_results "pdfs"
                "out/highlighted_rain.pdf" true true scenario.render_files) as H.
  specialize (H ltac:(vm_compute; reflexivity)).
  destruct H as (H1 & H2 & _). split; [exact H1 |].
  apply H2. split; vm_compute; reflexivity.
Defined.

(** C8, as the claim words it, fails when the output path leads to a file
    that the cleanup deletes.  With the working directory as output
    directory and the custom name [_tmp_report], the document [a.pdf] is
    processed and the path [./_tmp_report.pdf] is returned with the
    counts, but the merged file, written as the entry [_tmp_report.pdf] of
    the working directory, is deleted before the function returns.  It
    fails as well when [pdf_writer.write] raises: a document was
    processed, and the call neither returns the failure nor a path. *)
Lemma output_named_as_temporary_is_deleted :
  let output_pdf_path :=
    io.output_pdf_path "out/search_results_rain.csv" "." true (Some "_tmp_report") in
  let r := pdf_highlighter.highlight_search_results
             scenario.render_env (Some scenario.render_results) "pdfs"
             output_pdf_path true true scenario.render_files in
  (output_pdf_path = "./_tmp_report.pdf"
   /\ fst r = pdf_highlighter.Returned (Some "./_tmp_report.pdf") 1 2
   /\ pdf_highlighter.resolve scenario.render_env output_pdf_path = "_tmp_report.pdf"
   /\ "_tmp_report.pdf" ∉ snd r)
  /\ fst (pdf_highlighter.highlight_search_results
            scenario.failing_write_env (Some scenario.render_results) "pdfs"
            "out/highlighted_rain.pdf" true true scenario.render_files)
     = pdf_highlighter.Raised (IOError "out/highlighted_rain.pdf").
Proof.
  cbv zeta. split; [| vm_compute; reflexivity].
  split; [vm_compute; reflexivity |]. split; [vm_compute; reflexivity |].
  split; [vm_compute; reflexivity |].
  rewrite highlight_value by discriminate. cbv zeta.
  intros Hin.
  assert (H : exists temps fs',
             "_tmp_report.pdf" ∈ pdf_highlighter.cleanup scenario.render_env temps fs').
  { destruct (0 <? _); [destruct (pdf_highlighter.write_fails _) |]; cbn [snd] in Hin;
      eauto. }
  destruct H as (temps & fs' & H). apply cleanup_in in H as (_ & _ & H).
  vm_compute in H. discriminate.
Qed.

Lemma process_file_created (e : pdf_highlighter.env) (res : pdf_highlighter.Results)
    (base : string) (wm bm : bool) (st : pdf_highlighter.state) (f : string) :
  let st' := pdf_highlighter.process_file e res base wm bm st f in
  (forall t, In t (pdf_highlighter.temp_files st) -> In t (pdf_highlighter.temp_files st'))
  /\ (forall p, p ∈ pdf_highlighter.files st' ->
                p ∈ pdf_highlighter.files st
                \/ In p (map (pdf_highlighter.resolve e) (pdf_highlighter.temp_files st'))
                \/ (p = pdf_highlighter.resolve e (pdf_highlighter.temp_path_of f)
                    /\ pdf_highlighter.fault_of e f
                       = Some (pdf_highlighter.AtSave true))).
Proof.
  unfold pdf_highlighter.process_file.
  destruct (pdf_highlighter.file_at _ _ _); cbn [negb]; [| auto].
  destruct (pdf_highlighter.fault_of e f) as [[| | [|] | | [|]]|];
    destruct bm; cbn [pdf_highlighter.temp_files pdf_highlighter.files];
    (split; [intros t Ht; first [exact Ht | apply in_or_app; left; exact Ht] |]);
    intros p Hp;
    first [ left; exact Hp
          | apply elem_of_union in Hp as [Hp | Hp];
            [apply elem_of_singleton in Hp; subst p;
             first [ right; left; rewrite map_app; apply in_or_app; right; now left
                   | right; right; split; reflexivity ]
            | left; exact Hp] ].
Qed.

(** Every file the loop leaves was there before, or is tracked as
    temporary, or is what a failed save left behind. *)
Lemma process_files_created (e : pdf_highlighter.env) (res : pdf_highlighter.Results)
    (base : string) (wm bm : bool) (fs : gset string) (names : list string)
    (st : pdf_highlighter.state) :
  (forall p, p ∈ pdf_highlighter.files st ->
             p ∈ fs
             \/ In p (map (pdf_highlighter.resolve e) (pdf_highlighter.temp_files st))
             \/ exists g, pdf_highlighter.fault_of e g = Some (pdf_highlighter.AtSave true)
                          /\ p = pdf_highlighter.resolve e
                                   (pdf_highlighter.temp_path_of g)) ->
  let st' := fold_left (pdf_highlighter.process_file e res base wm bm) names st in
  forall p, p ∈ pdf_highlighter.files st' ->
            p ∈ fs
            \/ In p (map (pdf_highlighter.resolve e) (pdf_highlighter.temp_files st'))
            \/ exists g, pdf_highlighter.fault_of e g = Some (pdf_highlighter.AtSave true)
                         /\ p = pdf_highlighter.resolve e
                                  (pdf_highlighter.temp_path_of g).
Proof.
  revert st; induction names as [|f names IH]; intros st Hst; [exact Hst |].
  cbn [fold_left]. apply IH.
  destruct (process_file_created e res base wm bm st f) as [Hkeep Hnew].
  intros p Hp. apply Hnew in Hp as [Hp | [Hp | [-> Hf]]].
  - apply Hst in Hp as [Hp | [Hp | Hp]]; auto.
    right. left. apply in_map_iff in Hp as (t & <- & Ht).
    apply in_map. now apply Hkeep.
  - auto.
  - right. right. eauto.
Qed.

(** C10, as the code has it.  Whenever the results read from the CSV are
    not empty, whether the call returns a path, returns the failure or
    raises, no file of the working directory whose name matches
    [_tmp_*.pdf] is left, were it there before the call or not; and a
    file that is left was there before, or is the output, or is what a
    failed save left behind.  (The returns that precede the [try] do not
    run the cleanup.) *)
Theorem cleanup_removes_every_tmp_pdf :
  forall (e : pdf_highlighter.env) (res : pdf_highlighter.Results)
         (base_folder output_pdf_path : string) (add_watermarks add_bookmarks : bool)
         (fs : gset string),
    0 < List.length (pdf_highlighter.lines res) ->
    let r := pdf_highlighter.highlight_search_results
               e (Some res) base_folder output_pdf_path
               add_watermarks add_bookmarks fs in
    (forall name, pdf_highlighter.is_tmp_pdf name = true -> name ∉ snd r)
    /\ (forall p, p ∈ snd r ->
          p ∈ fs \/ p = pdf_highlighter.resolve e output_pdf_path
          \/ exists g, pdf_highlighter.fault_of e g = Some (pdf_highlighter.AtSave true)
                       /\ p = pdf_highlighter.resolve e
                                (pdf_highlighter.temp_path_of g)).
Proof.
  intros e res base outp wm bm fs Hne. cbn zeta.
  rewrite (highlight_value e res base outp wm bm fs)
    by (destruct (pdf_highlighter.lines res); [cbn in Hne; lia | discriminate]).
  set (st0 := pdf_highlighter.mkState fs [] [] [] 0 0).
  pose proof (process_files_created e res base wm bm fs
                (pdf_highlighter.unique_filenames res) st0) as Hcr.
  cbn zeta in Hcr. specialize (Hcr ltac:(intros p Hp; now left)).
  set (st := fold_left _ _ st0) in *.
  split.
  - intros name Hname Hin.
    assert (name ∈ pdf_highlighter.cleanup e (pdf_highlighter.temp_files st)
                     (pdf_highlighter.files st)
            \/ name ∈ pdf_highlighter.cleanup e (pdf_highlighter.temp_files st)
                        ({[ pdf_highlighter.resolve e outp ]}
                         ∪ pdf_highlighter.files st)) as [H | H].
    { destruct (0 <? _); [destruct (pdf_highlighter.write_fails e) |]; cbn in Hin; auto. }
    + apply cleanup_in in H as (_ & _ & H). congruence.
    + apply cleanup_in in H as (_ & _ & H). congruence.
  - intros p Hin.
    assert (p ∈ pdf_highlighter.cleanup e (pdf_highlighter.temp_files st)
                  (pdf_highlighter.files st)
            \/ p ∈ pdf_highlighter.cleanup e (pdf_highlighter.temp_files st)
                     ({[ pdf_highlighter.resolve e outp ]}
                      ∪ pdf_highlighter.files st)) as [H | H].
    { destruct (0 <? _); [destruct (pdf_highlighter.write_fails e) |]; cbn in Hin; auto. }
    + apply cleanup_in in H as (Hp & Hnt & _).
      apply Hcr in Hp as [Hp | [Hp | Hp]]; auto. contradiction.
    + apply cleanup_in in H as (Hp & Hnt & _).
      apply elem_of_union in Hp as [Hp | Hp].
      * apply elem_of_singleton in Hp. auto.
      * apply Hcr in Hp as [Hp | [Hp | Hp]]; auto. contradiction.
Qed.

Lemma cleanup_removes_every_tmp_pdf_witness :
  (forall name,
      pdf_highlighter.is_tmp_pdf name = true ->
      name ∉ snd (pdf_highlighter.highlight_search_results
                    scenario.render_env (Some scenario.render_results) "pdfs"
                    "out/highlighted_rain.pdf" true true scenario.render_files))
  /\ (forall p,
        p ∈ snd (pdf_highlighter.highlight_search_results
                   scenario.render_env (Some scenario.render_results) "pdfs"
                   "out/highlighted_rain.pdf" true true scenario.render_files) ->
        p ∈ scenario.render_files
        \/ p = pdf_highlighter.resolve scenario.render_env "out/highlighted_rain.pdf"
        \/ exists g, pdf_highlighter.fault_of scenario.render_env g
                     = Some (pdf_highlighter.AtSave true)
                     /\ p = pdf_highlighter.resolve scenario.render_env
                              (pdf_highlighter.temp_path_of g)).
Proof.
  apply (cleanup_removes_every_tmp_pdf
           scenario.render_env scenario.render_results "pdfs"
           "out/highlighted_rain.pdf" true true scenario.render_files).
  simpl. lia.
Defined.

(** C10, as the claim words it, fails on the exits that precede the
    [try]: when the CSV cannot be read the call raises, when it holds no
    result the call returns the failure, and in both cases the file
    [_tmp_old.pdf] of the working directory is still there. *)
Lemma early_exits_skip_cleanup :
  pdf_highlighter.is_tmp_pdf "_tmp_old.pdf" = true
  /\ "_tmp_old.pdf" ∈ scenario.render_files
  /\ pdf_highlighter.highlight_search_results
       scenario.render_env None "pdfs" "out/highlighted_rain.pdf" true true
       scenario.render_files
     = (pdf_highlighter.Raised (IOError "csv_path"), scenario.render_files)
  /\ pdf_highlighter.highlight_search_results
       scenario.render_env (Some scenario.no_results) "pdfs"
       "out/highlighted_rain.pdf" true true scenario.render_files
     = (pdf_highlighter.Returned None 0 0, scenario.render_files).
Proof.
  split; [vm_compute; reflexivity |].
  split; [unfold scenario.render_files; set_solver |].
  split; reflexivity.
Qed.

(* ================================================================== *)
(** * Further properties of the search *)
(* ================================================================== *)

(** ** The range of the similarity *)

Lemma pos_of_nat_Z (n : nat) : n <> 0 -> Z.pos (Pos.of_nat n) = Z.of_nat n.
Proof.
  intros Hn. rewrite <- (Nat2Pos.id n Hn) at 2. now rewrite positive_nat_Z.
Qed.

Lemma ratio_nonneg (s t : list ascii) : (0 <= fuzz.ratio s t)%Q.
Proof.
  unfold fuzz.ratio. destruct (_ =? 0) eqn:E; [discriminate |].
  apply Nat.eqb_neq in E.
  assert (Hd : fuzz.indel_distance s t <= List.length s + List.length t)
    by (unfold fuzz.indel_distance; lia).
  assert (H : (Z.of_nat (fuzz.indel_distance s t)
               # Pos.of_nat (List.length s + List.length t) <= 1)%Q).
  { unfold Qle. simpl. rewrite (pos_of_nat_Z _ E). lia. }
  Lqa.lra.
Qed.

Lemma py_round_nonneg (x : Q) : (0 <= x)%Q -> (0 <= py_round x)%Z.
Proof.
  intros Hx. unfold py_round.
  assert (Hf : (0 <= Qfloor x)%Z).
  { change 0%Z with (Qfloor (inject_Z 0)). now apply Qfloor_resp_le. }
  destruct (Qcompare _ _); [destruct (Z.even _) | |]; lia.
Qed.

Lemma ratio_nil_l (w : list ascii) : w <> [] -> (fuzz.ratio [] w == 0)%Q.
Proof.
  intros Hw. unfold fuzz.ratio, fuzz.indel_distance. simpl.
  destruct (List.length w =? 0) eqn:E.
  - apply Nat.eqb_eq in E. destruct w; [congruence | discriminate].
  - apply Nat.eqb_neq in E. rewrite Nat.sub_0_r.
    assert (H : (Z.of_nat (List.length w) # Pos.of_nat (List.length w) == 1)%Q).
    { unfold Qeq. simpl. rewrite (pos_of_nat_Z _ E). lia. }
    rewrite H. ring.
Qed.

(** X1.  [word_level_similarity] returns a score between 0 and 100, as
    its docstring says, whatever the term and the text. *)
Theorem word_level_similarity_range (term : string) (text : option string) :
  (0 <= search_function.word_level_similarity term text <= 100)%Z.
Proof.
  destruct text as [t |]; [| simpl; lia].
  rewrite word_level_similarity_max.
  destruct (spec.words t) as [| w ws]; [simpl; lia |].
  cbn [map max_list].
  assert (H0 : forall v, (0 <= py_round (fuzz.ratio (spec.normalize term) v) <= 100)%Z).
  { intros v. split; [apply py_round_nonneg, ratio_nonneg
                     | apply py_round_le_100, ratio_le_100]. }
  destruct (fold_max_bounds
              (map (fun v => py_round (fuzz.ratio (spec.normalize term) v)) ws)
              (py_round (fuzz.ratio (spec.normalize term) w)) 100) as [[Hlo Hhi] _].
  - apply H0.
  - intros y Hy. apply in_map_iff in Hy as (v & <- & _). apply H0.
  - pose proof (H0 w). lia.
Qed.

(** ** The normal form of the fuzzy stage *)

Lemma lower_char_alpha (c : ascii) :
  py.is_alpha c = true -> py.is_lower (py.lower_char c) = true.
Proof.
  destruct c as [[] [] [] [] [] [] [] []]; vm_compute; intros H;
    first [reflexivity | discriminate H].
Qed.

Lemma lower_char_space (c : ascii) : py.is_space (py.lower_char c) = py.is_space c.
Proof. destruct c as [[] [] [] [] [] [] [] []]; reflexivity. Qed.

Lemma is_lower_not_space (c : ascii) : py.is_lower c = true -> py.is_space c = false.
Proof.
  destruct c as [[] [] [] [] [] [] [] []]; vm_compute; intros H;
    first [reflexivity | discriminate H].
Qed.

Lemma lstrip_Forall (P : ascii -> Prop) (s : list ascii) :
  Forall P s -> Forall P (py.lstrip s).
Proof.
  induction 1 as [| c s Hc Hs IH]; simpl; [constructor |].
  destruct (py.is_space c); [exact IH | now constructor].
Qed.

Lemma strip_Forall (P : ascii -> Prop) (s : list ascii) :
  Forall P s -> Forall P (py.strip s).
Proof.
  intros H. unfold py.strip, py.rstrip.
  apply Forall_rev, lstrip_Forall, Forall_rev, lstrip_Forall, H.
Qed.

Lemma sub_non_alpha_Forall (s : list ascii) :
  Forall (fun c => py.is_alpha c = true \/ py.is_space c = true) (re.sub_non_alpha s).
Proof.
  unfold re.sub_non_alpha. induction s as [| c s IH]; simpl; constructor; [| exact IH].
  destruct (py.is_alpha c) eqn:Ea; [now left |].
  destruct (py.is_space c) eqn:Es; [now right |]. simpl. now right.
Qed.

Lemma sub_spaces_from_Forall (P : ascii -> Prop) (s : list ascii) (b : bool) :
  P " "%char ->
  Forall (fun c => P c \/ py.is_space c = true) s ->
  Forall P (re.sub_spaces_from b s).
Proof.
  intros Hsp H. revert b.
  induction H as [| c s Hc Hs IH]; intros b; simpl; [constructor |].
  destruct (py.is_space c) eqn:Es.
  - destruct b; [apply IH | constructor; [exact Hsp | apply IH]].
  - constructor; [| apply IH]. destruct Hc as [Hc | Hc]; [exact Hc | congruence].
Qed.

(** The characters of a cleaned and lowered text are lower-case letters
    and spaces. *)
Lemma normalize_chars (text : string) :
  Forall (fun c => py.is_lower c = true \/ c = " "%char) (spec.normalize text).
Proof.
  unfold spec.normalize, search_function.clean_text, py.lower.
  apply Forall_map.
  apply Forall_impl
    with (P := fun c => py.is_alpha c = true \/ c = " "%char).
  - intros c [Hc | ->]; [left; now apply lower_char_alpha | now right].
  - apply strip_Forall. unfold re.sub_spaces.
    apply sub_spaces_from_Forall; [now right |].
    apply Forall_impl with (2 := sub_non_alpha_Forall (py.chars text)).
    intros c [Hc | Hc]; [left; now left | now right].
Qed.

Lemma split_from_words (P : ascii -> Prop) (s cur : list ascii) (w : list ascii) :
  Forall P cur ->
  Forall (fun c => py.is_space c = false -> P c) s ->
  In w (py.split_from cur s) -> w <> [] /\ Forall P w.
Proof.
  intros Hcur Hs. revert cur Hcur.
  induction Hs as [| c s Hc Hs IH]; intros cur Hcur Hw; simpl in Hw.
  - destruct cur as [| a cur]; [contradiction |].
    destruct Hw as [<- | []]. split.
    + intros E. apply (f_equal (@List.length ascii)) in E.
      rewrite length_rev in E. discriminate.
    + now apply Forall_rev.
  - destruct (py.is_space c) eqn:Es.
    + destruct cur as [| a cur].
      * apply (IH [] (Forall_nil _) Hw).
      * destruct Hw as [<- | Hw].
        -- split.
           ++ intros E. apply (f_equal (@List.length ascii)) in E.
              rewrite length_rev in E. discriminate.
           ++ now apply Forall_rev.
        -- apply (IH [] (Forall_nil _) Hw).
    + apply (IH (c :: cur)); [constructor; [now apply Hc | exact Hcur] | exact Hw].
Qed.

Lemma words_lowercase (text : string) (w : list ascii) :
  In w (spec.words text) -> w <> [] /\ Forall (fun c => py.is_lower c = true) w.
Proof.
  unfold spec.words, py.split. apply split_from_words; [constructor |].
  apply Forall_impl with (2 := normalize_chars text).
  intros c [Hc | ->] Hs; [exact Hc | discriminate Hs].
Qed.

(** X2.  The words the fuzzy stage compares are never empty and hold
    lower-case letters only: digits, punctuation and case take no part in
    the similarity. *)
Theorem fuzzy_words_are_lowercase_letters (text : string) :
  Forall (fun w => w <> [] /\ Forall (fun c => py.is_lower c = true) w)
         (py.split (py.lower (search_function.clean_text (Some text)))).
Proof. apply Forall_forall. intros w Hw. exact (words_lowercase text w Hw). Qed.

Lemma lstrip_spaces (s : list ascii) :
  Forall (fun c => py.is_space c = true) s -> py.lstrip s = [].
Proof.
  induction 1 as [| c s Hc Hs IH]; simpl; [reflexivity |]. now rewrite Hc.
Qed.

Lemma normalize_no_letters (term : string) :
  forallb (fun c => negb (py.is_alpha c)) (py.chars term) = true ->
  spec.normalize term = [].
Proof.
  intros H. unfold spec.normalize, search_function.clean_text.
  assert (Hs : Forall (fun c => py.is_space c = true) (re.sub_non_alpha (py.chars term))).
  { unfold re.sub_non_alpha. apply Forall_map. apply Forall_forall. intros c Hc.
    rewrite forallb_forall in H. specialize (H c Hc).
    apply negb_true_iff in H. rewrite H. simpl.
    destruct (py.is_space c) eqn:Es; [exact Es | reflexivity]. }
  assert (Hs' : Forall (fun c => py.is_space c = true)
                       (re.sub_spaces (re.sub_non_alpha (py.chars term)))).
  { unfold re.sub_spaces. apply sub_spaces_from_Forall; [reflexivity |].
    apply Forall_impl with (2 := Hs). intros c Hc. now right. }
  unfold py.strip. rewrite (lstrip_spaces _ Hs'). reflexivity.
Qed.

(** X3.  A term without a letter (a number, a date, punctuation) has
    similarity 0 with every text: the fuzzy stage cannot find it, only the
    exact stage can. *)
Theorem word_level_similarity_no_letters (term : string) (text : option string) :
  forallb (fun c => negb (py.is_alpha c)) (py.chars term) = true ->
  search_function.word_level_similarity term text = 0%Z.
Proof.
  intros H. destruct text as [t |]; [| reflexivity].
  rewrite word_level_similarity_max, (normalize_no_letters _ H).
  assert (H0 : forall w, In w (spec.words t) -> py_round (fuzz.ratio [] w) = 0%Z).
  { intros w Hw. apply (words_lowercase t) in Hw as [Hne _].
    now rewrite (py_round_comp _ 0 (ratio_nil_l w Hne)). }
  destruct (spec.words t) as [| w ws] eqn:E; [reflexivity |].
  apply max_list_attained.
  - left. apply H0. now left.
  - intros y Hy. apply in_map_iff in Hy as (v & <- & Hv). rewrite (H0 v Hv). lia.
Qed.

Lemma word_level_similarity_no_letters_witness :
  search_function.word_level_similarity "1984" (Some "in 1984 it rained") = 0%Z.
Proof. apply word_level_similarity_no_letters. reflexivity. Defined.

(** ** What [search_documents] returns *)

(** A result of the two stages is a row of the corpus: either the pattern
    matches its text and the score is 100, or it does not and the score is
    the word-level similarity, which reaches the threshold. *)
Lemma matching_in (term : string) (thr : Z) (df : list Row)
    (sr : list search_function.Match) :
  search_function.matching term thr df = Ok sr ->
  exists r,
    re.compile term = Ok r
    /\ forall m : search_function.Match,
         In m sr ->
         In (search_function.row m) df
         /\ ((text_matches r m = true /\ search_function.similarity m = 100%Z)
             \/ (text_matches r m = false
                 /\ search_function.similarity m
                    = search_function.word_level_similarity term (text m)
                 /\ (thr <= search_function.similarity m)%Z)).
Proof.
  intros Hm. destruct (matching_compiles _ _ _ _ Hm) as [r Hr].
  exists r. split; [exact Hr |].
  rewrite (matching_value _ _ _ _ Hr) in Hm. injection Hm as <-.
  intros m Hin. apply drop_duplicates_from_in in Hin.
  apply in_app_or in Hin as [Hin | Hin].
  - apply in_map_iff in Hin as (x & <- & Hx). apply filter_In in Hx as [Hx Ht].
    simpl. split; [exact Hx |]. left. now split.
  - unfold search_function.fuzzy_chunk in Hin.
    apply filter_In in Hin as [Hin Hthr].
    apply in_map_iff in Hin as (x & <- & Hx).
    apply drop_not_listed in Hx as [Hx Hnot].
    simpl in *. split; [exact Hx |]. right. repeat split.
    + destruct (text_matches r x) eqn:Et; [| reflexivity].
      exfalso. apply Hnot. apply in_map. apply filter_In. now split.
    + now apply Z.leb_le.
Qed.

Lemma date_filter_in (sd ed : date_arg) (l : list search_function.Match)
    (m : search_function.Match) :
  In m (search_function.date_filter sd ed l) ->
  In m l
  /\ (forall s, sd = DateOk s -> exists d, date m = Some d /\ (s <= d)%Z)
  /\ (forall e, ed = DateOk e -> sd <> DateBad -> exists d, date m = Some d /\ (d <= e)%Z).
Proof.
  assert (Hge : forall s, search_function.date_ge (date m) s = true ->
                          exists d, date m = Some d /\ (s <= d)%Z).
  { intros s H. unfold search_function.date_ge in H.
    destruct (date m) as [d |]; [| discriminate]. exists d. split; [reflexivity |].
    now apply Z.leb_le. }
  assert (Hle : forall e, search_function.date_le (date m) e = true ->
                          exists d, date m = Some d /\ (d <= e)%Z).
  { intros e H. unfold search_function.date_le in H.
    destruct (date m) as [d |]; [| discriminate]. exists d. split; [reflexivity |].
    now apply Z.leb_le. }
  unfold search_function.date_filter.
  destruct sd as [| s |], ed as [| e |]; intros Hin;
    repeat match goal with
           | H : In _ (List.filter _ _) |- _ => apply filter_In in H as [H ?]
           end;
    (split; [assumption |]); split; intros x Hx; try discriminate Hx;
    try (intros Hbad; try (exfalso; now apply Hbad));
    injection Hx as <-; auto.
Qed.

Lemma date_filter_nodup {B} (f : search_function.Match -> B) (sd ed : date_arg)
    (l : list search_function.Match) :
  NoDup (map f l) -> NoDup (map f (search_function.date_filter sd ed l)).
Proof.
  intros H. unfold search_function.date_filter.
  destruct sd, ed; auto using nodup_map_filter.
Qed.

(** X4.  When [search_documents] returns a frame it is not empty, no row
    of the corpus is reported twice, and every result is a row of the
    corpus whose text the pattern matches (score 100) or whose word-level
    similarity reaches the threshold (that similarity is the score). *)
Theorem search_documents_results
    (term : string) (csv_file : option (list Span)) (thr : Z)
    (negs : terms_arg) (nd : Q) (sd ed : date_arg)
    (out : list search_function.Match) :
  search_function.search_documents term csv_file thr negs nd sd ed = Ok (Some out) ->
  out <> []
  /\ NoDup (map (fun m : search_function.Match => index m) out)
  /\ exists lines r,
       csv_file = Some lines
       /\ re.compile term = Ok r
       /\ forall m : search_function.Match,
            In m out ->
            In (search_function.row m) (read_csv lines)
            /\ ((text_matches r m = true /\ search_function.similarity m = 100%Z)
                \/ (text_matches r m = false
                    /\ search_function.similarity m
                       = search_function.word_level_similarity term (text m)
                    /\ (thr <= search_function.similarity m)%Z)).
Proof.
  intros H.
  destruct (search_documents_stages _ _ _ _ _ _ _ _ H)
    as (lines & sr & kept & -> & Hm & Hn & Hne & ->).
  pose proof (matching_index_nodup _ _ _ _ Hm) as Hnd.
  rewrite (negation_filter_kept _ _ _ _ Hnd) in Hn. injection Hn as <-.
  set (kept := List.filter _ sr) in *.
  set (dated := search_function.date_filter sd ed kept) in *.
  pose proof (sort_values_perm search_function.by_date_page dated) as Hperm.
  split; [| split].
  - intros E. rewrite E in Hperm. apply Permutation_sym, Permutation_nil in Hperm.
    now apply Hne.
  - apply (Permutation_NoDup
             (Permutation_map (fun m : search_function.Match => index m) Hperm)).
    apply date_filter_nodup. now apply nodup_map_filter.
  - destruct (matching_in _ _ _ _ Hm) as (r & Hr & Hall).
    exists lines, r. split; [reflexivity |]. split; [exact Hr |].
    intros m Hin. apply Hall.
    apply (Permutation_in _ (Permutation_sym Hperm)) in Hin.
    apply date_filter_in in Hin as [Hin _].
    now apply filter_In in Hin as [Hin _].
Qed.

Lemma search_documents_results_witness :
  exists out,
    search_function.search_documents "rain" (Some scenario.three_spans) 80
      TermsNone 100 DateNone DateNone = Ok (Some out)
    /\ out <> [].
Proof.
  eexists. split; [vm_compute; reflexivity |].
  apply (search_documents_results "rain" (Some scenario.three_spans) 80
           TermsNone 100 DateNone DateNone).
  vm_compute. reflexivity.
Defined.

(** X5.  The date range is inclusive on both sides, and a result without
    a date (NaT) does not pass a bound: every result has a date that is
    not before the start date when one is given, and not after the end
    date when one is given and the start date, if given, could be
    parsed. *)
Theorem search_documents_date_range
    (term : string) (csv_file : option (list Span)) (thr : Z)
    (negs : terms_arg) (nd : Q) (sd ed : date_arg)
    (out : list search_function.Match) (m : search_function.Match) :
  search_function.search_documents term csv_file thr negs nd sd ed = Ok (Some out) ->
  In m out ->
  (forall s, sd = DateOk s -> exists d, date m = Some d /\ (s <= d)%Z)
  /\ (forall e, ed = DateOk e -> sd <> DateBad ->
                exists d, date m = Some d /\ (d <= e)%Z).
Proof.
  intros H Hin.
  destruct (search_documents_stages _ _ _ _ _ _ _ _ H)
    as (lines & sr & kept & -> & Hm & Hn & Hne & ->).
  apply (Permutation_in _ (Permutation_sym (sort_values_perm _ _))) in Hin.
  now apply date_filter_in in Hin as [_ Hb].
Qed.

Lemma search_documents_date_range_witness :
  exists d, date (search_function.mkMatch
                    (mkRow 1 (scenario.span "a.pdf" 1 2 "rain" 0 0)) 100) = Some d
            /\ (2 <= d)%Z.
Proof.
  refine (proj1 (search_documents_date_range "rain" (Some scenario.dated_spans) 80
                   TermsNone 100 (DateOk 2) (DateOk 5)
                   [search_function.mkMatch
                      (mkRow 1 (scenario.span "a.pdf" 1 2 "rain" 0 0)) 100]
                   _ _ _) 2%Z eq_refl).
  - vm_compute. reflexivity.
  - left. reflexivity.
Defined.

(** ** The edges of the negation filter *)

Lemma nearby_b_negative (d : list (string * list Row)) (nd : Q) (m : Span) :
  (nd < 0)%Q -> spec.nearby_b d nd m = false.
Proof.
  intros Hnd. apply not_true_iff_false. unfold spec.nearby_b.
  rewrite existsb_exists. intros (e & _ & Hex).
  apply existsb_exists in Hex as (o & _ & Hc).
  apply andb_true_iff in Hc as [_ Hc].
  apply distance_le_nonneg in Hc. Lqa.lra.
Qed.

(** X6.  With a negation distance that is not negative, no result holds
    a negation term itself: a span in which a negation term occurs as a
    whole word lies at distance 0 of that occurrence and is dropped. *)
Theorem search_documents_excludes_negated
    (term : string) (csv_file : option (list Span)) (thr : Z)
    (negs : terms_arg) (nd : Q) (sd ed : date_arg)
    (out : list search_function.Match) (m : search_function.Match) (t : string) :
  search_function.search_documents term csv_file thr negs nd sd ed = Ok (Some out) ->
  (0 <= nd)%Q ->
  In m out ->
  In t (search_function.negation_list negs) ->
  ~ spec.occurs_in t m.
Proof.
  intros H Hnd Hin Ht Hocc.
  destruct (search_documents_stages _ _ _ _ _ _ _ _ H)
    as (lines & sr & kept & -> & Hm & Hn & Hne & ->).
  pose proof (matching_index_nodup _ _ _ _ Hm) as Hnodup.
  rewrite (negation_filter_kept _ _ _ _ Hnodup) in Hn. injection Hn as <-.
  apply (Permutation_in _ (Permutation_sym (sort_values_perm _ _))) in Hin.
  apply date_filter_in in Hin as [Hin _].
  apply filter_In in Hin as [Hin Hnear].
  apply negb_true_iff in Hnear.
  destruct (matching_in _ _ _ _ Hm) as (r & _ & Hall).
  destruct (Hall m Hin) as [Hrow _].
  assert (Hyes : spec.nearby_b
                   (fst (spec.negations_found (read_csv lines)
                           (search_function.negation_list negs))) nd m = true).
  { apply nearby_b_iff. exists t, (search_function.row m).
    repeat split; try assumption.
    rewrite calculate_distance_same by apply to_float_finite.
    unfold search_function.distance_le.
    change (Prim2SF PrimFloat.zero) with (S754_zero false).
    now apply Qle_bool_iff. }
  congruence.
Qed.

Lemma search_documents_excludes_negated_witness :
  ~ spec.occurs_in "spain"
      (search_function.mkMatch (mkRow 0 (scenario.span "a.pdf" 1 0 "the rain" 0 0)) 100).
Proof.
  apply (search_documents_excludes_negated "rain" (Some scenario.three_spans) 80
           (TermsList ["spain"]) 10 DateNone DateNone
           [search_function.mkMatch
              (mkRow 0 (scenario.span "a.pdf" 1 0 "the rain" 0 0)) 100]).
  - vm_compute. reflexivity.
  - unfold Qle. simpl. lia.
  - left. reflexivity.
  - left. reflexivity.
Defined.

(** X7.  A negative [negation_distance] switches the negation filter
    off: the call gives what it gives without negation terms. *)
Theorem negative_negation_distance_disables_filter
    (term : string) (csv_file : option (list Span)) (thr : Z)
    (negs : terms_arg) (nd : Q) (sd ed : date_arg) :
  (nd < 0)%Q ->
  search_function.search_documents term csv_file thr negs nd sd ed
  = search_function.search_documents term csv_file thr TermsNone nd sd ed.
Proof.
  intros Hnd. unfold search_function.search_documents.
  destruct csv_file as [lines |]; [| reflexivity].
  unfold mbind, res_bind.
  destruct (search_function.matching term thr (read_csv lines)) as [sr |] eqn:Hm;
    [| reflexivity].
  pose proof (matching_index_nodup _ _ _ _ Hm) as Hnodup.
  rewrite !(negation_filter_kept _ _ _ _ Hnodup).
  rewrite !filter_all; [reflexivity | |];
    intros y _; now rewrite nearby_b_negative.
Qed.

Lemma negative_negation_distance_disables_filter_witness :
  search_function.search_documents "rain" (Some scenario.three_spans) 80
    (TermsList ["spain"]) (-1) DateNone DateNone
  = search_function.search_documents "rain" (Some scenario.three_spans) 80
      TermsNone (-1) DateNone DateNone.
Proof.
  apply negative_negation_distance_disables_filter. reflexivity.
Defined.

(** ** What [search_documents_co_occurrence] returns *)

(** The value of the negation filter of the co-occurrence search when it
    does not raise. *)
Lemma co_negation_filter_value (df : list Row) (nts : list string) (nd : Q)
    (sr kept : list co_occurance_search.CoMatch) :
  co_occurance_search.negation_filter df nts nd sr = Ok kept ->
  kept = match nts, sr with
         | _ :: _, _ :: _ =>
             if 0 <? snd (spec.negations_found df nts)
             then loc (fun r : co_occurance_search.CoMatch => index r)
                      (map (fun r : co_occurance_search.CoMatch => index r) sr) sr
             else sr
         | _, _ => sr
         end.
Proof.
  unfold co_occurance_search.negation_filter.
  destruct nts as [| t0 nts]; [intros H; now injection H |].
  destruct sr as [| m0 sr]; [intros H; now injection H |].
  rewrite co_find_negations_found.
  unfold mbind, res_bind. cbv beta iota zeta.
  destruct (0 <? snd (spec.negations_found df (t0 :: nts))).
  - rewrite co_check_results.
    destruct (existsb _ (m0 :: sr)); [discriminate |].
    intros H. now injection H.
  - intros H. now injection H.
Qed.

Lemma co_negation_filter_in (df : list Row) (nts : list string) (nd : Q)
    (sr kept : list co_occurance_search.CoMatch) (m : co_occurance_search.CoMatch) :
  co_occurance_search.negation_filter df nts nd sr = Ok kept ->
  In m kept -> In m sr.
Proof.
  intros H Hin. rewrite (co_negation_filter_value _ _ _ _ _ H) in Hin.
  destruct nts; [exact Hin |]. destruct sr; [exact Hin |].
  destruct (0 <? _); [| exact Hin].
  now apply loc_in in Hin as [_ Hin].
Qed.

Lemma co_date_filter_in (sd ed : date_arg) (l : list co_occurance_search.CoMatch)
    (m : co_occurance_search.CoMatch) :
  In m (co_occurance_search.date_filter sd ed l) ->
  In m l
  /\ (forall s, sd = DateOk s -> exists d, date m = Some d /\ (s <= d)%Z)
  /\ (forall e, ed = DateOk e -> sd <> DateBad -> exists d, date m = Some d /\ (d <= e)%Z).
Proof.
  assert (Hge : forall s, search_function.date_ge (date m) s = true ->
                          exists d, date m = Some d /\ (s <= d)%Z).
  { intros s H. unfold search_function.date_ge in H.
    destruct (date m) as [d |]; [| discriminate]. exists d. split; [reflexivity |].
    now apply Z.leb_le. }
  assert (Hle : forall e, search_function.date_le (date m) e = true ->
                          exists d, date m = Some d /\ (d <= e)%Z).
  { intros e H. unfold search_function.date_le in H.
    destruct (date m) as [d |]; [| discriminate]. exists d. split; [reflexivity |].
    now apply Z.leb_le. }
  unfold co_occurance_search.date_filter.
  destruct sd as [| s |], ed as [| e |]; intros Hin;
    repeat match goal with
           | H : In _ (List.filter _ _) |- _ => apply filter_In in H as [H ?]
           end;
    (split; [assumption |]); split; intros x Hx; try discriminate Hx;
    try (intros Hbad; try (exfalso; now apply Hbad));
    injection Hx as <-; auto.
Qed.

(** X8.  Every result of [search_documents_co_occurrence] is a row of
    the corpus that holds one of the query terms as a whole word, tagged
    with that term; the count it carries is the number of distinct query
    terms on its page, which is at least [min_terms_required] and at most
    the number of terms; its date is not before the start date when one
    is given, and not after the end date when one is given and the start
    date, if given, could be parsed (both bounds are applied in one [try]:
    a start date that cannot be parsed leaves the end date unapplied). *)
Theorem co_occurrence_search_results
    (terms : list string) (min : Z) (csv_file : option (list Span))
    (negs : terms_arg) (nd : Q) (sd ed : date_arg)
    (out : list co_occurance_search.CoMatch) (m : co_occurance_search.CoMatch) :
  co_occurance_search.search_documents_co_occurrence terms min csv_file negs nd sd ed
  = Ok (Some out) ->
  In m out ->
  (exists lines (r : Row) (t : string) (ts : list string),
      csv_file = Some lines
      /\ In r (read_csv lines) /\ In t terms /\ spec.occurs_in t r
      /\ co_occurance_search.hit m = co_occurance_search.mkTermMatch r t "exact"
      /\ spec.page_terms terms (read_csv lines) (co_occurance_search.page_of r) ts
      /\ co_occurance_search.co_occurring_terms_count m = List.length ts
      /\ (min <= Z.of_nat (List.length ts))%Z
      /\ List.length ts <= List.length terms)
  /\ (forall s, sd = DateOk s -> exists d, date m = Some d /\ (s <= d)%Z)
  /\ (forall e, ed = DateOk e -> sd <> DateBad ->
                exists d, date m = Some d /\ (d <= e)%Z).
Proof.
  intros H Hin.
  destruct (co_search_stages _ _ _ _ _ _ _ _ H)
    as (lines & found & kept & -> & Hmin & Hc & Hn & Hne & ->).
  apply (Permutation_in _ (Permutation_sym (sort_values_perm _ _))) in Hin.
  apply co_date_filter_in in Hin as (Hin & Hs & He).
  split; [| now split].
  apply (co_negation_filter_in _ _ _ _ _ _ Hn) in Hin.
  destruct (co_occurrence_results terms min (read_csv lines)) as (f & Hf & Hall).
  rewrite Hc in Hf. injection Hf as <-.
  apply (Hall m) in Hin as (r & t & Hr & Ht & Hocc & Hcount & ->).
  rewrite (add_metadata_on_page _ _ _ _ Hr Ht Hocc). cbv zeta.
  set (ts := co_occurance_search.terms_present_on _ _) in *.
  pose proof (terms_present_page_terms (read_csv lines) terms
                (co_occurance_search.page_of r)) as Hpt.
  fold ts in Hpt.
  exists lines, r, t, ts.
  split; [reflexivity |]. split; [exact Hr |]. split; [exact Ht |].
  split; [exact Hocc |]. split; [reflexivity |]. split; [exact Hpt |].
  split; [reflexivity |]. split; [exact Hcount |].
  apply NoDup_incl_length; [apply Hpt |].
  intros x Hx. apply (proj2 Hpt) in Hx. apply Hx.
Qed.

Lemma co_occurrence_search_results_witness :
  exists lines (r : Row) (t : string) (ts : list string),
    Some scenario.alpha_beta_spans = Some lines
    /\ In r (read_csv lines) /\ In t ["alpha"; "beta"] /\ spec.occurs_in t r
    /\ co_occurance_search.hit
         (co_occurance_search.mkCoMatch
            (co_occurance_search.mkTermMatch
               (mkRow 0 (scenario.span "a.pdf" 1 0 "alpha" 0 0)) "alpha" "exact")
            2 "alpha, beta")
       = co_occurance_search.mkTermMatch r t "exact"
    /\ spec.page_terms ["alpha"; "beta"] (read_csv lines)
         (co_occurance_search.page_of r) ts
    /\ 2 = List.length ts
    /\ (2 <= Z.of_nat (List.length ts))%Z
    /\ List.length ts <= 2.
Proof.
  refine (proj1 (co_occurrence_search_results ["alpha"; "beta"] 2
                   (Some scenario.alpha_beta_spans) TermsNone 100 DateNone DateNone
                   scenario.alpha_beta_matches
                   (co_occurance_search.mkCoMatch
                      (co_occurance_search.mkTermMatch
                         (mkRow 0 (scenario.span "a.pdf" 1 0 "alpha" 0 0)) "alpha" "exact")
                      2 "alpha, beta") _ _)).
  - vm_compute. reflexivity.
  - left. reflexivity.
Defined.

(** ** Repeated labels under [.loc] *)

Lemma filter_flat_map {A B} (p : B -> bool) (f : A -> list B) (l : list A) :
  List.filter p (flat_map f l) = flat_map (fun x => List.filter p (f x)) l.
Proof.
  induction l as [| x l IH]; [reflexivity |]. simpl.
  now rewrite List.filter_app, IH.
Qed.

Lemma filter_filter_label {A} (label : A -> nat) (i j : nat) (df : list A) :
  List.filter (fun r => label r =? i) (List.filter (fun r => label r =? j) df)
  = if j =? i then List.filter (fun r => label r =? i) df else [].
Proof.
  destruct (Nat.eqb_spec j i) as [-> | Hne].
  - induction df as [| x df IH]; [reflexivity |]. simpl.
    destruct (label x =? i) eqn:E; simpl; [rewrite E |]; now rewrite IH.
  - apply filter_none. intros y Hy. apply filter_In in Hy as [_ Hy].
    apply Nat.eqb_eq in Hy. apply Nat.eqb_neq. congruence.
Qed.

(** The rows [.loc] gives for one label: as many copies of the rows that
    carry it as the list of labels names it. *)
Lemma loc_label_count {A} (label : A -> nat) (labels : list nat) (df : list A) (i : nat) :
  List.length (List.filter (fun r => label r =? i) (loc label labels df))
  = List.length (List.filter (fun j => j =? i) labels)
    * List.length (List.filter (fun r => label r =? i) df).
Proof.
  unfold loc. rewrite filter_flat_map.
  induction labels as [| j labels IH]; [reflexivity |].
  simpl. rewrite List.length_app, IH, filter_filter_label.
  destruct (j =? i); simpl; lia.
Qed.

Lemma filter_map_label {A} (label : A -> nat) (i : nat) (df : list A) :
  List.length (List.filter (fun j => j =? i) (map label df))
  = List.length (List.filter (fun r => label r =? i) df).
Proof.
  induction df as [| x df IH]; [reflexivity |]. simpl.
  destruct (label x =? i); simpl; now rewrite IH.
Qed.

Lemma perm_filter_length {A} (p : A -> bool) (l l' : list A) :
  Permutation l l' ->
  List.length (List.filter p l) = List.length (List.filter p l').
Proof.
  induction 1 as [| x l l' _ IH | x y l | l l' l'' _ IH1 _ IH2]; simpl.
  - reflexivity.
  - destruct (p x); simpl; now rewrite IH.
  - destruct (p x), (p y); reflexivity.
  - now rewrite IH1.
Qed.

Lemma negations_found_some (df : list Row) (nts : list string) (t : string) (o : Row) :
  In t nts -> In o df -> spec.occurs_in t o ->
  0 < snd (spec.negations_found df nts).
Proof.
  intros Ht Ho Hocc. apply occurs_in_b_iff in Hocc.
  destruct (snd (spec.negations_found df nts)) eqn:E; [| lia].
  rewrite (negations_found_none df nts E t o Ht Ho) in Hocc. discriminate.
Qed.

(** X9.  The negation filter of the co-occurrence search selects with
    [.loc] and the list of the labels it keeps, and the frame has one row
    per matched term, so rows share labels: when a negation term occurs in
    the corpus (and the call returns), a corpus row that matched [k] terms
    is reported [k * k] times, not [k] times. *)
Theorem co_occurrence_negation_multiplies_rows
    (terms : list string) (min : Z) (lines : list Span)
    (negs : terms_arg) (nd : Q)
    (found out : list co_occurance_search.CoMatch) (t : string) (o : Row) (i : nat) :
  co_occurance_search.co_occurrence terms min (read_csv lines) = Ok (Some found) ->
  co_occurance_search.search_documents_co_occurrence terms min (Some lines) negs nd
    DateNone DateNone = Ok (Some out) ->
  In t (search_function.negation_list negs) ->
  In o (read_csv lines) ->
  spec.occurs_in t o ->
  List.length (List.filter (fun m : co_occurance_search.CoMatch => index m =? i) out)
  = List.length (List.filter (fun m : co_occurance_search.CoMatch => index m =? i) found)
    * List.length (List.filter (fun m : co_occurance_search.CoMatch => index m =? i) found).
Proof.
  intros Hc H Ht Ho Hocc.
  destruct (co_search_stages _ _ _ _ _ _ _ _ H)
    as (lines' & found' & kept & Hl & Hmin & Hc' & Hn & Hne & ->).
  injection Hl as <-. rewrite Hc in Hc'. injection Hc' as <-.
  rewrite <- (perm_filter_length _ _ _ (sort_values_perm _ _)).
  change (co_occurance_search.date_filter DateNone DateNone kept) with kept in *.
  rewrite (co_negation_filter_value _ _ _ _ _ Hn).
  destruct (search_function.negation_list negs) as [| t0 nts] eqn:En; [contradiction |].
  destruct found as [| m0 found].
  { rewrite (co_negation_filter_value _ _ _ _ _ Hn) in Hne. now exfalso. }
  rewrite (proj2 (Nat.ltb_lt _ _) (negations_found_some _ _ t o Ht Ho Hocc)).
  now rewrite loc_label_count, filter_map_label.
Qed.

Lemma co_occurrence_negation_multiplies_rows_witness :
  exists out,
    co_occurance_search.search_documents_co_occurrence ["alpha"; "beta"] 2
      (Some [scenario.span "a.pdf" 1 0 "alpha beta" 0 0;
             scenario.span "b.pdf" 1 0 "gamma" 0 0])
      (TermsList ["gamma"]) 100 DateNone DateNone = Ok (Some out)
    /\ List.length (List.filter (fun m : co_occurance_search.CoMatch => index m =? 0) out)
       = 4.
Proof.
  eexists. split; [vm_compute; reflexivity |].
  refine (eq_trans
            (co_occurrence_negation_multiplies_rows ["alpha"; "beta"] 2
               [scenario.span "a.pdf" 1 0 "alpha beta" 0 0;
                scenario.span "b.pdf" 1 0 "gamma" 0 0]
               (TermsList ["gamma"]) 100 _ _ "gamma"
               (mkRow 1 (scenario.span "b.pdf" 1 0 "gamma" 0 0)) 0 _ _ _ _ _) _).
  - vm_compute. reflexivity.
  - vm_compute. reflexivity.
  - left. reflexivity.
  - right. left. reflexivity.
  - apply occurs_in_b_iff. vm_compute. reflexivity.
  - vm_compute. reflexivity.
Defined.

(* ================================================================== *)
(** * The names of the files *)
(* ================================================================== *)

(** ** Prefixes, suffixes and replacement *)

Lemma starts_with_app (p s t : list ascii) :
  py.starts_with p s = true -> py.starts_with p (s ++ t) = true.
Proof.
  intros H. apply starts_with_iff in H as [post ->].
  apply starts_with_iff. exists (post ++ t). now rewrite app_assoc.
Qed.

Lemma starts_with_long (p s t : list ascii) :
  List.length p <= List.length s ->
  py.starts_with p (s ++ t) = py.starts_with p s.
Proof.
  revert s. induction p as [| a p IH]; intros s Hl; [reflexivity |].
  destruct s as [| b s]; [simpl in Hl; lia |].
  simpl. rewrite IH; [reflexivity | simpl in Hl; lia].
Qed.

Lemma ends_with_app (suf a b : list ascii) :
  py.ends_with suf b = true -> py.ends_with suf (a ++ b) = true.
Proof.
  unfold py.ends_with. rewrite rev_app_distr. apply starts_with_app.
Qed.

Lemma ends_with_self (suf a : list ascii) : py.ends_with suf (a ++ suf) = true.
Proof.
  unfold py.ends_with. rewrite rev_app_distr.
  apply starts_with_iff. now exists (rev a).
Qed.

Lemma replace_from_skip (old new x s : list ascii) :
  py.replace_from old new (List.length x) (x ++ s) = py.replace_from old new 0 s.
Proof.
  induction x as [| c x IH]; simpl; [| exact IH].
  destruct s; reflexivity.
Qed.

(** An occurrence at the head is replaced, and the replacement goes on
    after it. *)
Lemma replace_prefix (old new s : list ascii) :
  old <> [] -> py.replace old new (old ++ s) = new ++ py.replace old new s.
Proof.
  intros Hne. unfold py.replace.
  destruct old as [| c old]; [congruence |].
  cbn [app py.replace_from].
  assert (H : py.starts_with (c :: old) (c :: old ++ s) = true).
  { apply starts_with_iff. now exists s. }
  rewrite H. cbn [List.length]. rewrite Nat.sub_succ, Nat.sub_0_r.
  now rewrite replace_from_skip.
Qed.

(** Without an occurrence nothing changes. *)
Lemma replace_absent (old new s : list ascii) :
  py.contains old s = false -> py.replace old new s = s.
Proof.
  unfold py.replace. induction s as [| c s IH]; [reflexivity |].
  intros H. cbn [py.contains] in H. apply orb_false_iff in H as [H1 H2].
  cbn [py.replace_from]. rewrite H1. now rewrite IH.
Qed.

(** Removing [old] from [name ++ old], when no occurrence of [old] starts
    inside [name]. *)
Lemma replace_suffix (o : list ascii) (z : ascii) (name : list ascii) :
  py.contains (o ++ [z]) (name ++ o) = false ->
  py.replace (o ++ [z]) [] (name ++ o ++ [z]) = name.
Proof.
  assert (Hne : o ++ [z] <> []) by (destruct o; discriminate).
  induction name as [| c name IH]; intros H.
  - cbn [app]. rewrite <- (app_nil_r (o ++ [z])) at 2.
    now rewrite (replace_prefix _ _ _ Hne).
  - cbn [app py.contains] in H. apply orb_false_iff in H as [H1 H2].
    unfold py.replace in *. cbn [app py.replace_from].
    replace (c :: name ++ o ++ [z]) with ((c :: name ++ o) ++ [z])
      by (cbn [app]; now rewrite <- app_assoc).
    rewrite starts_with_long, H1.
    + f_equal. now apply IH.
    + cbn [List.length]. rewrite !List.length_app. cbn [List.length]. lia.
Qed.

Lemma replace_Forall (P : ascii -> Prop) (old new s : list ascii) (k : nat) :
  Forall P new -> Forall P s -> Forall P (py.replace_from old new k s).
Proof.
  intros Hn Hs. revert k. induction Hs as [| c s Hc Hs IH]; intros k; [constructor |].
  cbn [py.replace_from]. destruct k as [| k]; [| apply IH].
  destruct (py.starts_with old (c :: s)).
  - apply Forall_app. split; [exact Hn | apply IH].
  - constructor; [exact Hc | apply IH].
Qed.

(** ** Paths *)

Lemma basename_from_slash (a f cur : list ascii) :
  pdf_highlighter.basename_from cur (a ++ "/"%char :: f)
  = pdf_highlighter.basename_from [] f.
Proof.
  revert cur. induction a as [| c a IH]; intros cur; simpl.
  - reflexivity.
  - destruct (Ascii.eqb c "/"); apply IH.
Qed.

Lemma basename_from_plain (f cur : list ascii) :
  existsb (Ascii.eqb "/") f = false ->
  pdf_highlighter.basename_from cur f = rev cur ++ f.
Proof.
  revert cur. induction f as [| c f IH]; intros cur H; simpl.
  - now rewrite app_nil_r.
  - cbn [existsb] in H. apply orb_false_iff in H as [H1 H2].
    rewrite Ascii.eqb_sym in H1. rewrite H1, (IH _ H2). cbn [rev].
    now rewrite <- app_assoc.
Qed.

Lemma basename_from_length (f cur : list ascii) :
  List.length (pdf_highlighter.basename_from cur f) <= List.length cur + List.length f.
Proof.
  revert cur. induction f as [| c f IH]; intros cur; simpl.
  - rewrite length_rev. lia.
  - destruct (Ascii.eqb c "/").
    + specialize (IH []). simpl in IH. lia.
    + specialize (IH (c :: cur)). simpl in IH. lia.
Qed.

Lemma ends_with_slash (a : list ascii) :
  py.ends_with ["/"%char] a = true -> exists a', a = a' ++ ["/"%char].
Proof.
  unfold py.ends_with. intros H. apply starts_with_iff in H as [post H].
  exists (rev post). rewrite <- (rev_involutive a), H. reflexivity.
Qed.

(** The three shapes of a joined path. *)
Lemma path_join_cases (d f : string) :
  pdf_highlighter.path_join d f = f
  \/ (exists a, py.chars (pdf_highlighter.path_join d f) = a ++ "/"%char :: py.chars f).
Proof.
  unfold pdf_highlighter.path_join.
  destruct (py.starts_with ["/"%char] (py.chars f)); [now left |].
  destruct (py.eqb_chars (py.chars d) []) eqn:Ee.
  - left. unfold py.eqb_chars in Ee.
    destruct (list_eq_dec ascii_dec (py.chars d) []) as [E |]; [| discriminate].
    simpl. rewrite E. simpl. apply str_chars.
  - simpl. destruct (py.ends_with ["/"%char] (py.chars d)) eqn:Es.
    + right. apply ends_with_slash in Es as [a' Ea]. exists a'.
      rewrite chars_str, Ea, <- app_assoc. reflexivity.
    + right. exists (py.chars d). now rewrite chars_str.
Qed.

(** The file name of a joined path is the file name of its second part. *)
Lemma basename_path_join (d f : string) :
  pdf_highlighter.basename (pdf_highlighter.path_join d f) = pdf_highlighter.basename f.
Proof.
  unfold pdf_highlighter.basename.
  destruct (path_join_cases d f) as [-> | [a ->]]; [reflexivity |].
  apply basename_from_slash.
Qed.

Lemma path_join_ends_with (suf : list ascii) (d f : string) :
  py.ends_with suf (py.chars f) = true ->
  py.ends_with suf (py.chars (pdf_highlighter.path_join d f)) = true.
Proof.
  intros H. destruct (path_join_cases d f) as [-> | [a ->]]; [exact H |].
  apply (ends_with_app suf a ("/"%char :: py.chars f)).
  now apply (ends_with_app suf ["/"%char] (py.chars f)).
Qed.

(** ** The path of the highlighted PDF *)

(** X10.  The path [highlight_search_results] writes to always ends in
    [.pdf]: a custom name gets the extension unless it has it, the
    default name is built with it. *)
Theorem output_pdf_path_ends_with_pdf
    (csv_path output_directory : string) (available : bool)
    (custom_pdf_name : option string) :
  py.ends_with (py.chars ".pdf")
    (py.chars (io.output_pdf_path csv_path output_directory available custom_pdf_name))
  = true.
Proof.
  unfold io.output_pdf_path.
  destruct (py.truthy custom_pdf_name).
  - apply path_join_ends_with. rewrite chars_str.
    destruct (py.ends_with (py.chars ".pdf") (py.chars (default "" custom_pdf_name)))
      eqn:E; cbn [negb]; [exact E | apply ends_with_self].
  - destruct (py.starts_with _ _); cbn [negb];
      apply path_join_ends_with; rewrite chars_str.
    + apply ends_with_self.
    + rewrite app_assoc. apply ends_with_self.
Qed.

(** The default name of the PDF, for a file of results called
    [prefix ++ name ++ ".csv"] in any directory. *)
Lemma default_pdf_name (dir_csv : string) (name : list ascii)
    (output_directory : string) (available : bool) :
  existsb (Ascii.eqb "/") name = false ->
  py.contains (py.chars "search_results_") (name ++ py.chars ".csv") = false ->
  py.contains (py.chars ".csv") (name ++ py.chars ".cs") = false ->
  io.output_pdf_path
    (pdf_highlighter.path_join dir_csv
       (py.str (py.chars "search_results_" ++ name ++ py.chars ".csv")))
    output_directory available None
  = pdf_highlighter.path_join (io.directory_used output_directory available)
      (py.str (if py.starts_with (py.chars "highlighted_") name
               then name ++ py.chars ".pdf"
               else py.chars "highlighted_" ++ name ++ py.chars ".pdf")).
Proof.
  intros Hslash Hsr Hcsv. unfold io.output_pdf_path. cbn [py.truthy].
  rewrite basename_path_join. unfold pdf_highlighter.basename.
  rewrite chars_str, basename_from_plain.
  2:{ rewrite existsb_app. cbn [py.chars]. rewrite existsb_app, Hslash. reflexivity. }
  cbn [rev app].
  change (py.chars "search_results_" ++ name ++ py.chars ".csv")
    with (py.chars "search_results_" ++ (name ++ py.chars ".csv")).
  rewrite replace_prefix by discriminate. cbn [app].
  rewrite (replace_absent _ _ _ Hsr).
  assert (E : py.replace (py.chars ".csv") [] (name ++ py.chars ".csv") = name)
    by exact (replace_suffix (py.chars ".cs") "v"%char name Hcsv).
  rewrite !E.
  now destruct (py.starts_with (py.chars "highlighted_") name).
Qed.

(** X11.  The default name of the PDF follows the file of results that
    [save_search_results] wrote: [search_results_NAME.csv] gives
    [highlighted_NAME.pdf] (or [NAME.pdf] when NAME starts with
    [highlighted_]), provided NAME has no path separator and the two
    strings the renderer removes occur nowhere else in the file name. *)
Theorem pdf_name_follows_search_results
    (search_term : string) (negation_terms : terms_arg)
    (csv_directory : string) (csv_available : bool) (date_range_str : string)
    (output_directory : string) (available : bool) :
  let name := io.search_term_filename search_term negation_terms date_range_str in
  existsb (Ascii.eqb "/") name = false ->
  py.contains (py.chars "search_results_") (name ++ py.chars ".csv") = false ->
  py.contains (py.chars ".csv") (name ++ py.chars ".cs") = false ->
  io.output_pdf_path
    (io.save_search_results search_term negation_terms csv_directory csv_available
                            date_range_str)
    output_directory available None
  = pdf_highlighter.path_join (io.directory_used output_directory available)
      (py.str (if py.starts_with (py.chars "highlighted_") name
               then name ++ py.chars ".pdf"
               else py.chars "highlighted_" ++ name ++ py.chars ".pdf")).
Proof.
  intros name H1 H2 H3. unfold io.save_search_results. fold name.
  now apply default_pdf_name.
Qed.

Lemma pdf_name_follows_search_results_witness :
  io.output_pdf_path
    (io.save_search_results "heavy rain" (TermsList ["no"; "not any"]) "out" true
       (io.date_range_str (Some "1936-01-01") None))
    "out" true None
  = "out/highlighted_heavy_rain_not_no_not_any_from_1936-01-01.pdf".
Proof.
  refine (eq_trans
            (pdf_name_follows_search_results "heavy rain" (TermsList ["no"; "not any"])
               "out" true (io.date_range_str (Some "1936-01-01") None) "out" true
               _ _ _) _);
    vm_compute; reflexivity.
Defined.

(** ** The file of co-occurrence results *)

Lemma filename_base_length (terms : list string) (min : Z) (negs : terms_arg)
    (drs : string) :
  List.length (io.filename_base terms min negs drs) <= 150.
Proof.
  unfold io.filename_base.
  match goal with
  | |- context [if 150 <? List.length ?l then _ else _] =>
      destruct (Nat.ltb_spec 150 (List.length l)) as [H | H]
  end.
  - apply firstn_le_length.
  - exact H.
Qed.

(** X12.  The name of the file of co-occurrence results has at most 154
    characters, however many and however long the terms, the negation
    terms and the dates are. *)
Theorem co_occurrence_file_name_bounded
    (terms : list string) (min_terms_required : Z) (negation_terms : terms_arg)
    (output_directory : string) (available : bool) (date_range_str : string) :
  List.length
    (pdf_highlighter.basename
       (io.save_co_occurrence_results terms min_terms_required negation_terms
          output_directory available date_range_str))
  <= 154.
Proof.
  unfold io.save_co_occurrence_results. rewrite basename_path_join.
  unfold pdf_highlighter.basename. rewrite chars_str.
  pose proof (basename_from_length
                (io.filename_base terms min_terms_required negation_terms date_range_str
                 ++ py.chars ".csv") []) as H.
  rewrite List.length_app in H.
  pose proof (filename_base_length terms min_terms_required negation_terms
                date_range_str).
  simpl in H. simpl. lia.
Qed.

(** ** The list of terms read from a file *)

Lemma lstrip_app_last (x : list ascii) (c : ascii) :
  py.is_space c = false -> py.lstrip (x ++ [c]) = py.lstrip x ++ [c].
Proof.
  intros Hc. induction x as [| a x IH]; simpl; [now rewrite Hc |].
  destruct (py.is_space a); [exact IH | reflexivity].
Qed.

Lemma lstrip_idem (s : list ascii) : py.lstrip (py.lstrip s) = py.lstrip s.
Proof.
  induction s as [| c s IH]; [reflexivity |]. simpl.
  destruct (py.is_space c) eqn:E; [exact IH |]. simpl. now rewrite E.
Qed.

Lemma lstrip_head (s : list ascii) :
  py.lstrip s = []
  \/ exists c r, py.lstrip s = c :: r /\ py.is_space c = false.
Proof.
  induction s as [| c s IH]; [now left |]. simpl.
  destruct (py.is_space c) eqn:E; [exact IH |]. right. now exists c, s.
Qed.

(** A stripped string is empty, or starts and ends with a character that
    is not white space: stripping it again, on either side, changes
    nothing. *)
Lemma strip_fixed (s : list ascii) :
  py.lstrip (py.strip s) = py.strip s /\ py.rstrip (py.strip s) = py.strip s.
Proof.
  unfold py.strip.
  split.
  - destruct (lstrip_head s) as [-> | (c & r & -> & Hc)]; [reflexivity |].
    unfold py.rstrip. cbn [rev]. rewrite (lstrip_app_last _ _ Hc).
    rewrite rev_app_distr. cbn [rev app]. cbn [py.lstrip]. now rewrite Hc.
  - unfold py.rstrip. rewrite rev_involutive, lstrip_idem. reflexivity.
Qed.

(** X13.  The terms [load_terms_from_file] returns are the stripped
    non-blank lines of the file: none is empty, none starts or ends with
    white space (the line end included). *)
Theorem load_terms_from_file_stripped (file : option (list string)) (t : string) :
  In t (io.load_terms_from_file file) ->
  t <> ""
  /\ py.lstrip (py.chars t) = py.chars t
  /\ py.rstrip (py.chars t) = py.chars t
  /\ exists f line, file = Some f /\ In line f /\ t = py.str (py.strip (py.chars line)).
Proof.
  unfold io.load_terms_from_file. destruct file as [f |]; [| contradiction].
  intros Hin.
  assert (Hin' : In t (map (fun line => py.str (py.strip (py.chars line)))
                           (List.filter
                              (fun line => negb (py.eqb_chars (py.strip (py.chars line)) []))
                              f))).
  { destruct (map _ _); [contradiction | exact Hin]. }
  clear Hin. apply in_map_iff in Hin' as (line & <- & Hl).
  apply filter_In in Hl as [Hl Hne].
  rewrite chars_str. destruct (strip_fixed (py.chars line)) as [H1 H2].
  split; [| split; [exact H1 | split; [exact H2 |]]].
  - intros E. apply (f_equal py.chars) in E. rewrite chars_str in E.
    rewrite E in Hne. discriminate Hne.
  - now exists f, line.
Qed.

Lemma load_terms_from_file_stripped_witness :
  "heavy rain" <> ""
  /\ py.lstrip (py.chars "heavy rain") = py.chars "heavy rain"
  /\ py.rstrip (py.chars "heavy rain") = py.chars "heavy rain"
  /\ exists f line,
       Some ["  heavy rain " ++ String (ascii_of_nat 10) EmptyString;
             String (ascii_of_nat 10) EmptyString; "flood"]%string = Some f
       /\ In line f /\ "heavy rain" = py.str (py.strip (py.chars line)).
Proof.
  apply (load_terms_from_file_stripped
           (Some ["  heavy rain " ++ String (ascii_of_nat 10) EmptyString;
                  String (ascii_of_nat 10) EmptyString; "flood"]%string)).
  vm_compute. left. reflexivity.
Defined.

(* ================================================================== *)
(** * Further properties of the renderer *)
(* ================================================================== *)

(** ** The temporary files and the files that stay *)

Lemma existsb_false_Forall {A} (p : A -> bool) (l : list A) :
  existsb p l = false <-> Forall (fun x => p x = false) l.
Proof.
  induction l as [| x l IH]; simpl.
  - split; [constructor | reflexivity].
  - rewrite orb_false_iff, IH. split.
    + intros [H1 H2]. now constructor.
    + intros H. inversion H; subst. now split.
Qed.

(** The temporary file of a source named without a separator is one that
    [glob.glob("_tmp_*.pdf")] finds. *)
Lemma temp_path_is_tmp_pdf (f : string) :
  existsb (Ascii.eqb "/") (py.chars f) = false ->
  pdf_highlighter.is_tmp_pdf (pdf_highlighter.temp_path_of f) = true.
Proof.
  intros H. unfold pdf_highlighter.is_tmp_pdf, pdf_highlighter.temp_path_of.
  rewrite chars_str.
  set (X := py.replace _ _ (py.replace _ _ (py.replace _ _ _))).
  assert (HX : existsb (Ascii.eqb "/") X = false).
  { apply existsb_false_Forall. unfold X, py.replace.
    apply replace_Forall; [constructor |].
    apply replace_Forall; [constructor |].
    apply replace_Forall; [repeat constructor |].
    now apply existsb_false_Forall. }
  rewrite !existsb_app, HX, !List.length_app.
  apply andb_true_iff; split; [apply andb_true_iff; split;
                               [apply andb_true_iff; split |] |].
  - reflexivity.
  - apply Nat.leb_le. simpl. lia.
  - apply starts_with_iff. now exists (X ++ py.chars ".pdf").
  - rewrite app_assoc. apply ends_with_self.
Qed.

Lemma unique_filenames_in (res : pdf_highlighter.Results) (g : string) :
  In g (pdf_highlighter.unique_filenames res) ->
  exists h, In h (pdf_highlighter.lines res) /\ pdf_highlighter.filename h = g.
Proof.
  unfold pdf_highlighter.unique_filenames, drop_duplicates. intros H.
  apply drop_duplicates_from_in in H. apply in_map_iff in H as (h & Hh & Hin).
  now exists h.
Qed.

(** X14.  When no file name of the results holds a path separator, a
    call of [highlight_search_results] that reaches the loop leaves the
    file system as it was, but for the output file and the files called
    [_tmp_*.pdf], which are all gone: no temporary file stays, and no other
    file is removed. *)
Theorem highlight_leaves_only_the_output
    (e : pdf_highlighter.env) (res : pdf_highlighter.Results)
    (base_folder output_pdf_path : string) (add_watermarks add_bookmarks : bool)
    (fs : gset string) :
  0 < List.length (pdf_highlighter.lines res) ->
  forallb (fun h => negb (existsb (Ascii.eqb "/")
                            (py.chars (pdf_highlighter.filename h))))
          (pdf_highlighter.lines res) = true ->
  let r := pdf_highlighter.highlight_search_results
             e (Some res) base_folder output_pdf_path
             add_watermarks add_bookmarks fs in
  (forall p, p ∈ snd r -> (p ∈ fs \/ p = pdf_highlighter.resolve e output_pdf_path)
                          /\ pdf_highlighter.is_tmp_pdf p = false)
  /\ (forall p, p ∈ fs -> pdf_highlighter.is_tmp_pdf p = false -> p ∈ snd r).
Proof.
  intros Hlen Hnames r. subst r.
  assert (Hne : pdf_highlighter.lines res <> []).
  { intros E. rewrite E in Hlen. simpl in Hlen. lia. }
  rewrite (highlight_value e res base_folder output_pdf_path
             add_watermarks add_bookmarks fs Hne).
  set (names := pdf_highlighter.unique_filenames res).
  set (st0 := pdf_highlighter.mkState fs [] [] [] 0 0).
  destruct (process_files_files e res base_folder add_watermarks add_bookmarks
              fs names names st0)
    as (Hsub & Hsup & Htemps); [apply incl_refl | auto | auto | intros t [] |].
  cbn zeta in *. set (st := fold_left _ names st0) in *.
  assert (Htmp : forall g, In g names ->
                   pdf_highlighter.is_tmp_pdf (pdf_highlighter.temp_path_of g) = true).
  { intros g Hg. apply unique_filenames_in in Hg as (h & Hh & <-).
    apply temp_path_is_tmp_pdf.
    rewrite forallb_forall in Hnames. specialize (Hnames h Hh).
    now apply negb_true_iff in Hnames. }
  assert (Hgen : forall fs' : gset string,
             (forall p, p ∈ fs' -> p ∈ pdf_highlighter.files st
                                   \/ p = pdf_highlighter.resolve e output_pdf_path) ->
             (forall p, p ∈ pdf_highlighter.files st -> p ∈ fs') ->
             (forall p, p ∈ pdf_highlighter.cleanup e (pdf_highlighter.temp_files st) fs' ->
                        (p ∈ fs \/ p = pdf_highlighter.resolve e output_pdf_path)
                        /\ pdf_highlighter.is_tmp_pdf p = false)
             /\ (forall p, p ∈ fs -> pdf_highlighter.is_tmp_pdf p = false ->
                           p ∈ pdf_highlighter.cleanup e (pdf_highlighter.temp_files st)
                                 fs')).
  { intros fs' Hin Hout. split.
    - intros p Hp. apply cleanup_in in Hp as (Hp & _ & Hno).
      split; [| exact Hno].
      apply Hin in Hp as [Hp | Hp]; [| now right].
      apply Hsup in Hp as [Hp | (g & Hg & ->)]; [now left |].
      rewrite (tmp_pdf_entry e _ (Htmp g Hg)), (Htmp g Hg) in Hno. discriminate.
    - intros p Hp Hno. apply cleanup_in. split; [apply Hout, Hsub, Hp |].
      split; [| exact Hno].
      intros Ht. apply in_map_iff in Ht as (t & <- & Ht).
      apply Htemps in Ht as (g & Hg & ->).
      rewrite (tmp_pdf_entry e _ (Htmp g Hg)), (Htmp g Hg) in Hno. discriminate. }
  destruct (0 <? pdf_highlighter.processed_count st);
    [destruct (pdf_highlighter.write_fails e) |]; cbn [snd]; apply Hgen; auto.
  - intros p Hp. apply elem_of_union in Hp as [Hp | Hp]; [| now left].
    right. now apply elem_of_singleton in Hp.
  - intros p Hp. apply elem_of_union. now right.
Qed.

Lemma highlight_leaves_only_the_output_witness :
  (forall p,
      p ∈ snd (pdf_highlighter.highlight_search_results
                 scenario.render_env (Some scenario.render_results) "pdfs"
                 "out/highlighted_rain.pdf" true true scenario.render_files) ->
      (p ∈ scenario.render_files
       \/ p = pdf_highlighter.resolve scenario.render_env "out/highlighted_rain.pdf")
      /\ pdf_highlighter.is_tmp_pdf p = false)
  /\ (forall p,
        p ∈ scenario.render_files -> pdf_highlighter.is_tmp_pdf p = false ->
        p ∈ snd (pdf_highlighter.highlight_search_results
                   scenario.render_env (Some scenario.render_results) "pdfs"
                   "out/highlighted_rain.pdf" true true scenario.render_files)).
Proof.
  apply (highlight_leaves_only_the_output
           scenario.render_env scenario.render_results "pdfs"
           "out/highlighted_rain.pdf" true true scenario.render_files).
  - simpl. lia.
  - vm_compute. reflexivity.
Defined.

(** ** The pages and the outline *)

(** What one turn of the loop does to the merged document: nothing, or
    the pages of the source document appended, with an outline entry when
    bookmarks are asked for and the entry can be written. *)
Lemma process_file_pages (e : pdf_highlighter.env) (res : pdf_highlighter.Results)
    (base : string) (wm bm : bool) (st : pdf_highlighter.state) (f : string) :
  let st' := pdf_highlighter.process_file e res base wm bm st f in
  (pdf_highlighter.pdf_writer st' = pdf_highlighter.pdf_writer st
   /\ pdf_highlighter.outline st' = pdf_highlighter.outline st
   /\ pdf_highlighter.processed_count st' = pdf_highlighter.processed_count st)
  \/ (pdf_highlighter.pdf_writer st'
      = pdf_highlighter.pdf_writer st ++ spec.pages_of e res base wm f
      /\ (pdf_highlighter.outline st' = pdf_highlighter.outline st
          \/ (bm = true
              /\ pdf_highlighter.outline st'
                 = pdf_highlighter.outline st
                   ++ [(pdf_highlighter.display_name f,
                        List.length (pdf_highlighter.pdf_writer st)
                        + pdf_highlighter.more_pages e f)]))
      /\ (pdf_highlighter.processed_count st' = pdf_highlighter.processed_count st + 1
          \/ (pdf_highlighter.processed_count st' = pdf_highlighter.processed_count st
              /\ bm = true
              /\ pdf_highlighter.fault_of e f
                 = Some (pdf_highlighter.AtBookmark false)))).
Proof.
  cbn zeta. unfold pdf_highlighter.process_file, spec.pages_of.
  destruct (negb (pdf_highlighter.file_at _ _ _)); [left; auto |].
  assert (Hn : forall (l : list pdf_highlighter.Page) x y n,
             List.length (l ++ x :: repeat y n) - 1 = List.length l + n).
  { intros l x y n. rewrite List.length_app. cbn [List.length].
    rewrite repeat_length. lia. }
  destruct (pdf_highlighter.fault_of e f) as [[| | [] | | []] |], bm;
    cbn [pdf_highlighter.pdf_writer pdf_highlighter.outline
         pdf_highlighter.processed_count];
    rewrite ?Hn; auto 10.
Qed.





Lemma last_page_of (f : string) (page : pdf_highlighter.Page) (n : nat) :
  pdf_highlighter.source page = f ->
  exists pg, nth_error (page :: repeat (pdf_highlighter.mkPage f [] None) n) n = Some pg
             /\ pdf_highlighter.source pg = f.
Proof.
  intros Hp. destruct n as [| n]; [exists page; auto |].
  exists (pdf_highlighter.mkPage f [] None). split; [| reflexivity].
  cbn [nth_error]. apply nth_error_repeat. lia.
Qed.

(** The invariant of the loop on the outline and the counts. *)
Lemma process_files_outline (e : pdf_highlighter.env) (res : pdf_highlighter.Results)
    (base : string) (wm bm : bool) (names : list string) (st : pdf_highlighter.state) :
  let inv (s : pdf_highlighter.state) :=
    pdf_highlighter.processed_count s <= List.length (pdf_highlighter.pdf_writer s)
    /\ ((bm = false \/ forall f, pdf_highlighter.fault_of e f
                                 <> Some (pdf_highlighter.AtBookmark false)) ->
        (forall f, pdf_highlighter.more_pages e f = 0) ->
        pdf_highlighter.processed_count s = List.length (pdf_highlighter.pdf_writer s))
    /\ (bm = false -> pdf_highlighter.outline s = [])
    /\ (forall title n,
          In (title, n) (pdf_highlighter.outline s) ->
          exists pg, nth_error (pdf_highlighter.pdf_writer s) n = Some pg
                     /\ title = pdf_highlighter.display_name (pdf_highlighter.source pg)) in
  inv st -> inv (fold_left (pdf_highlighter.process_file e res base wm bm) names st).
Proof.
  cbn zeta. revert st. induction names as [| f names IH]; intros st Hinv; [exact Hinv |].
  cbn [fold_left]. apply IH. clear IH.
  destruct Hinv as (Hle & Heq & Hno & Hout).
  destruct (process_file_pages e res base wm bm st f)
    as [(Hp & Ho & Hc) | (Hp & Ho & Hc)]; cbn zeta in *; rewrite Hp.
  - rewrite Ho, Hc. auto.
  - unfold spec.pages_of. rewrite List.length_app. cbn [List.length].
    rewrite repeat_length. repeat split.
    + destruct Hc as [-> | (-> & _)]; lia.
    + intros Hok Hone. rewrite (Hone f). destruct Hc as [-> | (_ & Hbm & Hf)].
      * rewrite (Heq Hok Hone). lia.
      * exfalso. destruct Hok as [Hok | Hok]; [congruence | now apply (Hok f)].
    + intros Hbm. destruct Ho as [-> | (Hbm' & _)]; [now apply Hno | congruence].
    + intros title n Hin.
      set (pages := _ :: repeat _ _).
      assert (Hold : In (title, n) (pdf_highlighter.outline st) ->
                     exists pg, nth_error (pdf_highlighter.pdf_writer st ++ pages) n
                                = Some pg
                                /\ title = pdf_highlighter.display_name
                                             (pdf_highlighter.source pg)).
      { intros H. destruct (Hout title n H) as (pg & Hn & Ht).
        exists pg. split; [| exact Ht].
        rewrite nth_error_app1; [exact Hn |].
        apply nth_error_Some. congruence. }
      destruct Ho as [Ho | (_ & Ho)]; rewrite Ho in Hin; [now apply Hold |].
      apply in_app_or in Hin as [Hin | [Hin | []]]; [now apply Hold |].
      injection Hin as <- <-.
      rewrite nth_error_app2 by lia.
      replace (_ + _ - _) with (pdf_highlighter.more_pages e f) by lia.
      destruct (last_page_of f
                  (pdf_highlighter.mkPage f
                     (map (pdf_highlighter.highlight_of e res)
                        (List.filter
                           (fun h => String.eqb (pdf_highlighter.filename h) f)
                           (pdf_highlighter.lines res)))
                     (if wm
                      then Some (pdf_highlighter.display_name
                                   (pdf_highlighter.path_join base f))
                      else None))
                  (pdf_highlighter.more_pages e f) eq_refl) as (pg & Hpg & Hsrc).
      exists pg. split; [exact Hpg | now rewrite Hsrc].
Qed.

(** X16.  Every entry of the outline points at the page of the document
    it is named after (the file name without directory and extension), and
    there is no entry at all when bookmarks are not asked for. *)
Theorem bookmarks_point_at_their_documents
    (e : pdf_highlighter.env) (res : pdf_highlighter.Results)
    (base_folder output_pdf_path : string) (add_watermarks add_bookmarks : bool)
    (fs : gset string) :
  let st := snd (pdf_highlighter.render e res base_folder output_pdf_path
                   add_watermarks add_bookmarks fs) in
  (forall title n,
      In (title, n) (pdf_highlighter.outline st) ->
      exists pg, nth_error (pdf_highlighter.pdf_writer st) n = Some pg
                 /\ title = pdf_highlighter.display_name (pdf_highlighter.source pg))
  /\ (add_bookmarks = false -> pdf_highlighter.outline st = []).
Proof.
  cbn zeta.
  destruct (process_files_outline e res base_folder add_watermarks add_bookmarks
              (pdf_highlighter.unique_filenames res)
              (pdf_highlighter.mkState fs [] [] [] 0 0))
    as (_ & _ & Hno & Hout).
  { cbn. repeat split; auto. intros title n []. }
  unfold pdf_highlighter.render.
  destruct (0 <? _); [destruct (pdf_highlighter.write_fails e) |];
    cbn [snd pdf_highlighter.pdf_writer pdf_highlighter.outline]; now split.
Qed.

(** X17.  The number the function reports as its page count is the
    number of documents processed: it is positive and never more than the
    number of pages of the merged document, and it is that number when
    every source document has a single page, unless bookmarks are asked
    for and writing an outline entry raises an exception that the fallback
    does not catch (the pages of such a document are in the output, but
    the document is not counted). *)
Theorem reported_pages_count
    (e : pdf_highlighter.env) (res : pdf_highlighter.Results)
    (base_folder output_pdf_path : string) (add_watermarks add_bookmarks : bool)
    (fs : gset string) (path : string) (pages highlights : nat)
    (st : pdf_highlighter.state) :
  pdf_highlighter.render e res base_folder output_pdf_path
    add_watermarks add_bookmarks fs
  = (pdf_highlighter.Returned (Some path) pages highlights, st) ->
  path = output_pdf_path
  /\ 0 < pages <= List.length (pdf_highlighter.pdf_writer st)
  /\ ((add_bookmarks = false
       \/ forall f, pdf_highlighter.fault_of e f
                    <> Some (pdf_highlighter.AtBookmark false)) ->
      (forall f, pdf_highlighter.more_pages e f = 0) ->
      pages = List.length (pdf_highlighter.pdf_writer st)).
Proof.
  destruct (process_files_outline e res base_folder add_watermarks add_bookmarks
              (pdf_highlighter.unique_filenames res)
              (pdf_highlighter.mkState fs [] [] [] 0 0))
    as (Hle & Heq & _ & _).
  { cbn. repeat split; auto. intros title n []. }
  unfold pdf_highlighter.render. cbv zeta in *.
  set (stf := fold_left _ (pdf_highlighter.unique_filenames res) _) in *.
  destruct (Nat.ltb_spec 0 (pdf_highlighter.processed_count stf))
    as [Hpos | Hz]; [| discriminate].
  destruct (pdf_highlighter.write_fails e); [discriminate |].
  intros H. injection H as <- <- <- <-.
  cbn [pdf_highlighter.pdf_writer]. repeat split; auto.
Qed.

Lemma reported_pages_count_witness :
  exists st,
    pdf_highlighter.render scenario.two_page_env scenario.render_results "pdfs"
      "out/highlighted_rain.pdf" true true scenario.render_files
    = (pdf_highlighter.Returned (Some "out/highlighted_rain.pdf") 1 2, st)
    /\ List.length (pdf_highlighter.pdf_writer st) = 2
    /\ 0 < 1 <= List.length (pdf_highlighter.pdf_writer st).
Proof.
  eexists. split; [vm_compute; reflexivity |]. split; [reflexivity |].
  apply (reported_pages_count scenario.two_page_env scenario.render_results "pdfs"
           "out/highlighted_rain.pdf" true true scenario.render_files
           "out/highlighted_rain.pdf" 1 2).
  vm_compute. reflexivity.
Defined.

(** ** The display name *)

(** X18.  The name shown in the watermark and in the outline is the file
    name without its directory and without the extension [.pdf], in any
    case of the letters. *)
Theorem display_name_strips_directory_and_extension
    (directory : string) (name ext : list ascii) :
  existsb (Ascii.eqb "/") (name ++ ext) = false ->
  py.lower ext = py.chars ".pdf" ->
  pdf_highlighter.display_name
    (pdf_highlighter.path_join directory (py.str (name ++ ext)))
  = py.str name.
Proof.
  intros Hs He. unfold pdf_highlighter.display_name.
  rewrite basename_path_join. unfold pdf_highlighter.basename.
  rewrite chars_str, (basename_from_plain _ _ Hs). cbn [rev app].
  assert (Hl : List.length ext = 4).
  { apply (f_equal (@List.length ascii)) in He. unfold py.lower in He.
    now rewrite length_map in He. }
  unfold py.lower in *. rewrite map_app, He, ends_with_self.
  rewrite List.length_app, Hl, Nat.add_sub.
  now rewrite firstn_app, Nat.sub_diag, firstn_all, app_nil_r.
Qed.

Lemma display_name_strips_directory_and_extension_witness :
  pdf_highlighter.display_name "scans/1936 Jan 02.PDF" = "1936 Jan 02".
Proof.
  apply (display_name_strips_directory_and_extension
           "scans" (py.chars "1936 Jan 02") (py.chars ".PDF")); reflexivity.
Defined.

(* ================================================================== *)
(** * From the search to the highlighted document *)
(* ================================================================== *)

(** A result of [search_documents] is a result of the two matching
    stages. *)
Lemma search_documents_in_matching
    (term : string) (lines : list Span) (thr : Z)
    (negs : terms_arg) (nd : Q) (sd ed : date_arg)
    (out : list search_function.Match) (m : search_function.Match) :
  search_function.search_documents term (Some lines) thr negs nd sd ed = Ok (Some out) ->
  In m out ->
  exists sr, search_function.matching term thr (read_csv lines) = Ok sr /\ In m sr.
Proof.
  intros H Hin.
  destruct (search_documents_stages _ _ _ _ _ _ _ _ H)
    as (lines' & sr & kept & Hl & Hm & Hn & Hne & ->).
  injection Hl as <-. exists sr. split; [exact Hm |].
  pose proof (matching_index_nodup _ _ _ _ Hm) as Hnd.
  rewrite (negation_filter_kept _ _ _ _ Hnd) in Hn. injection Hn as <-.
  apply (Permutation_in _ (Permutation_sym (sort_values_perm _ _))) in Hin.
  apply date_filter_in in Hin as [Hin _].
  now apply filter_In in Hin as [Hin _].
Qed.

(** X19.  The colours of the highlights of a search for one term: a
    highlight is yellow exactly when the score of its line is 100, it is
    never pink, and it is blue only when the threshold of the search was
    below 80 (with the default threshold every highlight is yellow, orange
    or green). *)
Theorem highlight_colours_of_search
    (term : string) (lines : list Span) (thr : Z)
    (negs : terms_arg) (nd : Q) (sd ed : date_arg)
    (out : list search_function.Match)
    (e : pdf_highlighter.env) (h : pdf_highlighter.Hit) :
  search_function.search_documents term (Some lines) thr negs nd sd ed = Ok (Some out) ->
  In h (pdf_highlighter.lines (io.results_of_search out)) ->
  let c := pdf_highlighter.highlight_color e (io.results_of_search out) h in
  (c = pdf_highlighter.Yellow <-> pdf_highlighter.similarity h = 100%Z)
  /\ c <> pdf_highlighter.Pink
  /\ (c = pdf_highlighter.Blue -> (thr < 80)%Z).
Proof.
  intros H Hin. cbn zeta.
  unfold io.results_of_search in Hin. cbn [pdf_highlighter.lines] in Hin.
  apply in_map_iff in Hin as (m & <- & Hm).
  destruct (search_documents_in_matching _ _ _ _ _ _ _ _ _ H Hm) as (sr & Hsr & Hin).
  destruct (matching_in _ _ _ _ Hsr) as (r & _ & Hall).
  destruct (Hall m Hin) as [_ Hsim].
  unfold pdf_highlighter.highlight_color, io.results_of_search.
  cbn [pdf_highlighter.has_similarity pdf_highlighter.similarity].
  destruct (Z.eqb_spec (search_function.similarity m) 100) as [E | Hne].
  - repeat split; auto; discriminate.
  - destruct (Z.leb_spec 90 (search_function.similarity m));
      [| destruct (Z.leb_spec 80 (search_function.similarity m))].
    + repeat split; try discriminate. intros E. contradiction.
    + repeat split; try discriminate. intros E. contradiction.
    + split; [split; [discriminate | intros E; contradiction] |].
      split; [discriminate |]. intros _.
      destruct Hsim as [[_ E] | (_ & _ & Hthr)]; [contradiction | lia].
Qed.

Lemma highlight_colours_of_search_witness :
  pdf_highlighter.highlight_color scenario.render_env
    (io.results_of_search scenario.rain_matches)
    (pdf_highlighter.mkHit "a.pdf" 0 0 (0 + 40) (0 + 10) 100 "")
  <> pdf_highlighter.Pink.
Proof.
  refine (proj1 (proj2 (highlight_colours_of_search "rain" scenario.three_spans 80
                          TermsNone 100 DateNone DateNone scenario.rain_matches
                          scenario.render_env
                          (pdf_highlighter.mkHit "a.pdf" 0 0 (0 + 40) (0 + 10) 100 "")
                          _ _))).
  - vm_compute. reflexivity.
  - left. reflexivity.
Defined.

(** The path [search_and_highlight] saves the results to ends in [.csv]:
    a custom name gets the extension unless it has it, the default name is
    built with it. *)
Lemma csv_path_csv
    (csv_filename : option string) (search_term : string)
    (negation_terms : terms_arg) (output_directory : string) (available : bool)
    (start_date end_date : option string) :
  py.ends_with (py.chars ".csv")
    (py.chars (io.csv_path csv_filename search_term negation_terms output_directory
                           available start_date end_date))
  = true.
Proof.
  unfold io.csv_path. destruct (py.truthy csv_filename).
  - destruct (py.ends_with (py.chars ".csv") (py.chars (default "" csv_filename)))
      eqn:E; cbn [negb].
    + now apply path_join_ends_with.
    + rewrite chars_str. apply ends_with_self.
  - unfold io.save_search_results. apply path_join_ends_with.
    rewrite chars_str, !app_assoc. apply ends_with_self.
Qed.

(** ** The file of results across a whole run *)

Lemma ends_with_iff (suf s : list ascii) :
  py.ends_with suf s = true <-> exists pre, s = pre ++ suf.
Proof.
  unfold py.ends_with. rewrite starts_with_iff. split.
  - intros [post H]. exists (rev post).
    rewrite <- (rev_involutive s), H, rev_app_distr, rev_involutive. reflexivity.
  - intros [pre ->]. exists (rev pre). apply rev_app_distr.
Qed.

(** A suffix without separator lies in the last component of a path. *)
Lemma suffix_after_slash (suf a b : list ascii) :
  existsb (Ascii.eqb "/") suf = false ->
  py.ends_with suf (a ++ "/"%char :: b) = true -> py.ends_with suf b = true.
Proof.
  intros Hs H. apply ends_with_iff in H as [pre H]. apply ends_with_iff.
  apply app_eq_app in H as [l [[_ H] | [_ H]]].
  - exfalso. apply not_true_iff_false in Hs. apply Hs. apply existsb_exists.
    exists "/"%char. split; [| reflexivity]. rewrite H. apply in_elt.
  - destruct l as [| x l].
    + exfalso. apply not_true_iff_false in Hs. apply Hs. apply existsb_exists.
      exists "/"%char. split; [| reflexivity]. cbn [app] in H. rewrite <- H. now left.
    + injection H as _ H. eauto.
Qed.

Lemma split_from_last (suf cur p : list ascii) :
  existsb (Ascii.eqb "/") suf = false ->
  py.ends_with suf (rev cur ++ p) = true ->
  exists init l,
    pdf_highlighter.split_from cur p = init ++ [l]
    /\ py.ends_with suf (py.chars l) = true.
Proof.
  intros Hs. revert cur. induction p as [| c p IH]; intros cur H;
    cbn [pdf_highlighter.split_from].
  - exists [], (py.str (rev cur)). split; [reflexivity |].
    now rewrite chars_str, <- (app_nil_r (rev cur)).
  - destruct (Ascii.eqb_spec c "/") as [-> | Hc].
    + apply (suffix_after_slash suf _ _ Hs) in H.
      destruct (IH [] H) as (init & l & -> & Hl).
      exists (py.str (rev cur) :: init), l. split; [reflexivity | exact Hl].
    + apply IH. cbn [rev]. now rewrite <- app_assoc.
Qed.

Lemma below_suffix (dir path rest : list string) :
  pdf_highlighter.below dir path = Some rest -> exists d, path = d ++ rest.
Proof.
  revert path. induction dir as [| d dir IH]; intros path H; cbn in H.
  - injection H as <-. now exists [].
  - destruct path as [| c path]; [discriminate |].
    destruct (String.eqb d c); [| discriminate].
    destruct (IH _ H) as [d' ->]. now exists (c :: d').
Qed.

Lemma join_path_last (comps : list string) (l : string) :
  exists pre, pdf_highlighter.join_path (comps ++ [l]) = pre ++ py.chars l.
Proof.
  induction comps as [| c comps [pre IH]].
  - now exists [].
  - cbn [app pdf_highlighter.join_path]. rewrite IH.
    destruct (comps ++ [l]) eqn:E; [now destruct comps |].
    exists (py.chars c ++ "/"%char :: pre). now rewrite <- app_assoc.
Qed.

Lemma is_dot_short (comp : string) :
  pdf_highlighter.is_dot comp = true -> List.length (py.chars comp) <= 2.
Proof.
  unfold pdf_highlighter.is_dot. intros H.
  apply orb_true_iff in H as [H | H]; [apply orb_true_iff in H as [H | H] |];
    apply String.eqb_eq in H; subst comp; cbn; lia.
Qed.

(** The name of the file a path leads to ends as the path does: with the
    same extension. *)
Lemma resolve_ends_with (e : pdf_highlighter.env) (suf : list ascii) (p : string) :
  existsb (Ascii.eqb "/") suf = false ->
  3 <= List.length suf ->
  py.ends_with suf (py.chars p) = true ->
  py.ends_with suf (py.chars (pdf_highlighter.resolve e p)) = true.
Proof.
  intros Hs Hlen H.
  destruct (split_from_last suf [] (py.chars p) Hs H) as (init & l & Hsplit & Hl).
  assert (Hdot : pdf_highlighter.is_dot l = false).
  { apply not_true_iff_false. intros Hd. apply is_dot_short in Hd.
    apply ends_with_iff in Hl as [pre Hl]. rewrite Hl, List.length_app in Hd. lia. }
  assert (Hdd : String.eqb l ".." = false).
  { unfold pdf_highlighter.is_dot in Hdot. now apply orb_false_iff in Hdot as [_ Hdot]. }
  unfold pdf_highlighter.resolve, pdf_highlighter.absolute, pdf_highlighter.split_path.
  rewrite Hsplit, fold_left_app. cbn [fold_left].
  set (dir := fold_left pdf_highlighter.walk init _).
  unfold pdf_highlighter.walk. rewrite Hdd, Hdot.
  destruct (join_path_last dir l) as [pre Hpre].
  destruct (pdf_highlighter.below _ _) as [[| c comps] |] eqn:Eb;
    rewrite chars_str.
  - rewrite Hpre, app_comm_cons. now apply ends_with_app.
  - apply below_suffix in Eb as [d Eb].
    destruct (exists_last (l := c :: comps)) as (comps' & x & E); [discriminate |].
    rewrite E, app_assoc in Eb. apply app_inj_tail in Eb as [_ <-].
    rewrite E. destruct (join_path_last comps' l) as [pre' ->].
    now apply ends_with_app.
  - rewrite Hpre, app_comm_cons. now apply ends_with_app.
Qed.

Lemma csv_not_pdf (n : list ascii) :
  py.ends_with (py.chars ".csv") n = true -> py.ends_with (py.chars ".pdf") n = false.
Proof.
  unfold py.ends_with. intros H. apply starts_with_iff in H as [post H].
  rewrite H. reflexivity.
Qed.

Lemma temp_path_pdf (g : string) :
  py.ends_with (py.chars ".pdf") (py.chars (pdf_highlighter.temp_path_of g)) = true.
Proof.
  unfold pdf_highlighter.temp_path_of. rewrite chars_str, app_assoc.
  apply ends_with_self.
Qed.

Lemma not_pdf_not_tmp (p : string) :
  py.ends_with (py.chars ".pdf") (py.chars p) = false ->
  pdf_highlighter.is_tmp_pdf p = false.
Proof.
  intros H. unfold pdf_highlighter.is_tmp_pdf. rewrite H. apply andb_false_r.
Qed.

(** The renderer removes no file whose name does not end in [.pdf]. *)
Lemma highlight_keeps_other_files (e : pdf_highlighter.env)
    (res : pdf_highlighter.Results) (base outp : string) (wm bm : bool)
    (fs : gset string) (p : string) :
  pdf_highlighter.lines res <> [] ->
  p ∈ fs ->
  py.ends_with (py.chars ".pdf") (py.chars p) = false ->
  p ∈ snd (pdf_highlighter.highlight_search_results e (Some res) base outp wm bm fs).
Proof.
  intros Hne Hp Hpdf.
  rewrite (highlight_value e res base outp wm bm fs Hne).
  set (names := pdf_highlighter.unique_filenames res).
  set (st0 := pdf_highlighter.mkState fs [] [] [] 0 0).
  destruct (process_files_files e res base wm bm fs names names st0)
    as (Hsub & _ & Htemps); [apply incl_refl | auto | auto | intros t [] |].
  cbn zeta in *. set (st := fold_left _ names st0) in *.
  assert (Hgen : forall fs' : gset string,
             (forall q, q ∈ pdf_highlighter.files st -> q ∈ fs') ->
             p ∈ pdf_highlighter.cleanup e (pdf_highlighter.temp_files st) fs').
  { intros fs' Hin. apply cleanup_in. split; [apply Hin, Hsub, Hp |].
    split; [| now apply not_pdf_not_tmp].
    intros Ht. apply in_map_iff in Ht as (t & <- & Ht).
    apply Htemps in Ht as (g & _ & ->).
    rewrite (resolve_ends_with e (py.chars ".pdf")) in Hpdf;
      [discriminate | reflexivity | cbn; lia | apply temp_path_pdf]. }
  destruct (0 <? pdf_highlighter.processed_count st);
    [destruct (pdf_highlighter.write_fails e) |]; cbn [snd]; apply Hgen; auto.
  intros q Hq. apply elem_of_union. now right.
Qed.

(** The renderer called on the file of results that was just written. *)
Lemma render_after_save (e : pdf_highlighter.env) (res : pdf_highlighter.Results)
    (base outp : string) (wm bm : bool) (fs : gset string) (csv : string) :
  pdf_highlighter.lines res <> [] ->
  py.ends_with (py.chars ".csv") (py.chars csv) = true ->
  let r := pipeline.pdf_path_of
             (pdf_highlighter.highlight_search_results e (Some res) base outp wm bm
                ({[ pdf_highlighter.resolve e csv ]} ∪ fs)) in
  pdf_highlighter.resolve e csv ∈ snd r
  /\ (forall p, p ∈ fs -> py.ends_with (py.chars ".pdf") (py.chars p) = false ->
                p ∈ snd r)
  /\ (forall p, fst r = Ok (Some p) -> p = outp).
Proof.
  intros Hne Hcsv. cbn zeta.
  assert (Hsnd : forall x : pdf_highlighter.outcome * gset string,
             snd (pipeline.pdf_path_of x) = snd x).
  { intros [[] ?]; reflexivity. }
  rewrite Hsnd. split; [| split].
  - apply highlight_keeps_other_files; [exact Hne | |].
    + apply elem_of_union. left. now apply elem_of_singleton.
    + apply csv_not_pdf, resolve_ends_with; [reflexivity | cbn; lia | exact Hcsv].
  - intros p Hp Hpdf. apply highlight_keeps_other_files; [exact Hne | | exact Hpdf].
    apply elem_of_union. now right.
  - intros p. rewrite (highlight_value e res base outp wm bm _ Hne). cbn zeta.
    destruct (0 <? _); [destruct (pdf_highlighter.write_fails e) |];
      unfold pipeline.pdf_path_of; cbn [fst snd]; intros H; try discriminate H.
    now injection H.
Qed.

Lemma search_documents_nonempty
    (term : string) (csv_file : option (list Span)) (thr : Z)
    (negs : terms_arg) (nd : Q) (sd ed : date_arg)
    (out : list search_function.Match) :
  search_function.search_documents term csv_file thr negs nd sd ed = Ok (Some out) ->
  out <> [].
Proof.
  intros H.
  destruct (search_documents_stages _ _ _ _ _ _ _ _ H)
    as (lines & sr & kept & _ & _ & _ & Hne & ->).
  intros E. apply Hne.
  apply (Permutation_nil (l := search_function.date_filter sd ed kept)).
  rewrite <- E. apply Permutation_sym, sort_values_perm.
Qed.

Lemma co_search_nonempty
    (terms : list string) (min : Z) (csv_file : option (list Span))
    (negs : terms_arg) (nd : Q) (sd ed : date_arg)
    (out : list co_occurance_search.CoMatch) :
  co_occurance_search.search_documents_co_occurrence terms min csv_file negs nd sd ed
  = Ok (Some out) ->
  out <> [].
Proof.
  intros H.
  destruct (co_search_stages _ _ _ _ _ _ _ _ H)
    as (lines & found & kept & _ & _ & _ & _ & Hne & ->).
  intros E. apply Hne.
  apply (Permutation_nil (l := co_occurance_search.date_filter sd ed kept)).
  rewrite <- E. apply Permutation_sym, sort_values_perm.
Qed.

Lemma map_nonempty {A B} (f : A -> B) (l : list A) : l <> [] -> map f l <> [].
Proof. destruct l; [congruence | discriminate]. Qed.

(** X20.  [search_and_highlight]: when the search finds nothing, or
    raises, nothing is written.  Otherwise the results are saved to a path
    that ends in [.csv], and once saved that file is still there when the
    call ends, whatever the renderer does (a PDF, no page processed, an
    exception); no file that was there and is not a [.pdf] is removed; and
    the path returned, if any, is the path of the PDF the renderer
    computes from the path of the results. *)
Theorem search_and_highlight_keeps_results_file
    (w : pipeline.world) (fs : gset string)
    (search_term base_folder output_directory : string) (similarity_threshold : Z)
    (negation_terms : terms_arg) (negation_distance : Q)
    (start_date end_date : option string) (add_watermarks add_bookmarks : bool)
    (csv_filename pdf_filename : option string) :
  let r := pipeline.search_and_highlight w fs search_term base_folder output_directory
             similarity_threshold negation_terms negation_distance
             start_date end_date add_watermarks add_bookmarks
             csv_filename pdf_filename in
  let available := pipeline.directory_available w output_directory in
  let csv_path := io.csv_path csv_filename search_term negation_terms
                    output_directory available start_date end_date in
  match search_function.search_documents search_term (pipeline.corpus w)
          similarity_threshold negation_terms negation_distance
          (pipeline.date_bound w start_date) (pipeline.date_bound w end_date) with
  | Raise e => r = (Raise e, fs)
  | Ok None => r = (Ok None, fs)
  | Ok (Some _) =>
      py.ends_with (py.chars ".csv") (py.chars csv_path) = true
      /\ if pipeline.to_csv_fails w csv_path
         then r = (Raise (IOError csv_path), fs)
         else pdf_highlighter.resolve (pipeline.pdf w) csv_path ∈ snd r
              /\ (forall p, p ∈ fs ->
                            py.ends_with (py.chars ".pdf") (py.chars p) = false ->
                            p ∈ snd r)
              /\ (forall p, fst r = Ok (Some p) ->
                            p = io.output_pdf_path csv_path output_directory available
                                  (if py.truthy pdf_filename then pdf_filename
                                   else None))
  end.
Proof.
  cbn zeta. unfold pipeline.search_and_highlight.
  destruct (search_function.search_documents _ _ _ _ _ _ _) as [[out |] | e] eqn:Hs;
    try reflexivity.
  split; [apply csv_path_csv |].
  destruct (pipeline.to_csv_fails w _); [reflexivity |].
  destruct (render_after_save (pipeline.pdf w) (io.results_of_search out) base_folder
              (io.output_pdf_path
                 (io.csv_path csv_filename search_term negation_terms output_directory
                    (pipeline.directory_available w output_directory)
                    start_date end_date)
                 output_directory (pipeline.directory_available w output_directory)
                 (if py.truthy pdf_filename then pdf_filename else None))
              add_watermarks add_bookmarks fs
              (io.csv_path csv_filename search_term negation_terms output_directory
                 (pipeline.directory_available w output_directory)
                 start_date end_date))
    as (H1 & H2 & H3).
  - apply map_nonempty. exact (search_documents_nonempty _ _ _ _ _ _ _ _ Hs).
  - apply csv_path_csv.
  - now split.
Qed.

Lemma save_co_occurrence_results_csv (terms : list string) (min : Z)
    (negs : terms_arg) (dir : string) (available : bool) (drs : string) :
  py.ends_with (py.chars ".csv")
    (py.chars (io.save_co_occurrence_results terms min negs dir available drs)) = true.
Proof.
  unfold io.save_co_occurrence_results. apply path_join_ends_with.
  rewrite chars_str. apply ends_with_self.
Qed.

(** X21.  [search_and_highlight_co_occurrence]: when the search finds
    nothing, or raises, nothing is written.  Otherwise the results are
    saved to a path that ends in [.csv], and once saved that file is still
    there when the call ends, whatever the renderer does; no file that was
    there and is not a [.pdf] is removed; and the path returned, if any, is
    the default path the renderer computes from the path of the
    results. *)
Theorem search_and_highlight_co_occurrence_keeps_results_file
    (w : pipeline.world) (fs : gset string)
    (terms : list string) (min_terms_required : Z)
    (base_folder output_directory : string)
    (negation_terms : terms_arg) (negation_distance : Q)
    (start_date end_date : option string) :
  let r := pipeline.search_and_highlight_co_occurrence w fs terms min_terms_required
             base_folder output_directory negation_terms negation_distance
             start_date end_date in
  let available := pipeline.directory_available w output_directory in
  let csv_path := io.save_co_occurrence_results terms min_terms_required negation_terms
                    output_directory available
                    (io.date_range_str start_date end_date) in
  match co_occurance_search.search_documents_co_occurrence terms min_terms_required
          (pipeline.corpus w) negation_terms negation_distance
          (pipeline.date_bound w start_date) (pipeline.date_bound w end_date) with
  | Raise e => r = (Raise e, fs)
  | Ok None => r = (Ok None, fs)
  | Ok (Some _) =>
      py.ends_with (py.chars ".csv") (py.chars csv_path) = true
      /\ if pipeline.to_csv_fails w csv_path
         then r = (Raise (IOError csv_path), fs)
         else pdf_highlighter.resolve (pipeline.pdf w) csv_path ∈ snd r
              /\ (forall p, p ∈ fs ->
                            py.ends_with (py.chars ".pdf") (py.chars p) = false ->
                            p ∈ snd r)
              /\ (forall p, fst r = Ok (Some p) ->
                            p = io.output_pdf_path csv_path output_directory available
                                  None)
  end.
Proof.
  cbn zeta. unfold pipeline.search_and_highlight_co_occurrence.
  destruct (co_occurance_search.search_documents_co_occurrence _ _ _ _ _ _ _)
    as [[out |] | e] eqn:Hs; try reflexivity.
  split; [apply save_co_occurrence_results_csv |].
  cbv zeta. destruct (pipeline.to_csv_fails w _); [reflexivity |].
  destruct (render_after_save (pipeline.pdf w) (io.results_of_co_occurrence out)
              base_folder
              (io.output_pdf_path
                 (io.save_co_occurrence_results terms min_terms_required negation_terms
                    output_directory (pipeline.directory_available w output_directory)
                    (io.date_range_str start_date end_date))
                 output_directory (pipeline.directory_available w output_directory) None)
              false false fs
              (io.save_co_occurrence_results terms min_terms_required negation_terms
                 output_directory (pipeline.directory_available w output_directory)
                 (io.date_range_str start_date end_date)))
    as (H1 & H2 & H3).
  - apply map_nonempty. exact (co_search_nonempty _ _ _ _ _ _ _ _ Hs).
  - apply save_co_occurrence_results_csv.
  - now split.
Qed.
